(** * TextBox trainers: a shallow embedding of [textbox/trainer/trainer.py]

    The training loops of [Trainer], [GANTrainer] and [MaskGANTrainer] are
    embedded as computations in a state-and-exception monad over a [world]
    that holds the trainer object ([self]), the numeric state owned by torch
    (parameters, gradients, optimizer buffers, random generator), the
    checkpoint files on disk and the chronological trace of the operations
    the trainer issued.  Python floats are IEEE-754 binary64 values
    ([PrimFloat.float]), Python ints are [Z], [None] is [option]'s [None],
    and a Python exception is an [exn] carried by [Raise]. *)

From Stdlib Require Import ZArith List String Ascii Bool Lia DecimalString DecimalZ.
From Stdlib Require Import PrimFloat Uint63.
From stdpp Require Import gmap strings.

Import ListNotations.
Local Open Scope string_scope.
Local Open Scope list_scope.
Local Open Scope Z_scope.

(** ** Python exceptions and the outcome of a call *)

Inductive exn : Type :=
| ValueError (msg : string)
| TypeError (msg : string)
| AttributeError (attr : string)
| KeyError (key : string)
| ZeroDivisionError
| StopIteration
| FileNotFoundError (path : string)
| RuntimeError (msg : string).

Inductive outcome (A : Type) : Type :=
| Ok (a : A)
| Raise (e : exn).
Arguments Ok {A} a.
Arguments Raise {A} e.

Definition Ok_inj {A} {a b : A} (H : Ok a = Ok b) : a = b :=
  f_equal (fun o => match o with Ok x => x | Raise _ => a end) H.

Definition is_ok {A} (o : outcome A) : bool :=
  match o with Ok _ => true | Raise _ => false end.

(** ** The state-and-exception monad

    A raised exception keeps the world as it was when the exception left the
    statement that raised it: what was written or logged before stays. *)

Module Py.

Definition M (W A : Type) : Type := W -> outcome A * W.

Definition ret {W A} (a : A) : M W A := fun w => (Ok a, w).

Definition raise {W A} (e : exn) : M W A := fun w => (Raise e, w).

Definition bind {W A B} (m : M W A) (k : A -> M W B) : M W B :=
  fun w => match m w with
           | (Ok a, w') => k a w'
           | (Raise e, w') => (Raise e, w')
           end.

Definition gets {W A} (f : W -> A) : M W A := fun w => (Ok (f w), w).

Definition modify {W} (f : W -> W) : M W unit := fun w => (Ok tt, f w).

(** [try: m except StopIteration: h] *)
Definition try_except_StopIteration {W A} (m : M W A) (h : M W A) : M W A :=
  fun w => match m w with
           | (Raise StopIteration, w') => h w'
           | r => r
           end.

(** [for x in xs: s = body(s, x)], the loop variable being threaded. *)
Fixpoint for_fold {W A S} (xs : list A) (body : S -> A -> M W S) (s : S) : M W S :=
  match xs with
  | [] => ret s
  | x :: rest => bind (body s x) (for_fold rest body)
  end.

(** The signal a loop body leaves: go on with the next element, or [break]. *)
Inductive ctl : Type := Next | Break.

Fixpoint for_each {W A} (xs : list A) (body : A -> M W ctl) : M W unit :=
  match xs with
  | [] => ret tt
  | x :: rest =>
      bind (body x) (fun c => match c with
                              | Next => for_each rest body
                              | Break => ret tt
                              end)
  end.

End Py.

Declare Scope py_scope.
Delimit Scope py_scope with py.
Notation "'let*' x ':=' m 'in' k" := (Py.bind m (fun x => k))
  (at level 10, x name, m at level 100, k at level 200) : py_scope.
Notation "'let*' ' p ':=' m 'in' k" := (Py.bind m (fun p => k))
  (at level 10, p pattern, m at level 100, k at level 200) : py_scope.
Notation "m ';;;' k" := (Py.bind m (fun _ => k))
  (at level 100, k at level 200, right associativity) : py_scope.
Local Open Scope py_scope.

(** [range(a, b)] and [range(n)] *)
Definition py_range (a b : Z) : list Z :=
  map (fun i => a + Z.of_nat i) (seq 0 (Z.to_nat (b - a))).

(** ** Strings: [str.lower] on the ASCII range and [os.path.join] (posix) *)

Definition lower_ascii (c : ascii) : ascii :=
  let n := nat_of_ascii c in
  if (Nat.leb 65 n && Nat.leb n 90)%bool then ascii_of_nat (n + 32) else c.

Fixpoint lower (s : string) : string :=
  match s with
  | EmptyString => EmptyString
  | String c rest => String (lower_ascii c) (lower rest)
  end.

Definition starts_with_sep (s : string) : bool :=
  match s with
  | String c _ => Ascii.eqb c "/"
  | EmptyString => false
  end.

Fixpoint ends_with_sep (s : string) : bool :=
  match s with
  | EmptyString => false
  | String c EmptyString => Ascii.eqb c "/"
  | String _ rest => ends_with_sep rest
  end.

Definition os_path_join (a b : string) : string :=
  if starts_with_sep b then b
  else if (String.eqb a "" || ends_with_sep a)%bool then a +:+ b
  else a +:+ "/" +:+ b.

(** ** Floats *)

Definition float_of_Z (n : Z) : float :=
  if n <? 0 then PrimFloat.opp (PrimFloat.of_uint63 (Uint63.of_Z (- n)))
  else PrimFloat.of_uint63 (Uint63.of_Z n).

(** [x / n] for a float [x] and an int [n]: Python raises on a zero divisor. *)
Definition float_div_int (x : float) (n : Z) : outcome float :=
  if n =? 0 then Raise ZeroDivisionError else Ok (PrimFloat.div x (float_of_Z n)).

(** [x / y] for two floats. *)
Definition float_div (x y : float) : outcome float :=
  if PrimFloat.eqb y 0%float then Raise ZeroDivisionError else Ok (PrimFloat.div x y).

(** ** Loss values

    [losses] is what a loss contract of the model returns: one scalar tensor
    or a tuple of scalar tensors.  [total] is a non-[None] value of the
    running [total_loss]: a Python float or a tuple of floats. *)

Inductive losses : Type :=
| Tensor (x : float)
| TensorTuple (xs : list float).

Inductive total : Type :=
| TFloat (x : float)
| TTuple (xs : list float).

(** [sum(xs)] over a non-empty sequence of floats or tensors: [0 + x0 + x1 + ...]. *)
Definition float_sum (xs : list float) : float := fold_left PrimFloat.add xs 0%float.

(** [sum(losses)] for a tuple of tensors; the sum of the empty tuple is the
    int [0], not a tensor: [None] here. *)
Definition py_sum (xs : list float) : option float :=
  match xs with
  | [] => None
  | _ => Some (float_sum xs)
  end.

(** [tuple(map(sum, zip(a, b)))]: [zip] stops at the shorter argument. *)
Fixpoint zip_sum (a b : list float) : list float :=
  match a, b with
  | x :: a', y :: b' => float_sum [x; y] :: zip_sum a' b'
  | _, _ => []
  end.

(** The aggregation every step performs (lines 144-150, 441-447, 778-784):
    the combined loss that is checked and back-propagated, and the new
    running total. *)
Definition accumulate (l : losses) (total_loss : option total)
  : outcome (option float * total) :=
  match l with
  | TensorTuple xs =>
      let loss := py_sum xs in
      match total_loss with
      | None => Ok (loss, TTuple xs)
      | Some (TTuple ts) => Ok (loss, TTuple (zip_sum ts xs))
      | Some (TFloat _) => Raise (TypeError "'float' object is not iterable")
      end
  | Tensor x =>
      match total_loss with
      | None => Ok (Some x, TFloat x)
      | Some (TFloat t) => Ok (Some x, TFloat (PrimFloat.add t x))
      | Some (TTuple _) => Raise (TypeError "can only concatenate tuple to tuple")
      end
  end.

(** [Trainer._check_nan]: [torch.isnan] wants a tensor, and only a NaN raises. *)
Definition _check_nan (loss : option float) : outcome unit :=
  match loss with
  | None => Raise (TypeError "isnan(): argument 'input' must be Tensor, not int")
  | Some x =>
      if PrimFloat.is_nan x then Raise (ValueError "Training loss is nan") else Ok tt
  end.

(** [total_loss / n] where [n] is an int: only a float can be divided. *)
Definition total_div_int (total_loss : option total) (n : Z) : outcome float :=
  match total_loss with
  | Some (TFloat x) => float_div_int x n
  | Some (TTuple _) => Raise (TypeError "unsupported operand type(s) for /: 'tuple' and 'int'")
  | None => Raise (TypeError "unsupported operand type(s) for /: 'NoneType' and 'int'")
  end.

(** [total_loss / n] where [n] is a float. *)
Definition total_div_float (total_loss : option total) (n : float) : outcome float :=
  match total_loss with
  | Some (TFloat x) => float_div x n
  | Some (TTuple _) => Raise (TypeError "unsupported operand type(s) for /: 'tuple' and 'float'")
  | None => Raise (TypeError "unsupported operand type(s) for /: 'NoneType' and 'float'")
  end.

(** [np.exp(x)]: the perplexity is kept as the exponential of its argument;
    on overflow numpy returns infinity and does not raise. *)
Inductive np_float64 : Type := np_exp (x : float).

(** ** Configuration, optimizers, checkpoints *)

Record config : Type := Config {
  cfg_model : string;
  cfg_learner : string;
  cfg_learning_rate : float;
  cfg_epochs : Z;
  cfg_eval_step : Z;
  cfg_stopping_step : Z;
  cfg_checkpoint_dir : string;
  cfg_grad_clip : float;
  cfg_g_pretraining_epochs : Z;
  cfg_d_pretraining_epochs : Z;
  cfg_d_sample_num : Z;
  cfg_d_sample_training_epochs : Z;
  cfg_adversarail_training_epochs : Z;
  cfg_adversarail_d_epochs : Z;
  cfg_adversarail_c_epochs : Z;
  cfg_max_seq_length : Z
}.

Inductive learner_kind : Type := Adam | SGD | Adagrad | RMSprop.

(** The parameters an optimizer is bound to. *)
Inductive param_group : Type :=
| ModelParameters
| GeneratorParameters
| DiscriminatorParameters
| ManagerParams
| WorkerParams.

Record optimizer_t : Type := Optim {
  opt_kind : learner_kind;
  opt_params : param_group;
  opt_lr : float
}.

(** What [_build_module_optimizer] returns: one optimizer, or the pair
    [(manager_opt, worker_opt)]. *)
Inductive optimizer_handle : Type :=
| OneOptimizer (o : optimizer_t)
| ManagerWorker (manager_opt worker_opt : optimizer_t).

Inductive module : Type := Generator | Discriminator.

Definition module_parameters (m : module) : param_group :=
  match m with
  | Generator => GeneratorParameters
  | Discriminator => DiscriminatorParameters
  end.

(** The dict [_save_checkpoint] hands to [torch.save]; the key ['optimizer']
    may be absent. *)
Record checkpoint (Params OptSD : Type) : Type := Checkpoint {
  ck_config : config;
  ck_epoch : Z;
  ck_cur_step : Z;
  ck_best_valid_score : float;
  ck_state_dict : Params;
  ck_optimizer : option OptSD
}.
Arguments Checkpoint {Params OptSD}.
Arguments ck_config {Params OptSD}.
Arguments ck_epoch {Params OptSD}.
Arguments ck_cur_step {Params OptSD}.
Arguments ck_best_valid_score {Params OptSD}.
Arguments ck_state_dict {Params OptSD}.
Arguments ck_optimizer {Params OptSD}.

(** ** The model and torch, seen from the trainer

    The trainer reaches the model, the optimizers and the data loaders only
    through calls.  Each call is recorded in the trace; what it computes is
    the backend's business. *)

Inductive pynum : Type := PyInt (n : Z) | PyFloat (x : float).

(** The loss contracts of the model, with the arguments the trainers pass. *)
Inductive call (Data : Type) : Type :=
| calculate_loss (data : Data) (epoch_idx : option Z)
| calculate_g_train_loss (data : Data) (is_advtrain : option bool) (epoch_idx : Z)
| calculate_d_train_loss (args : list Data) (epoch_idx : Z) (is_advtrain : option bool)
| calculate_g_adversarial_loss (args : list Data) (epoch_idx : pynum).
Arguments calculate_loss {Data}.
Arguments calculate_g_train_loss {Data}.
Arguments calculate_d_train_loss {Data}.
Arguments calculate_g_adversarial_loss {Data}.

(** Which tensor of a call's result [backward] is run on. *)
Inductive which : Type :=
| Combined                (* the scalar, or [sum(losses)] *)
| Component (i : nat)     (* [losses[i]], in [_optimize_multi_step] *)
| GenLosses               (* first half of MaskGAN's adversarial pair *)
| CriticLosses.           (* second half of that pair *)

Inductive torch_op (Data : Type) : Type :=
| model_train
| model_eval
| generator_train
| discriminator_train
| forward (c : call Data)
| zero_grad (o : optimizer_t)
| backward (c : call Data) (t : which) (retain_graph : bool)
| clip_grad_norm_ (p : param_group) (max_norm : float)
| step (o : optimizer_t)
| model_sample (n : option Z)
| dataloader_iter (data : Data)
| np_random_randint (data : Data).
Arguments model_train {Data}.
Arguments model_eval {Data}.
Arguments generator_train {Data}.
Arguments discriminator_train {Data}.
Arguments forward {Data}.
Arguments zero_grad {Data}.
Arguments backward {Data}.
Arguments clip_grad_norm_ {Data}.
Arguments step {Data}.
Arguments model_sample {Data}.
Arguments dataloader_iter {Data}.
Arguments np_random_randint {Data}.

(** Log records; the elapsed times of the source's messages are left out. *)
Inductive message : Type :=
| Text (s : string)
| TrainLossOutput (epoch_idx : Z) (train_info : string) (losses : total)
| ValidScoreOutput (epoch_idx : Z) (valid_score : float)
| ValidResultOutput (valid_result : np_float64)
| FinishedTraining (best_epoch : Z)
| CheckpointLoaded (start_epoch : Z).

(** What a loss contract returned: one loss value, or MaskGAN's pair. *)
Inductive call_result : Type :=
| Losses (l : losses)
| LossesPair (gen_losses critic_losses : losses).

Inductive event (Data Params OptSD : Type) : Type :=
| TorchOp (o : torch_op Data)
| model_call (c : call Data) (r : call_result)
| torch_save (path : string) (state : checkpoint Params OptSD)
| logger_info (m : message)
| logger_warning (m : message).
Arguments TorchOp {Data Params OptSD}.
Arguments model_call {Data Params OptSD}.
Arguments torch_save {Data Params OptSD}.
Arguments logger_info {Data Params OptSD}.
Arguments logger_warning {Data Params OptSD}.

(** The contract of the collaborators.  [Torch] is everything torch owns:
    parameters, gradients, optimizer buffers, the random generator. *)
Class Backend (Data Params OptSD Torch : Type) : Type := {
  (** the value a loss contract returns in the current state *)
  loss_of : Torch -> call Data -> losses;
  (** MaskGAN's [calculate_g_adversarial_loss] returns a pair *)
  loss_pair_of : Torch -> call Data -> losses * losses;
  (** the effect of an operation on torch's state *)
  run : torch_op Data -> Torch -> Torch;
  state_dict : Torch -> Params;
  optimizer_state_dict : Torch -> OptSD;
  load_state_dict : Params -> Torch -> outcome Torch;
  optimizer_load_state_dict : OptSD -> Torch -> outcome Torch;
  (** [model.sample(n)] *)
  sample_of : Torch -> option Z -> Data;
  (** [model.sample()] of TextGAN: the pair [(fake_data, z)] *)
  sample_pair_of : Torch -> Data * Data;
  (** RankGAN's reference set: [real_data[ref_index]] for [ref_index =
      np.random.randint(0, real_data.shape[0], size=model.ref_size)], which
      raises when there is no row to draw from *)
  ref_data_of : Torch -> Data -> outcome Data;
  (** the batches one pass over [DataLoader(data, batch_size, shuffle=True,
      drop_last=True)] yields now, and the loader's [len] *)
  batches_of : Torch -> Data -> Z -> list Data;
  loader_len : Data -> Z -> Z;
  (** [_get_real_data]: pad every [target_idx] to [max_length] with
      [pad_idx] and concatenate *)
  cat_padded : Z -> Z -> list Data -> outcome Data;
  (** a state dict that was accepted is the model's state dict *)
  load_state_dict_spec :
    forall p t t', load_state_dict p t = Ok t' -> state_dict t' = p;
  (** loading an optimizer state leaves the parameters alone *)
  optimizer_load_state_dict_spec :
    forall s t t', optimizer_load_state_dict s t = Ok t' ->
                   state_dict t' = state_dict t /\ optimizer_state_dict t' = s
}.

(** ** The trainer object and the world *)

(** What the trainers read from [self.model]. *)
Record model_info : Type := ModelInfo {
  generator_name : string;       (* [model.generator._get_name()] *)
  discriminator_name : string;   (* [model.discriminator._get_name()] *)
  batch_size : Z;
  pad_idx : Z
}.

Definition module_name (m : model_info) (md : module) : string :=
  match md with
  | Generator => generator_name m
  | Discriminator => discriminator_name m
  end.

(** The fields a checkpoint persists, and the best-result cache. *)
Record training_state : Type := TrainingState {
  start_epoch : Z;
  cur_step : Z;
  best_valid_score : float;
  best_valid_result : option np_float64
}.

Record history : Type := History {
  train_loss_ppl_dict : gmap Z (float * np_float64);
  g_pretraining_loss_dict : gmap Z float;
  d_pretraining_loss_dict : gmap Z float
}.

(** [self].  An attribute that [__init__] binds to [None] is [None] here. *)
Record trainer : Type := TrainerObj {
  self_config : config;
  self_model : model_info;
  eval_step : Z;
  saved_model_file : string;
  optimizer : option optimizer_t;
  g_optimizer : option optimizer_handle;
  d_optimizer : option optimizer_handle;
  state : training_state;
  hist : history
}.

Definition learner (s : trainer) : string := cfg_learner (self_config s).
Definition learning_rate (s : trainer) : float := cfg_learning_rate (self_config s).
Definition epochs (s : trainer) : Z := cfg_epochs (self_config s).
Definition stopping_step (s : trainer) : Z := cfg_stopping_step (self_config s).
Definition checkpoint_dir (s : trainer) : string := cfg_checkpoint_dir (self_config s).
Definition grad_clip (s : trainer) : float := cfg_grad_clip (self_config s).
Definition g_pretraining_epochs (s : trainer) : Z := cfg_g_pretraining_epochs (self_config s).
Definition d_pretraining_epochs (s : trainer) : Z := cfg_d_pretraining_epochs (self_config s).
Definition d_sample_num (s : trainer) : Z := cfg_d_sample_num (self_config s).
Definition d_sample_training_epochs (s : trainer) : Z :=
  cfg_d_sample_training_epochs (self_config s).
Definition adversarail_training_epochs (s : trainer) : Z :=
  cfg_adversarail_training_epochs (self_config s).
Definition adversarail_d_epochs (s : trainer) : Z := cfg_adversarail_d_epochs (self_config s).
Definition max_length (s : trainer) : Z := cfg_max_seq_length (self_config s) + 2.

Definition set_state (f : training_state -> training_state) (s : trainer) : trainer :=
  TrainerObj (self_config s) (self_model s) (eval_step s) (saved_model_file s)
             (optimizer s) (g_optimizer s) (d_optimizer s) (f (state s)) (hist s).

Definition set_hist (f : history -> history) (s : trainer) : trainer :=
  TrainerObj (self_config s) (self_model s) (eval_step s) (saved_model_file s)
             (optimizer s) (g_optimizer s) (d_optimizer s) (state s) (f (hist s)).

Definition set_optimizers (o : option optimizer_t) (g d : option optimizer_handle)
           (s : trainer) : trainer :=
  TrainerObj (self_config s) (self_model s) (eval_step s) (saved_model_file s)
             o g d (state s) (hist s).

Record world (Data Params OptSD Torch : Type) : Type := World {
  self : trainer;
  torch : Torch;
  disk : gmap string (checkpoint Params OptSD);
  trace : list (event Data Params OptSD)
}.
Arguments World {Data Params OptSD Torch}.
Arguments self {Data Params OptSD Torch}.
Arguments torch {Data Params OptSD Torch}.
Arguments disk {Data Params OptSD Torch}.
Arguments trace {Data Params OptSD Torch}.

Section Primitives.
Context {Data Params OptSD Torch : Type} `{B : Backend Data Params OptSD Torch}.

Local Abbreviation W := (world Data Params OptSD Torch).
Local Abbreviation M := (Py.M W).

Definition lift {A} (o : outcome A) : M A := fun w => (o, w).

Definition emit (e : event Data Params OptSD) : M unit :=
  Py.modify (fun w => World (self w) (torch w) (disk w) (trace w ++ [e])).

Definition update_self (f : trainer -> trainer) : M unit :=
  Py.modify (fun w => World (f (self w)) (torch w) (disk w) (trace w)).

(** an operation on the model, an optimizer or a loader *)
Definition torch_do (o : torch_op Data) : M unit :=
  Py.modify (fun w => World (self w) (run o (torch w)) (disk w) (trace w ++ [TorchOp o])).

(** a call of a loss contract: the trace keeps the call and what it returned *)
Definition call_loss (c : call Data) : M losses :=
  let* l := Py.gets (fun w => loss_of (torch w) c) in
  Py.modify (fun w => World (self w) (run (forward c) (torch w)) (disk w)
                            (trace w ++ [model_call c (Losses l)])) ;;;
  Py.ret l.

Definition call_loss_pair (c : call Data) : M (losses * losses) :=
  let* l := Py.gets (fun w => loss_pair_of (torch w) c) in
  Py.modify (fun w => World (self w) (run (forward c) (torch w)) (disk w)
                            (trace w ++ [model_call c (LossesPair (fst l) (snd l))])) ;;;
  Py.ret l.

(** [torch.save(state, path)] *)
Definition save_file (path : string) (ck : checkpoint Params OptSD) : M unit :=
  Py.modify (fun w => World (self w) (torch w) (<[path := ck]> (disk w))
                            (trace w ++ [torch_save path ck])).

(** [torch.load(path)] *)
Definition load_file (path : string) : M (checkpoint Params OptSD) :=
  fun w => match disk w !! path with
           | Some ck => (Ok ck, w)
           | None => (Raise (FileNotFoundError path), w)
           end.

Definition when (b : bool) (m : M unit) : M unit := if b then m else Py.ret tt.

(** [self.model.load_state_dict(p)] and [opt.load_state_dict(s)] *)
Definition do_load_state_dict (p : Params) : M unit :=
  fun w => match load_state_dict p (torch w) with
           | Ok t' => (Ok tt, World (self w) t' (disk w) (trace w))
           | Raise e => (Raise e, w)
           end.

Definition do_optimizer_load_state_dict (s : OptSD) : M unit :=
  fun w => match optimizer_load_state_dict s (torch w) with
           | Ok t' => (Ok tt, World (self w) t' (disk w) (trace w))
           | Raise e => (Raise e, w)
           end.

End Primitives.

(** ** [textbox.utils] *)

Module Utils.

(** Modelled from the spec: [early_stopping], which [trainer.py] imports from
    [textbox.utils], is not in the source files at hand.  Section 4.4 of the
    specification gives its contract: the improvement test follows the
    direction flag, an improvement resets the patience counter and replaces
    the best score, anything else adds one to the counter, and stopping is
    asked for once the counter reaches a positive [max_step]. *)
Definition early_stopping (new_score best_score : float) (cur_step max_step : Z)
           (bigger_is_better : bool) : float * Z * bool * bool :=
  let improved :=
    if bigger_is_better then PrimFloat.ltb best_score new_score
    else PrimFloat.ltb new_score best_score in
  let updated_best := if improved then new_score else best_score in
  let updated_cur_step := if improved then 0 else cur_step + 1 in
  let should_stop := ((0 <? max_step) && (max_step <=? updated_cur_step))%bool in
  (updated_best, updated_cur_step, should_stop, improved).

End Utils.

(** The type of the early-stopping policy [fit] is given. *)
Definition policy : Type := float -> float -> Z -> Z -> bool -> float * Z * bool * bool.

(** ** [class Trainer] *)

Module Trainer.
Section Methods.
Context {Data Params OptSD Torch : Type} `{B : Backend Data Params OptSD Torch}.
Variable early_stopping : policy.

Local Abbreviation W := (world Data Params OptSD Torch).
Local Abbreviation M := (Py.M W).

(** [self.optimizer.<method>]: an attribute of [None] cannot be fetched. *)
Definition get_optimizer (attr : string) : M optimizer_t :=
  let* o := Py.gets (fun w => optimizer (self w)) in
  match o with
  | Some opt => Py.ret opt
  | None => Py.raise (AttributeError attr)
  end.

Definition unrecognized_optimizer : message :=
  Text "Received unrecognized optimizer, set default Adam optimizer".

(** lines 107-124 *)
Definition _build_optimizer : M optimizer_t :=
  let* learner := Py.gets (fun w => learner (self w)) in
  let* lr := Py.gets (fun w => learning_rate (self w)) in
  if String.eqb (lower learner) "adam" then
    Py.ret (Optim Adam ModelParameters lr)
  else if String.eqb (lower learner) "sgd" then
    Py.ret (Optim SGD ModelParameters lr)
  else if String.eqb (lower learner) "adagrad" then
    Py.ret (Optim Adagrad ModelParameters lr)
  else if String.eqb (lower learner) "rmsprop" then
    Py.ret (Optim RMSprop ModelParameters lr)
  else
    emit (logger_warning unrecognized_optimizer) ;;;
    Py.ret (Optim Adam ModelParameters lr).

(** [Trainer.__init__] (lines 72-105), [now] being what [get_local_time()]
    returns.  The evaluator and the item fields play no part in training. *)
Definition __init__ (cfg : config) (model : model_info) (now : string)
           (t : Torch) (d : gmap string (checkpoint Params OptSD)) : outcome unit * W :=
  let file := cfg_model cfg +:+ "-" +:+ now +:+ ".pth" in
  let s := TrainerObj cfg model (Z.min (cfg_eval_step cfg) (cfg_epochs cfg))
                      (os_path_join (cfg_checkpoint_dir cfg) file)
                      None None None
                      (TrainingState 0 0 100000000%float None)
                      (History ∅ ∅ ∅) in
  (let* o := _build_optimizer in
   update_self (set_optimizers (Some o) None None)) (World s t d []).

(** The body of the loop of [_train_epoch] (lines 141-153). *)
Definition train_step (epoch_idx : Z) (total_loss : option total) (data : Data)
  : M (option total) :=
  let* opt := get_optimizer "zero_grad" in
  torch_do (zero_grad opt) ;;;
  let c := calculate_loss data (Some epoch_idx) in
  let* losses := call_loss c in
  let* '(loss, total_loss) := lift (accumulate losses total_loss) in
  lift (_check_nan loss) ;;;
  torch_do (backward c Combined false) ;;;
  torch_do (step opt) ;;;
  Py.ret (Some total_loss).

(** lines 126-156; a [DataLoader] is the list of its batches *)
Definition _train_epoch (train_data : list Data) (epoch_idx : Z) : M (float * np_float64) :=
  torch_do model_train ;;;
  let* total_loss := Py.for_fold train_data (train_step epoch_idx) None in
  let* train_loss := lift (total_div_int total_loss (Z.of_nat (length train_data))) in
  let ppl := np_exp train_loss in
  Py.ret (train_loss, ppl).

(** The body of the loop of [_valid_epoch] (lines 171-181). *)
Definition valid_step (total_loss : option total) (data : Data) : M (option total) :=
  let* opt := get_optimizer "zero_grad" in
  torch_do (zero_grad opt) ;;;
  let c := calculate_loss data None in
  let* losses := call_loss c in
  let* '(loss, total_loss) := lift (accumulate losses total_loss) in
  lift (_check_nan loss) ;;;
  Py.ret (Some total_loss).

(** lines 158-185 *)
Definition _valid_epoch (valid_data : list Data) : M (float * np_float64) :=
  torch_do model_eval ;;;
  let* total_loss := Py.for_fold valid_data valid_step None in
  let* opt := get_optimizer "zero_grad" in
  torch_do (zero_grad opt) ;;;
  let* valid_loss := lift (total_div_int total_loss (Z.of_nat (length valid_data))) in
  let ppl := np_exp valid_loss in
  Py.ret (valid_loss, ppl).

(** lines 187-202 *)
Definition _save_checkpoint (epoch : Z) : M unit :=
  let* s := Py.gets self in
  let* sd := Py.gets (fun w => state_dict (torch w)) in
  get_optimizer "state_dict" ;;;
  let* osd := Py.gets (fun w => optimizer_state_dict (torch w)) in
  let state := Checkpoint (self_config s) epoch (cur_step (state s))
                          (best_valid_score (state s)) sd (Some osd) in
  save_file (saved_model_file s) state.

Definition architecture_warning : message :=
  Text ("Architecture configuration given in config file is different from that of checkpoint. "
        +:+ "This may yield an exception while state_dict is being loaded.").

(** lines 204-226 *)
Definition resume_checkpoint (resume_file : string) : M unit :=
  let* checkpoint := load_file resume_file in
  update_self (set_state (fun st =>
    TrainingState (ck_epoch checkpoint + 1) (cur_step st)
                  (best_valid_score st) (best_valid_result st))) ;;;
  update_self (set_state (fun st =>
    TrainingState (start_epoch st) (ck_cur_step checkpoint)
                  (best_valid_score st) (best_valid_result st))) ;;;
  update_self (set_state (fun st =>
    TrainingState (start_epoch st) (cur_step st)
                  (ck_best_valid_score checkpoint) (best_valid_result st))) ;;;
  let* cfg := Py.gets (fun w => self_config (self w)) in
  when (negb (String.eqb (lower (cfg_model (ck_config checkpoint))) (lower (cfg_model cfg))))
       (emit (logger_warning architecture_warning)) ;;;
  do_load_state_dict (ck_state_dict checkpoint) ;;;
  get_optimizer "load_state_dict" ;;;
  let* osd := match ck_optimizer checkpoint with
              | Some osd => Py.ret osd
              | None => Py.raise (KeyError "optimizer")
              end in
  do_optimizer_load_state_dict osd ;;;
  let* start := Py.gets (fun w => start_epoch (state (self w))) in
  emit (logger_info (CheckpointLoaded start)).

(** lines 232-240; formatting cannot fail on a float or a tuple of floats *)
Definition _generate_train_loss_output (epoch_idx : Z) (losses : total)
           (train_info : string) : message :=
  TrainLossOutput epoch_idx train_info losses.

(** [not valid_data]: [None] and a loader of no batch are both false. *)
Definition truthy (valid_data : option (list Data)) : bool :=
  match valid_data with
  | Some (_ :: _) => true
  | _ => false
  end.

(** The first half of the body of the epoch loop of [fit] (lines 258-267):
    train, record, save, log. *)
Definition fit_train (train_data : list Data) (verbose : bool) (epoch_idx : Z) : M unit :=
  let* '(train_loss, train_ppl) := _train_epoch train_data epoch_idx in
  update_self (set_hist (fun h =>
    History (<[epoch_idx := (train_loss, train_ppl)]> (train_loss_ppl_dict h))
            (g_pretraining_loss_dict h) (d_pretraining_loss_dict h))) ;;;
  _save_checkpoint epoch_idx ;;;
  let train_loss_output := _generate_train_loss_output epoch_idx (TFloat train_loss) "" in
  when verbose (emit (logger_info train_loss_output)).

(** The second half (lines 269-305): what [continue] and [break] leave is
    the loop signal. *)
Definition fit_eval (valid_data : option (list Data)) (verbose saved : bool)
           (epoch_idx : Z) : M Py.ctl :=
  let* s := Py.gets self in
  if ((eval_step s <=? 0) || negb (truthy valid_data))%bool then
    when saved
         (_save_checkpoint epoch_idx ;;;
          when verbose
               (emit (logger_info (Text ("Saving current: " +:+ saved_model_file s))))) ;;;
    Py.ret Py.Next
  else if (epoch_idx + 1) mod eval_step s =? 0 then
    let* '(valid_score, valid_result) := _valid_epoch (default [] valid_data) in
    let* s := Py.gets self in
    let '(best, cur, stop_flag, update_flag) :=
      early_stopping valid_score (best_valid_score (state s)) (cur_step (state s))
                     (stopping_step s) false in
    update_self (set_state (fun st =>
      TrainingState (start_epoch st) cur best (best_valid_result st))) ;;;
    when verbose
         (emit (logger_info (ValidScoreOutput epoch_idx valid_score)) ;;;
          emit (logger_info (ValidResultOutput valid_result))) ;;;
    when update_flag
         (when saved
               (_save_checkpoint epoch_idx ;;;
                when verbose
                     (emit (logger_info
                              (Text ("Saving current best: " +:+ saved_model_file s))))) ;;;
          update_self (set_state (fun st =>
            TrainingState (start_epoch st) (cur_step st) (best_valid_score st)
                          (Some valid_result)))) ;;;
    if stop_flag then
      let* s := Py.gets self in
      when verbose
           (emit (logger_info
                    (FinishedTraining (epoch_idx - cur_step (state s) * eval_step s)))) ;;;
      Py.ret Py.Break
    else Py.ret Py.Next
  else Py.ret Py.Next.

(** The body of the epoch loop of [fit] for one [epoch_idx]. *)
Definition fit_epoch (train_data : list Data) (valid_data : option (list Data))
           (verbose saved : bool) (epoch_idx : Z) : M Py.ctl :=
  fit_train train_data verbose epoch_idx ;;;
  fit_eval valid_data verbose saved epoch_idx.

(** lines 242-306 *)
Definition fit (train_data : list Data) (valid_data : option (list Data))
           (verbose saved : bool) : M (float * option np_float64) :=
  let* s := Py.gets self in
  Py.for_each (py_range (start_epoch (state s)) (epochs s))
              (fit_epoch train_data valid_data verbose saved) ;;;
  let* s := Py.gets self in
  Py.ret (best_valid_score (state s), best_valid_result (state s)).

End Methods.
End Trainer.

(** ** [class GANTrainer(Trainer)]

    [fit] and [_adversarial_train_epoch] call the epoch methods through
    [self], so a subclass that overrides one is called instead: the methods
    are passed as a table. *)

Record gan_methods (W : Type) (Data : Type) : Type := GanMethods {
  m_g_train_epoch : list Data -> Z -> Py.M W total;
  m_d_train_epoch : list Data -> Z -> Py.M W total;
  m_adversarial_train_epoch : list Data -> Z -> Py.M W total
}.
Arguments GanMethods {W Data}.
Arguments m_g_train_epoch {W Data}.
Arguments m_d_train_epoch {W Data}.
Arguments m_adversarial_train_epoch {W Data}.

Module GANTrainer.
Section Methods.
Context {Data Params OptSD Torch : Type} `{B : Backend Data Params OptSD Torch}.

Local Abbreviation W := (world Data Params OptSD Torch).
Local Abbreviation M := (Py.M W).

(** lines 392-438 *)
Definition _build_module_optimizer (md : module) : M optimizer_handle :=
  let* name := Py.gets (fun w => module_name (self_model (self w)) md) in
  let multi_flag := String.eqb name "LeakGANGenerator" in
  let* learner := Py.gets (fun w => learner (self w)) in
  let* lr := Py.gets (fun w => learning_rate (self w)) in
  let build (k : learner_kind) : optimizer_handle :=
    if multi_flag then ManagerWorker (Optim k ManagerParams lr) (Optim k WorkerParams lr)
    else OneOptimizer (Optim k (module_parameters md) lr) in
  if String.eqb (lower learner) "adam" then Py.ret (build Adam)
  else if String.eqb (lower learner) "sgd" then Py.ret (build SGD)
  else if String.eqb (lower learner) "adagrad" then Py.ret (build Adagrad)
  else if String.eqb (lower learner) "rmsprop" then Py.ret (build RMSprop)
  else
    emit (logger_warning Trainer.unrecognized_optimizer) ;;;
    Py.ret (build Adam).

(** [GANTrainer.__init__] (lines 372-390): the base constructor, then
    [self.optimizer = None] and one optimizer per sub-network. *)
Definition __init__ (cfg : config) (model : model_info) (now : string)
           (t : Torch) (d : gmap string (checkpoint Params OptSD)) : outcome unit * W :=
  match Trainer.__init__ cfg model now t d with
  | (Ok _, w) =>
      (let* g := _build_module_optimizer Generator in
       let* d := _build_module_optimizer Discriminator in
       update_self (set_optimizers None (Some g) (Some d))) w
  | r => r
  end.

(** [self.g_optimizer] and [self.d_optimizer] *)
Definition get_module_optimizer (md : module) : M optimizer_handle :=
  let* o := Py.gets (fun w => match md with
                              | Generator => g_optimizer (self w)
                              | Discriminator => d_optimizer (self w)
                              end) in
  match o with
  | Some h => Py.ret h
  | None => Py.raise (AttributeError "optimizer")
  end.

(** [opt.zero_grad()] on what may be a tuple of optimizers *)
Definition as_optimizer (opt : optimizer_handle) : M optimizer_t :=
  match opt with
  | OneOptimizer o => Py.ret o
  | ManagerWorker _ _ => Py.raise (AttributeError "zero_grad")
  end.

(** [zip(opts, losses)] of [_optimize_multi_step] *)
Definition zip_opts_losses (opts : optimizer_handle) (l : losses)
  : M (list (optimizer_t * float)) :=
  match opts, l with
  | OneOptimizer _, _ => Py.raise (TypeError "'Adam' object is not iterable")
  | ManagerWorker _ _, Tensor _ => Py.raise (TypeError "iteration over a 0-d tensor")
  | ManagerWorker m w, TensorTuple xs =>
      Py.ret (match xs with
              | [] => []
              | [x] => [(m, x)]
              | x :: y :: _ => [(m, x); (w, y)]
              end)
  end.

(** lines 460-464; [len(opts)] is 2 *)
Definition _optimize_multi_step (c : call Data) (l : losses) (opts : optimizer_handle)
  : M unit :=
  let* pairs := zip_opts_losses opts l in
  Py.for_fold pairs
    (fun i '(opt, _) =>
       torch_do (zero_grad opt) ;;;
       torch_do (backward c (Component i) (Nat.ltb i (2 - 1))) ;;;
       torch_do (step opt) ;;;
       Py.ret (S i))
    0%nat ;;;
  Py.ret tt.

(** lines 440-458; [c] is the call whose result [losses] is *)
Definition _optimize_step (c : call Data) (l : losses) (total_loss : option total)
           (model : module) (opt : optimizer_handle) : M total :=
  let* '(loss, total_loss) := lift (accumulate l total_loss) in
  lift (_check_nan loss) ;;;
  let* name := Py.gets (fun w => module_name (self_model (self w)) model) in
  if String.eqb name "LeakGANGenerator" then
    _optimize_multi_step c l opt ;;;
    Py.ret total_loss
  else
    let* o := as_optimizer opt in
    torch_do (zero_grad o) ;;;
    torch_do (backward c Combined false) ;;;
    let* clip := Py.gets (fun w => grad_clip (self w)) in
    torch_do (clip_grad_norm_ (module_parameters model) clip) ;;;
    torch_do (step o) ;;;
    Py.ret total_loss.

(** lines 466-480: no ['optimizer'] entry *)
Definition _save_checkpoint (epoch : Z) : M unit :=
  let* s := Py.gets self in
  let* sd := Py.gets (fun w => state_dict (torch w)) in
  let state := Checkpoint (self_config s) epoch (cur_step (state s))
                          (best_valid_score (state s)) sd None in
  save_file (saved_model_file s) state.

(** lines 488-496 *)
Definition _get_real_data (train_data : list Data) : M Data :=
  let* s := Py.gets self in
  lift (cat_padded (max_length s) (pad_idx (self_model s)) train_data).

(** [[l / n for l in total_loss]] *)
Fixpoint div_each (xs : list float) (n : Z) : outcome (list float) :=
  match xs with
  | [] => Ok []
  | x :: rest =>
      match float_div_int x n with
      | Ok y => match div_each rest n with
                | Ok ys => Ok (y :: ys)
                | Raise e => Raise e
                end
      | Raise e => Raise e
      end
  end.

(** lines 517-519: the mean of a float or, element by element, of a tuple *)
Definition epoch_mean (total_loss : option total) (n : Z) : outcome total :=
  match total_loss with
  | Some (TTuple xs) =>
      match div_each xs n with
      | Ok ys => Ok (TTuple ys)
      | Raise e => Raise e
      end
  | _ =>
      match total_div_int total_loss n with
      | Ok y => Ok (TFloat y)
      | Raise e => Raise e
      end
  end.

(** lines 498-520 *)
Definition _g_train_epoch (train_data : list Data) (epoch_idx : Z) : M total :=
  torch_do generator_train ;;;
  let* total_loss :=
    Py.for_fold train_data
      (fun total_loss data =>
         let c := calculate_g_train_loss data None epoch_idx in
         let* losses := call_loss c in
         let* opt := get_module_optimizer Generator in
         let* t := _optimize_step c losses total_loss Generator opt in
         Py.ret (Some t))
      None in
  lift (epoch_mean total_loss (Z.of_nat (length train_data))).

(** [zip(real_dataloader, fake_dataloader)] *)
Fixpoint zip {A} (a b : list A) : list (A * A) :=
  match a, b with
  | x :: a', y :: b' => (x, y) :: zip a' b'
  | _, _ => []
  end.

(** lines 522-546 *)
Definition _d_train_epoch (train_data : list Data) (epoch_idx : Z) : M total :=
  torch_do discriminator_train ;;;
  let* real_data := _get_real_data train_data in
  let* s := Py.gets self in
  let bs := batch_size (self_model s) in
  let* fake_data := Py.gets (fun w => sample_of (torch w) (Some (d_sample_num s))) in
  torch_do (model_sample (Some (d_sample_num s))) ;;;
  let* total_loss :=
    Py.for_fold (py_range 0 (d_sample_training_epochs s))
      (fun total_loss _ =>
         let* reals := Py.gets (fun w => batches_of (torch w) real_data bs) in
         torch_do (dataloader_iter real_data) ;;;
         let* fakes := Py.gets (fun w => batches_of (torch w) fake_data bs) in
         torch_do (dataloader_iter fake_data) ;;;
         Py.for_fold (zip reals fakes)
           (fun total_loss '(real, fake) =>
              let c := calculate_d_train_loss [real; fake] epoch_idx None in
              let* losses := call_loss c in
              let* opt := get_module_optimizer Discriminator in
              let* t := _optimize_step c losses total_loss Discriminator opt in
              Py.ret (Some t))
           total_loss)
      None in
  let n := Z.min (loader_len real_data bs) (loader_len fake_data bs) in
  let* x := lift (total_div_int total_loss n) in
  let* y := lift (float_div_int x (d_sample_training_epochs s)) in
  Py.ret (TFloat y).

(** lines 548-568; [d_train_epoch] is [self._d_train_epoch] *)
Definition _adversarial_train_epoch (d_train_epoch : list Data -> Z -> M total)
           (train_data : list Data) (epoch_idx : Z) : M total :=
  torch_do generator_train ;;;
  let c := calculate_g_adversarial_loss [] (PyInt epoch_idx) in
  let* losses := call_loss c in
  let* opt := get_module_optimizer Generator in
  let* total_loss := _optimize_step c losses None Generator opt in
  let* n := Py.gets (fun w => adversarail_d_epochs (self w)) in
  Py.for_fold (py_range 0 n)
    (fun _ epoch_idx => d_train_epoch train_data epoch_idx ;;; Py.ret tt)
    tt ;;;
  Py.ret total_loss.

(** [sum(train_loss) if isinstance(train_loss, tuple) else train_loss] *)
Definition loss_entry (train_loss : total) : float :=
  match train_loss with
  | TTuple xs => float_sum xs
  | TFloat x => x
  end.

(** [self.train_loss_dict[epoch_idx] = entry] (line 621): no [__init__] of
    the hierarchy binds the attribute [train_loss_dict] ([Trainer.__init__]
    binds [train_loss_ppl_dict]), so fetching it raises. *)
Definition train_loss_dict_setitem (epoch_idx : Z) (entry : float) : M unit :=
  Py.raise (AttributeError "train_loss_dict").

(** lines 570-631; the return value [(-1, None)] *)
Definition fit (methods : gan_methods W Data) (train_data : list Data)
           (valid_data : option (list Data)) (verbose saved : bool)
  : M (Z * option np_float64) :=
  (* generator pretraining *)
  when verbose (emit (logger_info (Text "Start generator pretraining..."))) ;;;
  let* s := Py.gets self in
  Py.for_fold (py_range 0 (g_pretraining_epochs s))
    (fun _ epoch_idx =>
       let* train_loss := m_g_train_epoch methods train_data epoch_idx in
       update_self (set_hist (fun h =>
         History (train_loss_ppl_dict h)
                 (<[epoch_idx := loss_entry train_loss]> (g_pretraining_loss_dict h))
                 (d_pretraining_loss_dict h))) ;;;
       let train_loss_output :=
         Trainer._generate_train_loss_output epoch_idx train_loss "generator pre" in
       when verbose (emit (logger_info train_loss_output)))
    tt ;;;
  when verbose (emit (logger_info (Text "End generator pretraining..."))) ;;;
  (* discriminator pretraining *)
  when verbose (emit (logger_info (Text "Start discriminator pretraining..."))) ;;;
  let* s := Py.gets self in
  Py.for_fold (py_range 0 (d_pretraining_epochs s))
    (fun _ epoch_idx =>
       let* train_loss := m_d_train_epoch methods train_data epoch_idx in
       update_self (set_hist (fun h =>
         History (train_loss_ppl_dict h) (g_pretraining_loss_dict h)
                 (<[epoch_idx := loss_entry train_loss]> (d_pretraining_loss_dict h)))) ;;;
       let train_loss_output :=
         Trainer._generate_train_loss_output epoch_idx train_loss "discriminator pre" in
       when verbose (emit (logger_info train_loss_output)))
    tt ;;;
  when verbose (emit (logger_info (Text "End discriminator pretraining..."))) ;;;
  (* adversarial training *)
  when verbose (emit (logger_info (Text "Start adversarial training..."))) ;;;
  let* s := Py.gets self in
  Py.for_fold (py_range 0 (adversarail_training_epochs s))
    (fun _ epoch_idx =>
       let* train_loss := m_adversarial_train_epoch methods train_data epoch_idx in
       train_loss_dict_setitem epoch_idx (loss_entry train_loss) ;;;
       let train_loss_output :=
         Trainer._generate_train_loss_output epoch_idx train_loss "" in
       when verbose (emit (logger_info train_loss_output)))
    tt ;;;
  when verbose (emit (logger_info (Text "End adversarial pretraining..."))) ;;;
  let* s := Py.gets self in
  _save_checkpoint (adversarail_training_epochs s) ;;;
  Py.ret (-1, None).

(** The methods of a plain [GANTrainer]. *)
Definition methods : gan_methods W Data :=
  GanMethods _g_train_epoch _d_train_epoch (_adversarial_train_epoch _d_train_epoch).

End Methods.
End GANTrainer.

(** ** [class TextGANTrainer(GANTrainer)] *)

Module TextGANTrainer.
Section Methods.
Context {Data Params OptSD Torch : Type} `{B : Backend Data Params OptSD Torch}.

Local Abbreviation W := (world Data Params OptSD Torch).
Local Abbreviation M := (Py.M W).

(** lines 641-664 *)
Definition _d_train_epoch (train_data : list Data) (epoch_idx : Z) : M total :=
  torch_do discriminator_train ;;;
  let* real_data := GANTrainer._get_real_data train_data in
  let* s := Py.gets self in
  let bs := batch_size (self_model s) in
  let* total_loss :=
    Py.for_fold (py_range 0 (d_sample_training_epochs s))
      (fun total_loss _ =>
         let* reals := Py.gets (fun w => batches_of (torch w) real_data bs) in
         torch_do (dataloader_iter real_data) ;;;
         Py.for_fold reals
           (fun total_loss real =>
              let* '(fake_data, z) := Py.gets (fun w => sample_pair_of (torch w)) in
              torch_do (model_sample None) ;;;
              let c := calculate_d_train_loss [real; fake_data; z] epoch_idx None in
              let* losses := call_loss c in
              let* opt := GANTrainer.get_module_optimizer Discriminator in
              let* t := GANTrainer._optimize_step c losses total_loss Discriminator opt in
              Py.ret (Some t))
           total_loss)
      None in
  let* x := lift (total_div_int total_loss (loader_len real_data bs)) in
  let* y := lift (float_div_int x (d_sample_training_epochs s)) in
  Py.ret (TFloat y).

(** lines 666-690 *)
Definition _adversarial_train_epoch (train_data : list Data) (epoch_idx : Z) : M total :=
  torch_do generator_train ;;;
  let* real_data := GANTrainer._get_real_data train_data in
  let* s := Py.gets self in
  let bs := batch_size (self_model s) in
  let* reals := Py.gets (fun w => batches_of (torch w) real_data bs) in
  torch_do (dataloader_iter real_data) ;;;
  let* total_loss :=
    Py.for_fold reals
      (fun total_loss real =>
         let c := calculate_g_adversarial_loss [real] (PyInt epoch_idx) in
         let* losses := call_loss c in
         let* opt := GANTrainer.get_module_optimizer Generator in
         let* t := GANTrainer._optimize_step c losses total_loss Generator opt in
         Py.ret (Some t))
      None in
  let* n := Py.gets (fun w => adversarail_d_epochs (self w)) in
  Py.for_fold (py_range 0 n)
    (fun _ epoch_idx => _d_train_epoch train_data epoch_idx ;;; Py.ret tt)
    tt ;;;
  let* x := lift (total_div_int total_loss (loader_len real_data bs)) in
  Py.ret (TFloat x).

Definition methods : gan_methods W Data :=
  GanMethods GANTrainer._g_train_epoch _d_train_epoch _adversarial_train_epoch.

End Methods.
End TextGANTrainer.

(** ** [class RankGANTrainer(GANTrainer)] *)

Module RankGANTrainer.
Section Methods.
Context {Data Params OptSD Torch : Type} `{B : Backend Data Params OptSD Torch}.

Local Abbreviation W := (world Data Params OptSD Torch).
Local Abbreviation M := (Py.M W).

(** lines 719-720 and 744-745: the reference rows drawn from [real_data] *)
Definition draw_ref_data (real_data : Data) : M Data :=
  let* r := Py.gets (fun w => ref_data_of (torch w) real_data) in
  let* ref_data := lift r in
  torch_do (np_random_randint real_data) ;;;
  Py.ret ref_data.

(** lines 700-727 *)
Definition _d_train_epoch (train_data : list Data) (epoch_idx : Z) : M total :=
  torch_do discriminator_train ;;;
  let* real_data := GANTrainer._get_real_data train_data in
  let* s := Py.gets self in
  let bs := batch_size (self_model s) in
  let* fake_data := Py.gets (fun w => sample_of (torch w) (Some (d_sample_num s))) in
  torch_do (model_sample (Some (d_sample_num s))) ;;;
  let* ref_data := draw_ref_data real_data in
  let* total_loss :=
    Py.for_fold (py_range 0 (d_sample_training_epochs s))
      (fun total_loss _ =>
         let* reals := Py.gets (fun w => batches_of (torch w) real_data bs) in
         torch_do (dataloader_iter real_data) ;;;
         let* fakes := Py.gets (fun w => batches_of (torch w) fake_data bs) in
         torch_do (dataloader_iter fake_data) ;;;
         Py.for_fold (GANTrainer.zip reals fakes)
           (fun total_loss '(real, fake) =>
              let c := calculate_d_train_loss [real; fake; ref_data] epoch_idx None in
              let* losses := call_loss c in
              let* opt := GANTrainer.get_module_optimizer Discriminator in
              let* t := GANTrainer._optimize_step c losses total_loss Discriminator opt in
              Py.ret (Some t))
           total_loss)
      None in
  let n := Z.min (loader_len real_data bs) (loader_len fake_data bs) in
  let* x := lift (total_div_int total_loss n) in
  let* y := lift (float_div_int x (d_sample_training_epochs s)) in
  Py.ret (TFloat y).

(** [d_loss += self._d_train_epoch(...)]: only a number can be added. *)
Definition add_d_loss (d_loss : float) (t : total) : outcome float :=
  match t with
  | TFloat x => Ok (PrimFloat.add d_loss x)
  | TTuple _ => Raise (TypeError "unsupported operand type(s) for +=: 'float' and 'tuple'")
  end.

(** lines 729-757; [d_train_epoch] is [self._d_train_epoch].  [d_loss]
    starts as the int [0]: dividing it by [adversarail_d_epochs] raises
    exactly when that is zero, as for the float [0.0]. *)
Definition _adversarial_train_epoch (d_train_epoch : list Data -> Z -> M total)
           (train_data : list Data) (epoch_idx : Z) : M total :=
  torch_do generator_train ;;;
  let* real_data := GANTrainer._get_real_data train_data in
  let* ref_data := draw_ref_data real_data in
  let c := calculate_g_adversarial_loss [ref_data] (PyInt epoch_idx) in
  let* losses := call_loss c in
  let* opt := GANTrainer.get_module_optimizer Generator in
  let* total_loss := GANTrainer._optimize_step c losses None Generator opt in
  let* n := Py.gets (fun w => adversarail_d_epochs (self w)) in
  let* d_loss :=
    Py.for_fold (py_range 0 n)
      (fun d_loss epoch_idx =>
         let* t := d_train_epoch train_data epoch_idx in
         lift (add_d_loss d_loss t))
      0%float in
  let* n := Py.gets (fun w => adversarail_d_epochs (self w)) in
  lift (float_div_int d_loss n) ;;;
  Py.ret total_loss.

Definition methods : gan_methods W Data :=
  GanMethods GANTrainer._g_train_epoch _d_train_epoch
             (_adversarial_train_epoch _d_train_epoch).

End Methods.
End RankGANTrainer.

(** ** [class MaskGANTrainer(GANTrainer)] *)

Module MaskGANTrainer.
Section Methods.
Context {Data Params OptSD Torch : Type} `{B : Backend Data Params OptSD Torch}.

Local Abbreviation W := (world Data Params OptSD Torch).
Local Abbreviation M := (Py.M W).

(** lines 777-791; [t] names the tensor of [c]'s result that [losses] is *)
Definition _optimize_step (c : call Data) (t : which) (l : losses)
           (total_loss : option total) (model : module) (opt : optimizer_handle)
           (retain_graph : bool) : M total :=
  let* '(loss, total_loss) := lift (accumulate l total_loss) in
  lift (_check_nan loss) ;;;
  let* o := GANTrainer.as_optimizer opt in
  torch_do (zero_grad o) ;;;
  torch_do (backward c t retain_graph) ;;;
  let* clip := Py.gets (fun w => grad_clip (self w)) in
  torch_do (clip_grad_norm_ (module_parameters model) clip) ;;;
  torch_do (step o) ;;;
  Py.ret total_loss.

(** lines 793-812 *)
Definition _g_train_epoch (train_data : list Data) (epoch_idx : Z) : M total :=
  torch_do generator_train ;;;
  let* total_loss :=
    Py.for_fold train_data
      (fun total_loss data =>
         let c := calculate_g_train_loss data (Some false) epoch_idx in
         let* losses := call_loss c in
         let* opt := GANTrainer.get_module_optimizer Generator in
         let* t := _optimize_step c Combined losses total_loss Generator opt false in
         Py.ret (Some t))
      None in
  let* x := lift (total_div_int total_loss (Z.of_nat (length train_data))) in
  Py.ret (TFloat x).

(** lines 814-833 *)
Definition _d_train_epoch (train_data : list Data) (epoch_idx : Z) : M total :=
  torch_do discriminator_train ;;;
  let* total_loss :=
    Py.for_fold train_data
      (fun total_loss data =>
         let c := calculate_d_train_loss [data] epoch_idx (Some false) in
         let* losses := call_loss c in
         let* opt := GANTrainer.get_module_optimizer Discriminator in
         let* t := _optimize_step c Combined losses total_loss Discriminator opt false in
         Py.ret (Some t))
      None in
  let* x := lift (total_div_int total_loss (Z.of_nat (length train_data))) in
  Py.ret (TFloat x).

(** [next(it)] on an iterator, seen as the list of the batches it has left *)
Definition py_next (it : list Data) : M (Data * list Data) :=
  match it with
  | [] => Py.raise StopIteration
  | x :: rest => Py.ret (x, rest)
  end.

(** The locals of the adversarial epoch that its loops update. *)
Record adv_locals : Type := AdvLocals {
  dis_total_loss : option total;
  gen_total_loss : option total;
  critic_total_loss : option total;
  g_num : float;
  d_num : float;
  dis_train_data : list Data
}.

(** One discriminator micro-step (lines 859-867); [i] is the loop variable
    [_], passed as [epoch_idx]. *)
Definition d_micro_step (train_data : list Data) (l : adv_locals) (i : Z) : M adv_locals :=
  let d_num' := PrimFloat.add (d_num l) 1%float in
  let* '(d_x, dis_train_data') :=
    Py.try_except_StopIteration
      (py_next (dis_train_data l))
      (let fresh := train_data in
       py_next fresh) in
  let c := calculate_d_train_loss [d_x] i (Some true) in
  let* losses := call_loss c in
  let* opt := GANTrainer.get_module_optimizer Discriminator in
  let* t := _optimize_step c Combined losses (dis_total_loss l) Discriminator opt false in
  Py.ret (AdvLocals (Some t) (gen_total_loss l) (critic_total_loss l) (g_num l) d_num'
                    dis_train_data').

(** One generator macro-step (lines 856-874). *)
Definition g_macro_step (train_data : list Data) (l : adv_locals) (g_x : Data) : M adv_locals :=
  let g_num' := PrimFloat.add (g_num l) 1%float in
  let l := AdvLocals (dis_total_loss l) (gen_total_loss l) (critic_total_loss l) g_num'
                     (d_num l) (dis_train_data l) in
  let* n := Py.gets (fun w => adversarail_d_epochs (self w)) in
  let* l := Py.for_fold (py_range 0 n) (d_micro_step train_data) l in
  let c := calculate_g_adversarial_loss [g_x] (PyFloat g_num') in
  let* '(gen_losses, critic_losses) := call_loss_pair c in
  let* g_opt := GANTrainer.get_module_optimizer Generator in
  let* gen_total := _optimize_step c GenLosses gen_losses (gen_total_loss l) Generator g_opt true in
  let* d_opt := GANTrainer.get_module_optimizer Discriminator in
  let* critic_total :=
    _optimize_step c CriticLosses critic_losses (critic_total_loss l) Discriminator d_opt false in
  Py.ret (AdvLocals (dis_total_loss l) (Some gen_total) (Some critic_total) (g_num l)
                    (d_num l) (dis_train_data l)).

(** lines 835-875; [copy.deepcopy(train_data)] is a fresh iterator in the
    state [train_data] is in *)
Definition _adversarial_train_epoch (train_data : list Data) (epoch_idx : Z) : M total :=
  let dis_copy := train_data in
  let gen_train_data := train_data in
  let* '(_, dis_rest) := py_next dis_copy in
  let* l := Py.for_fold gen_train_data (g_macro_step train_data)
                        (AdvLocals None None None 0%float 0%float dis_rest) in
  let* d := lift (total_div_float (dis_total_loss l) (d_num l)) in
  let* g := lift (total_div_float (gen_total_loss l) (g_num l)) in
  let* c := lift (total_div_float (critic_total_loss l) (g_num l)) in
  Py.ret (TTuple [d; g; c]).

Definition methods : gan_methods W Data :=
  GanMethods _g_train_epoch _d_train_epoch _adversarial_train_epoch.

End Methods.
End MaskGANTrainer.

(** ** A small backend to run the trainers on

    Every batch carries the loss the model computes on it; torch's state is
    the pair of the model's and the optimizer's state dicts, both step
    counters. *)

Module Toy.

Definition first_loss (args : list losses) : losses :=
  match args with
  | d :: _ => d
  | [] => Tensor 1%float
  end.

Definition toy_loss_of (t : Z * Z) (c : call losses) : losses :=
  match c with
  | calculate_loss d _ => d
  | calculate_g_train_loss d _ _ => d
  | calculate_d_train_loss args _ _ => first_loss args
  | calculate_g_adversarial_loss args _ => first_loss args
  end.

Definition toy_run (o : torch_op losses) (t : Z * Z) : Z * Z :=
  match o with
  | step _ => (fst t + 1, snd t + 1)
  | _ => t
  end.

Definition toy_cat_padded (max_length pad_idx : Z) (l : list losses) : outcome losses :=
  match l with
  | [] => Raise (RuntimeError "torch.cat(): expected a non-empty list of Tensors")
  | d :: _ => Ok d
  end.

Definition toy_load_state_dict (p : Z) (t : Z * Z) : outcome (Z * Z) := Ok (p, snd t).

Definition toy_optimizer_load_state_dict (s : Z) (t : Z * Z) : outcome (Z * Z) := Ok (fst t, s).

Definition toy_load_state_dict_spec (p : Z) (t t' : Z * Z)
           (H : toy_load_state_dict p t = Ok t') : fst t' = p :=
  eq_sym (f_equal fst (Ok_inj H)).

Definition toy_optimizer_load_state_dict_spec (s : Z) (t t' : Z * Z)
           (H : toy_optimizer_load_state_dict s t = Ok t')
  : fst t' = fst t /\ snd t' = s :=
  conj (eq_sym (f_equal fst (Ok_inj H))) (eq_sym (f_equal snd (Ok_inj H))).

#[global] Instance backend : Backend losses Z Z (Z * Z) := {|
  loss_of := toy_loss_of;
  loss_pair_of := fun t c => (toy_loss_of t c, toy_loss_of t c);
  run := toy_run;
  state_dict := fst;
  optimizer_state_dict := snd;
  load_state_dict := toy_load_state_dict;
  optimizer_load_state_dict := toy_optimizer_load_state_dict;
  sample_of := fun _ _ => Tensor 1%float;
  sample_pair_of := fun _ => (Tensor 1%float, Tensor 1%float);
  ref_data_of := fun _ d => Ok d;
  batches_of := fun _ d _ => [d];
  loader_len := fun _ _ => 1;
  cat_padded := toy_cat_padded;
  load_state_dict_spec := toy_load_state_dict_spec;
  optimizer_load_state_dict_spec := toy_optimizer_load_state_dict_spec
|}.

(** A configuration: [epochs], [eval_step], [stopping_step] and the
    learner kind vary. *)
Definition cfg (learner : string) (epochs eval_step stopping_step : Z) : config :=
  Config "RNN" learner 0.5%float epochs eval_step stopping_step "saved"
         5%float 0 0 1 1 1 1 1 10.

Definition model : model_info := ModelInfo "Generator" "Discriminator" 1 0.

Definition now : string := "2020-Nov-14_10-00-00".

(** A freshly constructed [Trainer]. *)
Definition fresh (c : config) : world losses Z Z (Z * Z) :=
  snd (Trainer.__init__ c model now (0, 0) ∅).

(** A freshly constructed [GANTrainer]. *)
Definition fresh_gan (c : config) : world losses Z Z (Z * Z) :=
  snd (GANTrainer.__init__ c model now (0, 0) ∅).

End Toy.

(** ** A backend whose losses are always finite scalars

    A batch is a boolean and the model's loss on it is [1.0] or [2.0];
    torch has no state. *)

Module Coin.

Definition coin_loss (args : list bool) : losses :=
  match args with
  | true :: _ => Tensor 2%float
  | _ => Tensor 1%float
  end.

Definition coin_loss_of (t : unit) (c : call bool) : losses :=
  match c with
  | calculate_loss d _ => coin_loss [d]
  | calculate_g_train_loss d _ _ => coin_loss [d]
  | calculate_d_train_loss args _ _ => coin_loss args
  | calculate_g_adversarial_loss args _ => coin_loss args
  end.

Definition coin_cat_padded (max_length pad_idx : Z) (l : list bool) : outcome bool :=
  match l with
  | [] => Raise (RuntimeError "torch.cat(): expected a non-empty list of Tensors")
  | d :: _ => Ok d
  end.

Definition unit_eq (a b : unit) : a = b :=
  match a, b with tt, tt => eq_refl end.

Definition coin_load_state_dict_spec (p t t' : unit) (H : Ok t = Ok t') : t' = p :=
  unit_eq t' p.

Definition coin_optimizer_load_state_dict_spec (s t t' : unit) (H : Ok t = Ok t')
  : t' = t /\ t' = s :=
  conj (unit_eq t' t) (unit_eq t' s).

#[global] Instance backend : Backend bool unit unit unit := {|
  loss_of := coin_loss_of;
  loss_pair_of := fun t c => (coin_loss_of t c, Tensor 1%float);
  run := fun _ t => t;
  state_dict := fun t => t;
  optimizer_state_dict := fun t => t;
  load_state_dict := fun _ t => Ok t;
  optimizer_load_state_dict := fun _ t => Ok t;
  sample_of := fun _ _ => false;
  sample_pair_of := fun _ => (false, false);
  ref_data_of := fun _ d => Ok d;
  batches_of := fun _ d _ => [d];
  loader_len := fun _ _ => 1;
  cat_padded := coin_cat_padded;
  load_state_dict_spec := coin_load_state_dict_spec;
  optimizer_load_state_dict_spec := coin_optimizer_load_state_dict_spec
|}.

(** A freshly constructed [MaskGANTrainer]: the constructor of
    [GANTrainer], then [adversarail_c_epochs], which no method reads. *)
Definition fresh_maskgan (c : config) : world bool unit unit unit :=
  snd (GANTrainer.__init__ c Toy.model Toy.now tt ∅).

End Coin.

(** ** Vocabulary of the statements *)

(** [w] with the events [evs] appended to its trace, nothing else changed *)
Definition logged {Data Params OptSD Torch} (evs : list (event Data Params OptSD))
           (w : world Data Params OptSD Torch) : world Data Params OptSD Torch :=
  World (self w) (torch w) (disk w) (trace w ++ evs).

Definition is_save {Data Params OptSD} (e : event Data Params OptSD) : bool :=
  match e with
  | torch_save _ _ => true
  | _ => false
  end.

(** the number of checkpoints written along a trace *)
Fixpoint count_saves {Data Params OptSD} (tr : list (event Data Params OptSD)) : nat :=
  match tr with
  | [] => 0
  | e :: rest => (if is_save e then 1 else 0) + count_saves rest
  end.

Definition handle_optimizers (h : optimizer_handle) : list optimizer_t :=
  match h with
  | OneOptimizer o => [o]
  | ManagerWorker m w => [m; w]
  end.

(** every optimizer of the handle is of kind [k] *)
Definition handle_kind (h : optimizer_handle) (k : learner_kind) : Prop :=
  Forall (fun o => opt_kind o = k) (handle_optimizers h).

(** [body] handles every element of [xs] in turn, from [w] to [w'], and
    asks for the next one each time *)
Inductive completes {W A} (body : A -> Py.M W Py.ctl) : list A -> W -> W -> Prop :=
| completes_nil (w : W) : completes body [] w w
| completes_cons (x : A) (xs : list A) (w w1 w2 : W) :
    body x w = (Ok Py.Next, w1) ->
    completes body xs w1 w2 ->
    completes body (x :: xs) w w2.

(** The file name [__init__] derives from the model name and the time. *)
Definition checkpoint_path (cfg : config) (now : string) : string :=
  os_path_join (cfg_checkpoint_dir cfg) (cfg_model cfg +:+ "-" +:+ now +:+ ".pth").

Definition nan_error : exn := ValueError "Training loss is nan".

(** [loss]: the scalar itself or [sum(losses)] *)
Definition combined_loss (l : losses) : option float :=
  match l with
  | Tensor x => Some x
  | TensorTuple xs => py_sum xs
  end.

Definition nan_loss (l : losses) : bool :=
  match combined_loss l with
  | Some x => PrimFloat.is_nan x
  | None => false
  end.

Definition nan_result (r : call_result) : bool :=
  match r with
  | Losses l => nan_loss l
  | LossesPair g c => nan_loss g || nan_loss c
  end.

Definition is_call {Data Params OptSD} (e : event Data Params OptSD) : bool :=
  match e with
  | model_call _ _ => true
  | _ => false
  end.

Definition is_nan_call {Data Params OptSD} (e : event Data Params OptSD) : bool :=
  match e with
  | model_call _ r => nan_result r
  | _ => false
  end.

Fixpoint no_calls {Data Params OptSD} (evs : list (event Data Params OptSD)) : bool :=
  match evs with
  | [] => true
  | e :: rest => negb (is_call e) && no_calls rest
  end.

Fixpoint count_calls {Data Params OptSD} (evs : list (event Data Params OptSD)) : nat :=
  match evs with
  | [] => 0
  | e :: rest => (if is_call e then 1 else 0) + count_calls rest
  end.

Fixpoint no_nan_calls {Data Params OptSD} (evs : list (event Data Params OptSD)) : bool :=
  match evs with
  | [] => true
  | e :: rest => negb (is_nan_call e) && no_nan_calls rest
  end.

(** no model call follows a call that returned NaN *)
Fixpoint nan_only_last {Data Params OptSD} (evs : list (event Data Params OptSD)) : bool :=
  match evs with
  | [] => true
  | e :: rest => if is_nan_call e then no_calls rest else nan_only_last rest
  end.

Definition not_a_float (t : option total) : Prop :=
  match t with
  | Some (TFloat _) => False
  | _ => True
  end.


(** the running total of the scalar losses [xs], in the order of the steps *)
Definition float_total (xs : list float) : option total :=
  match xs with
  | [] => None
  | x :: rest => Some (TFloat (fold_left PrimFloat.add rest x))
  end.





Fixpoint stream {E A} (f : E -> list A) (evs : list E) : list A :=
  match evs with
  | [] => []
  | e :: rest => f e ++ stream f rest
  end.

Section Vocabulary.
Context {Data Params OptSD Torch : Type} `{B : Backend Data Params OptSD Torch}.

Local Abbreviation W := (world Data Params OptSD Torch).
Local Abbreviation M := (Py.M W).
Local Abbreviation E := (event Data Params OptSD).

(** [w] after [torch.save(ck, path)] *)
Definition written (path : string) (ck : checkpoint Params OptSD) (w : W) : W :=
  World (self w) (torch w) (<[path := ck]> (disk w)) (trace w ++ [torch_save path ck]).

(** Both factories build, from [w], optimizers of kind [k] and log [evs]. *)
Definition builds (w : W) (md : module) (k : learner_kind)
           (evs : list (event Data Params OptSD)) : Prop :=
  (exists o, Trainer._build_optimizer w = (Ok o, logged evs w) /\ opt_kind o = k) /\
  (exists h, GANTrainer._build_module_optimizer md w = (Ok h, logged evs w) /\
             handle_kind h k).

(** The checkpoint [Trainer._save_checkpoint(epoch)] builds in [w]. *)
Definition trainer_checkpoint (w : W) (epoch : Z) : checkpoint Params OptSD :=
  Checkpoint (self_config (self w)) epoch (cur_step (state (self w)))
             (best_valid_score (state (self w))) (state_dict (torch w))
             (Some (optimizer_state_dict (torch w))).

(** The checkpoint [GANTrainer._save_checkpoint(epoch)] builds in [w]. *)
Definition gan_checkpoint (w : W) (epoch : Z) : checkpoint Params OptSD :=
  Checkpoint (self_config (self w)) epoch (cur_step (state (self w)))
             (best_valid_score (state (self w))) (state_dict (torch w)) None.

(** [self] after [self.train_loss_ppl_dict[epoch_idx] = entry] *)
Definition record_train_loss (epoch_idx : Z) (entry : float * np_float64) (s : trainer)
  : trainer :=
  set_hist (fun h => History (<[epoch_idx := entry]> (train_loss_ppl_dict h))
                             (g_pretraining_loss_dict h) (d_pretraining_loss_dict h)) s.

(** The world [fit_train] leaves when the training epoch returned
    [(train_loss, ppl)] in [w1]. *)
Definition after_train (w1 : W) (verbose : bool) (epoch_idx : Z) (train_loss : float)
           (ppl : np_float64) : W :=
  let w2 := World (record_train_loss epoch_idx (train_loss, ppl) (self w1))
                  (torch w1) (disk w1) (trace w1) in
  logged (if verbose
          then [logger_info (Trainer._generate_train_loss_output epoch_idx
                               (TFloat train_loss) "")]
          else [])
         (written (saved_model_file (self w1)) (trainer_checkpoint w2 epoch_idx) w2).

(** [not (self.eval_step <= 0 or not valid_data)] *)
Definition validation_enabled (s : trainer) (valid_data : option (list Data)) : bool :=
  negb ((eval_step s <=? 0) || negb (Trainer.truthy valid_data)).

(** [m] changes neither [self] nor the disk and writes no checkpoint. *)
Definition quiet {A} (m : M A) : Prop :=
  forall w r w', m w = (r, w') ->
    self w' = self w /\ disk w' = disk w /\
    exists evs, trace w' = trace w ++ evs /\ count_saves evs = 0%nat.

(** [m] changes neither the configuration nor the disk and writes no
    checkpoint. *)
Definition calm {A} (m : M A) : Prop :=
  forall w r w', m w = (r, w') ->
    self_config (self w') = self_config (self w) /\ disk w' = disk w /\
    exists evs, trace w' = trace w ++ evs /\ count_saves evs = 0%nat.

(** From a trainer of configuration [cfg0], [m] never returns, and is calm. *)
Definition doomed (cfg0 : config) {A} (m : M A) : Prop :=
  forall w r w', self_config (self w) = cfg0 -> m w = (r, w') ->
    is_ok r = false /\ disk w' = disk w /\
    exists evs, trace w' = trace w ++ evs /\ count_saves evs = 0%nat.

(** From a trainer of configuration [cfg0], [m] is calm while it runs and,
    if it returns, returns [(-1, None)] after writing one checkpoint. *)
Definition ends (cfg0 : config) (m : M (Z * option np_float64)) : Prop :=
  forall w r w', self_config (self w) = cfg0 -> m w = (r, w') ->
    exists evs, trace w' = trace w ++ evs /\
      match r with
      | Ok v => v = (-1, None) /\ count_saves evs = 1%nat
      | Raise _ => count_saves evs = 0%nat
      end.

(** The method tables of the four adversarial trainers. *)
Definition family : list (gan_methods W Data) :=
  [GANTrainer.methods; TextGANTrainer.methods; RankGANTrainer.methods;
   MaskGANTrainer.methods].

Definition calm_methods (methods : gan_methods W Data) : Prop :=
  (forall td e, calm (m_g_train_epoch methods td e)) /\
  (forall td e, calm (m_d_train_epoch methods td e)) /\
  (forall td e, calm (m_adversarial_train_epoch methods td e)).

(** [m] calls no loss contract. *)
Definition callfree {A} (m : M A) : Prop :=
  forall w r w', m w = (r, w') ->
    exists evs, trace w' = trace w ++ evs /\ no_calls evs = true.

(** [m] runs while a loss is pending that is NaN iff [pending]: if it
    returns, the pending loss was not NaN and no call of [m] returned NaN;
    if it raises, no call follows a NaN loss. *)
Definition guarded (pending : bool) {A} (m : M A) : Prop :=
  forall w r w', m w = (r, w') ->
    exists evs, trace w' = trace w ++ evs /\
      match r with
      | Ok _ => pending = false /\ no_nan_calls evs = true
      | Raise _ => if pending then no_calls evs = true else nan_only_last evs = true
      end.

(** [m] calls no loss contract and returns only if the pending loss is not NaN. *)
Definition checks (pending : bool) {A} (m : M A) : Prop :=
  callfree m /\ forall w a w', m w = (Ok a, w') -> pending = false.

(** The methods of a trainer of the family all abort on a NaN loss. *)
Definition guarded_methods (methods : gan_methods W Data) : Prop :=
  (forall td e, guarded false (m_g_train_epoch methods td e)) /\
  (forall td e, guarded false (m_d_train_epoch methods td e)) /\
  (forall td e, guarded false (m_adversarial_train_epoch methods td e)).

(** Whenever a call of [m] returned a NaN loss, [m] raised and made no
    further call. *)
Definition aborts_on_nan {A} (m : M A) : Prop :=
  forall w pre c res post,
    trace (snd (m w)) = trace w ++ pre ++ model_call c res :: post ->
    nan_result res = true ->
    is_ok (fst (m w)) = false /\ no_calls post = true.



Section Policy.
Variable early_stopping : policy.

(** The loop signal and the world [fit_eval] leaves when the validation
    epoch, run from a world whose trainer object is [self w3], returned
    [(valid_score, valid_result)] in [w3]. *)
Definition after_validation (w3 : W) (verbose saved : bool) (epoch_idx : Z)
           (valid_score : float) (valid_result : np_float64) : Py.ctl * W :=
  let s := self w3 in
  let '(best, cur, stop_flag, update_flag) :=
    early_stopping valid_score (best_valid_score (state s)) (cur_step (state s))
                   (stopping_step s) false in
  let s1 := set_state (fun st => TrainingState (start_epoch st) cur best
                                               (best_valid_result st)) s in
  let w4 := logged (if verbose
                    then [logger_info (ValidScoreOutput epoch_idx valid_score);
                          logger_info (ValidResultOutput valid_result)]
                    else [])
                   (World s1 (torch w3) (disk w3) (trace w3)) in
  let w5 :=
    if update_flag then
      let w5a :=
        if saved then
          logged (if verbose
                  then [logger_info (Text ("Saving current best: " +:+ saved_model_file s))]
                  else [])
                 (written (saved_model_file s) (trainer_checkpoint w4 epoch_idx) w4)
        else w4 in
      World (set_state (fun st => TrainingState (start_epoch st) (cur_step st)
                                                (best_valid_score st) (Some valid_result))
                       (self w5a))
            (torch w5a) (disk w5a) (trace w5a)
    else w4 in
  if stop_flag then
    (Py.Break,
     logged (if verbose
             then [logger_info (FinishedTraining (epoch_idx - cur * eval_step s))]
             else [])
            w5)
  else (Py.Next, w5).


End Policy.

End Vocabulary.

(** * Further definitions: the rest of the two files *)

(** An operation that computes or applies gradients. *)
Definition is_update {Data Params OptSD} (e : event Data Params OptSD) : bool :=
  match e with
  | TorchOp (backward _ _ _) => true
  | TorchOp (clip_grad_norm_ _ _) => true
  | TorchOp (step _) => true
  | _ => false
  end.

Section Vocabulary2.
Context {Data Params OptSD Torch : Type} `{B : Backend Data Params OptSD Torch}.

Local Abbreviation W := (world Data Params OptSD Torch).
Local Abbreviation M := (Py.M W).
Local Abbreviation E := (event Data Params OptSD).

(** Every event [m] appends to the trace satisfies [p]. *)
Definition emits_only {A} (p : E -> bool) (m : M A) : Prop :=
  forall w r w', m w = (r, w') ->
    exists evs, trace w' = trace w ++ evs /\ forallb p evs = true.

(** [w] once [resume_checkpoint] has overwritten the three fields from
    [ck], logged its warning if the model names differ, and the model has
    loaded the parameters, leaving torch in [t']. *)
Definition resumed_model (w : W) (ck : checkpoint Params OptSD) (t' : Torch) : W :=
  World (set_state (fun st => TrainingState (ck_epoch ck + 1) (ck_cur_step ck)
                                            (ck_best_valid_score ck) (best_valid_result st))
                   (self w))
        t' (disk w)
        (trace w ++
         if negb (String.eqb (lower (cfg_model (ck_config ck)))
                             (lower (cfg_model (self_config (self w)))))
         then [logger_warning Trainer.architecture_warning] else []).

End Vocabulary2.

(** ** [Trainer.evaluate]

    What [evaluate] asks of its collaborators: the model generates a corpus
    from the evaluation data, the data give the reference corpus, and the
    evaluator scores one against the other. *)
Class Evaluation (Data Torch Corpus Result : Type) : Type := {
  (** [model.generate(eval_data)] in the current state *)
  generate : Torch -> Data -> Corpus;
  (** what generating leaves of torch's state (the random generator moves) *)
  after_generate : Data -> Torch -> Torch;
  (** [eval_data.get_reference()] *)
  get_reference : Data -> Corpus;
  (** [self.evaluator.evaluate(generate_corpus, reference_corpus)] *)
  evaluator_evaluate : Corpus -> Corpus -> Result
}.

Module Evaluate.
Section Methods.
Context {Data Params OptSD Torch Corpus Result : Type}
        `{B : Backend Data Params OptSD Torch} `{V : Evaluation Data Torch Corpus Result}.

Local Abbreviation W := (world Data Params OptSD Torch).
Local Abbreviation M := (Py.M W).

(** [if model_file:] is false for [None] and for the empty string. *)
Definition checkpoint_file (model_file : option string) (s : trainer) : string :=
  match model_file with
  | Some (String c rest) => String c rest
  | _ => saved_model_file s
  end.

(** lines 308-337; under [torch.no_grad()] *)
Definition evaluate (eval_data : Data) (load_best_model : bool) (model_file : option string)
  : M Result :=
  (if load_best_model then
     let* s := Py.gets self in
     let file := checkpoint_file model_file s in
     let* checkpoint := load_file file in
     do_load_state_dict (ck_state_dict checkpoint) ;;;
     emit (logger_info (Text ("Loading model structure and parameters from " +:+ file)))
   else Py.ret tt) ;;;
  torch_do model_eval ;;;
  let* generate_corpus := Py.gets (fun w => generate (torch w) eval_data) in
  Py.modify (fun w => World (self w) (after_generate eval_data (torch w)) (disk w) (trace w)) ;;;
  let reference_corpus := get_reference eval_data in
  Py.ret (evaluator_evaluate generate_corpus reference_corpus).

End Methods.
End Evaluate.

(** The scalar loss [calculate_loss] returned, along a trace. *)
Definition loss_of_event {Data Params OptSD} (e : event Data Params OptSD) : list float :=
  match e with
  | model_call (calculate_loss _ _) (Losses (Tensor x)) => [x]
  | _ => []
  end.

Definition is_step {Data Params OptSD} (e : event Data Params OptSD) : bool :=
  match e with
  | TorchOp (step _) => true
  | _ => false
  end.

(** the number of optimizer steps along a trace *)
Definition count_steps {Data Params OptSD} (evs : list (event Data Params OptSD)) : nat :=
  length (filter is_step evs).

(** the total of [xs], summed in order, over their number as an int *)
Definition mean_over (xs : list float) : float :=
  match xs with
  | [] => PrimFloat.nan
  | x :: rest => PrimFloat.div (fold_left PrimFloat.add rest x)
                               (float_of_Z (Z.of_nat (length xs)))
  end.

(** ** [textbox/utils/utils.py] *)

Module utils.

(** The exceptions the functions of [utils.py] meet, beyond those of the
    trainers. *)
Inductive error : Type :=
| Builtin (e : exn)
| IndexError
| UnboundLocalError (name : string)
| NotImplementedError (msg : string)
| AssertionError (msg : string)
| ImportError (name : string).

Inductive result (A : Type) : Type :=
| Return (a : A)
| Throw (e : error).
Arguments Return {A} a.
Arguments Throw {A} e.

(** [str(n)] for an int *)
Definition str (n : Z) : string := NilZero.string_of_int (Z.to_int n).

(** [l[i]]: a negative index counts from the end. *)
Definition getitem {A} (l : list A) (i : Z) : result A :=
  let j := if i <? 0 then i + Z.of_nat (length l) else i in
  if j <? 0 then Throw IndexError
  else match nth_error l (Z.to_nat j) with
       | Some a => Return a
       | None => Throw IndexError
       end.

(** lines 49-56, on an int ([int(n)] is [n] itself) *)
Definition ordinal (n : Z) : result string :=
  if ((11 <=? n mod 100) && (n mod 100 <=? 13))%bool then Return (str n +:+ "th")
  else match getitem ["th"; "st"; "nd"; "rd"; "th"] (Z.min (n mod 10) 4) with
       | Return suffix => Return (str n +:+ suffix)
       | Throw e => Throw e
       end.

(** What [datetime.datetime.now()] returns. *)
Record datetime : Type := Datetime {
  year : Z;
  month : Z;
  day : Z;
  hour : Z;
  minute : Z;
  second : Z;
  microsecond : Z
}.

(** the ranges the fields of a [datetime] keep, for a year of four digits *)
Definition four_digit_year (t : datetime) : Prop :=
  1000 <= year t <= 9999 /\ 1 <= month t <= 12 /\ 1 <= day t <= 31 /\
  0 <= hour t <= 23 /\ 0 <= minute t <= 59 /\ 0 <= second t <= 59.

Definition digit (n : Z) : ascii := ascii_of_nat (48 + Z.to_nat n).

(** [%d], [%H], [%M], [%S]: two digits, zero-padded *)
Definition two_digits (n : Z) : string :=
  String (digit (n / 10)) (String (digit (n mod 10)) "").

(** [%b] in the C locale *)
Definition month_abbr (m : Z) : string :=
  nth (Z.to_nat (m - 1))
      ["Jan"; "Feb"; "Mar"; "Apr"; "May"; "Jun"; "Jul"; "Aug"; "Sep"; "Oct"; "Nov"; "Dec"] "".

(** [cur.strftime('%Y-%b-%d_%H-%M-%S')] *)
Definition strftime (cur : datetime) : string :=
  str (year cur) +:+ "-" +:+ month_abbr (month cur) +:+ "-" +:+ two_digits (day cur)
  +:+ "_" +:+ two_digits (hour cur) +:+ "-" +:+ two_digits (minute cur)
  +:+ "-" +:+ two_digits (second cur).

(** lines 27-36; [now] is the reading of the clock *)
Definition get_local_time (now : datetime) : string :=
  let cur := now in
  let cur := strftime cur in
  cur.

End utils.

(** the fields [strftime] prints *)
Definition same_second (a b : utils.datetime) : Prop :=
  utils.year a = utils.year b /\ utils.month a = utils.month b /\
  utils.day a = utils.day b /\ utils.hour a = utils.hour b /\
  utils.minute a = utils.minute b /\ utils.second a = utils.second b.

Module loaders.
Import utils.

(** What [importlib] finds under a module path. *)
Inductive module_state (C : Type) : Type :=
| NoSpec                                  (* [find_spec] returns [None] *)
| SpecFails (e : error)                   (* [find_spec] raises *)
| ImportFails (e : error)                 (* [import_module] raises *)
| Module_ (attrs : gmap string C).        (* the imported module's names *)
Arguments NoSpec {C}.
Arguments SpecFails {C} e.
Arguments ImportFails {C} e.
Arguments Module_ {C} attrs.

Section get_model.
Context {C : Type}.
(** [PLM_MODELS], of [enum_type], and the modules of the package
    [textbox.model], by file name *)
Variable PLM_MODELS : list string.
Variable model_package : string -> module_state C.

(** [x in l] for strings *)
Definition mem (x : string) (l : list string) : bool := existsb (String.eqb x) l.

(** The name [get_model] looks up: line 69. *)
Definition class_name_of (model_name : string) : string :=
  if mem (lower model_name) PLM_MODELS then "Pretrained_Models" else model_name.

(** The body of the [try] (lines 69-74), for a [str] argument; a name that
    was never bound raises when it is read. *)
Definition find_class (model_name : string) : result C :=
  let model_name := class_name_of model_name in
  let model_file_name := lower model_name in
  match model_package model_file_name with
  | SpecFails e => Throw e
  | ImportFails e => Throw e
  | NoSpec => Throw (UnboundLocalError "model_module")
  | Module_ attrs =>
      match attrs !! model_name with
      | Some model_class => Return model_class
      | None => Throw (Builtin (AttributeError model_name))
      end
  end.

(** lines 59-77: the bare [except] catches whatever the body raised *)
Definition get_model (model_name : string) : result C :=
  match find_class model_name with
  | Return model_class => Return model_class
  | Throw _ => Throw (NotImplementedError (class_name_of model_name +:+ " can't be found"))
  end.

End get_model.

(** The classes [trainer.py] defines. *)
Inductive trainer_class : Type :=
| AbstractTrainer
| Trainer
| UnconditionalTrainer
| GANTrainer
| TextGANTrainer
| RankGANTrainer
| ConditionalTrainer
| MaskGANTrainer.

(** A name of the module [textbox.trainer.trainer]: one of its classes,
    something it imports, or an attribute every module has. *)
Inductive attribute : Type :=
| Class (c : trainer_class)
| Imported
| Dunder.

(** The names of [textbox.trainer.trainer], from its import lines and its
    class statements. *)
Definition trainer_module : list (string * attribute) :=
  [("__name__", Dunder); ("__doc__", Dunder); ("__package__", Dunder);
   ("__loader__", Dunder); ("__spec__", Dunder); ("__file__", Dunder);
   ("__cached__", Dunder); ("__builtins__", Dunder);
   ("os", Imported); ("itertools", Imported); ("torch", Imported); ("optim", Imported);
   ("np", Imported); ("plt", Imported); ("copy", Imported); ("DataLoader", Imported);
   ("time", Imported); ("getLogger", Imported); ("NgramEvaluator", Imported);
   ("ensure_dir", Imported); ("get_local_time", Imported); ("early_stopping", Imported);
   ("calculate_valid_score", Imported); ("dict2str", Imported);
   ("DataLoaderType", Imported); ("EvaluatorType", Imported);
   ("AbstractTrainer", Class AbstractTrainer); ("Trainer", Class Trainer);
   ("UnconditionalTrainer", Class UnconditionalTrainer); ("GANTrainer", Class GANTrainer);
   ("TextGANTrainer", Class TextGANTrainer); ("RankGANTrainer", Class RankGANTrainer);
   ("ConditionalTrainer", Class ConditionalTrainer);
   ("MaskGANTrainer", Class MaskGANTrainer)].

(** [getattr(module, name)] *)
Fixpoint getattr {A} (namespace : list (string * A)) (name : string) : result A :=
  match namespace with
  | [] => Throw (Builtin (AttributeError name))
  | (k, v) :: rest => if String.eqb k name then Return v else getattr rest name
  end.

(** lines 80-92 *)
Definition get_trainer (model_name : string) : result attribute :=
  match getattr trainer_module (model_name +:+ "Trainer") with
  | Throw (Builtin (AttributeError _)) => getattr trainer_module "Trainer"
  | r => r
  end.

End loaders.

(** [__name__] of a class of [trainer.py] *)
Definition trainer_class_name (c : loaders.trainer_class) : string :=
  match c with
  | loaders.AbstractTrainer => "AbstractTrainer"
  | loaders.Trainer => "Trainer"
  | loaders.UnconditionalTrainer => "UnconditionalTrainer"
  | loaders.GANTrainer => "GANTrainer"
  | loaders.TextGANTrainer => "TextGANTrainer"
  | loaders.RankGANTrainer => "RankGANTrainer"
  | loaders.ConditionalTrainer => "ConditionalTrainer"
  | loaders.MaskGANTrainer => "MaskGANTrainer"
  end.

(** [s] ends with ["Trainer"] *)
Fixpoint ends_with_Trainer (s : string) : bool :=
  if String.eqb s "Trainer" then true
  else match s with
       | EmptyString => false
       | String _ rest => ends_with_Trainer rest
       end.

Module tokenizers.
Import utils loaders.

(** The method bound to [build_inputs_with_special_tokens]: the one of the
    pretrained tokenizer, or one of the two lambdas of lines 115 and 118. *)
Inductive build_method : Type :=
| PretrainedBuild (f : list Z -> option (list Z) -> list (option Z))
| AppendEos      (* [lambda t0, t1=None: t0 + [tokenizer.eos_token_id]] *)
| BosEos.        (* [lambda t0, t1=None: [bos_token_id] + t0 + [eos_token_id]] *)

(** The method bound to [num_special_tokens_to_add]: the pretrained one,
    which takes [pair], or a lambda without parameters. *)
Inductive num_method : Type :=
| PretrainedNum (f : bool -> Z)
| Constant (n : Z).

(** What [get_tokenizer] reads and writes of a tokenizer. *)
Record tokenizer : Type := Tokenizer {
  eos_token : option string;
  bos_token : option string;
  sep_token : option string;
  pad_token : option string;
  vocab : gmap string Z;          (* token to id, added tokens included *)
  unk_token_id : option Z;
  src_lang : option string;
  tgt_lang : option string;
  build_inputs_with_special_tokens_method : build_method;
  num_special_tokens_to_add_method : num_method
}.

(** [convert_tokens_to_ids]: an unknown token has the id of [unk_token]. *)
Definition convert_token_to_id (t : tokenizer) (token : string) : option Z :=
  match vocab t !! token with
  | Some i => Some i
  | None => unk_token_id t
  end.

(** [tokenizer.eos_token_id] and [tokenizer.bos_token_id]: [None] when the
    token is not set *)
Definition eos_token_id (t : tokenizer) : option Z :=
  match eos_token t with
  | Some token => convert_token_to_id t token
  | None => None
  end.

Definition bos_token_id (t : tokenizer) : option Z :=
  match bos_token t with
  | Some token => convert_token_to_id t token
  | None => None
  end.

(** [tokenizer.build_inputs_with_special_tokens(t0, t1)]: a lambda reads
    the ids when it is called. *)
Definition build_inputs_with_special_tokens (t : tokenizer) (t0 : list Z)
           (t1 : option (list Z)) : list (option Z) :=
  match build_inputs_with_special_tokens_method t with
  | PretrainedBuild f => f t0 t1
  | AppendEos => map Some t0 ++ [eos_token_id t]
  | BosEos => [bos_token_id t] ++ map Some t0 ++ [eos_token_id t]
  end.

(** [tokenizer.num_special_tokens_to_add()] and
    [tokenizer.num_special_tokens_to_add(pair=...)]: a lambda without
    parameters refuses the argument. *)
Definition num_special_tokens_to_add (t : tokenizer) (pair : option bool) : result Z :=
  match num_special_tokens_to_add_method t, pair with
  | PretrainedNum f, Some p => Return (f p)
  | PretrainedNum f, None => Return (f false)
  | Constant n, None => Return n
  | Constant _, Some _ =>
      Throw (Builtin (TypeError "<lambda>() got an unexpected keyword argument 'pair'"))
  end.

(** [tokenizer.add_special_tokens({'eos_token': token})]: the attribute is
    set and the token joins the vocabulary, with the next id, unless it is
    there. *)
Definition add_special_eos_token (token : string) (t : tokenizer) : tokenizer :=
  Tokenizer (Some token) (bos_token t) (sep_token t) (pad_token t)
            (match vocab t !! token with
             | Some _ => vocab t
             | None => <[token := Z.of_nat (size (vocab t))]> (vocab t)
             end)
            (unk_token_id t) (src_lang t) (tgt_lang t)
            (build_inputs_with_special_tokens_method t)
            (num_special_tokens_to_add_method t).

Definition set_pad_token (v : option string) (t : tokenizer) : tokenizer :=
  Tokenizer (eos_token t) (bos_token t) (sep_token t) v (vocab t) (unk_token_id t)
            (src_lang t) (tgt_lang t) (build_inputs_with_special_tokens_method t)
            (num_special_tokens_to_add_method t).

Definition set_eos_token (v : option string) (t : tokenizer) : tokenizer :=
  Tokenizer v (bos_token t) (sep_token t) (pad_token t) (vocab t) (unk_token_id t)
            (src_lang t) (tgt_lang t) (build_inputs_with_special_tokens_method t)
            (num_special_tokens_to_add_method t).

Definition set_methods (b : build_method) (n : num_method) (t : tokenizer) : tokenizer :=
  Tokenizer (eos_token t) (bos_token t) (sep_token t) (pad_token t) (vocab t)
            (unk_token_id t) (src_lang t) (tgt_lang t) b n.

Definition set_langs (src tgt : option string) (t : tokenizer) : tokenizer :=
  Tokenizer (eos_token t) (bos_token t) (sep_token t) (pad_token t) (vocab t)
            (unk_token_id t) src tgt (build_inputs_with_special_tokens_method t)
            (num_special_tokens_to_add_method t).

(** The entries of the configuration [get_tokenizer] reads; an entry that
    is unset reads as [None]. *)
Record tokenizer_config : Type := TokenizerConfig {
  model_name : string;
  tokenizer_kwargs : option (list (string * string));
  tokenizer_path : option string;
  model_path : option string;
  config_src_lang : option string;
  config_tgt_lang : option string
}.

(** the truth value of an optional string *)
Definition truthy (s : option string) : bool :=
  match s with
  | Some (String _ _) => true
  | _ => false
  end.

(** [a or b] on optional strings *)
Definition or_else (a b : option string) : option string := if truthy a then a else b.

(** [kwargs or {}] *)
Definition kwargs_or_empty (k : option (list (string * string))) : list (string * string) :=
  match k with
  | Some (e :: rest) => e :: rest
  | _ => []
  end.

Definition language_message (model_name : string) : string :=
  model_name +:+
  " needs to specify source language and target language with `--src_lang=xx` and `--tgt_lang=xx`".

Section get_tokenizer.
(** [PLM_MODELS], of [enum_type], and [AutoTokenizer.from_pretrained] *)
Variable PLM_MODELS : list string.
Variable from_pretrained : option string -> list (string * string) -> result tokenizer.

(** lines 94-128 *)
Definition get_tokenizer (config : tokenizer_config) : result tokenizer :=
  let model_name := model_name config in
  if mem model_name PLM_MODELS then
    let tokenizer_kwargs := kwargs_or_empty (tokenizer_kwargs config) in
    let tokenizer_path := or_else (tokenizer_path config) (model_path config) in
    match from_pretrained tokenizer_path tokenizer_kwargs with
    | Throw e => Throw e
    | Return tokenizer =>
        (* (1) *)
        let tokenizer :=
          if mem model_name ["ctrl"; "openai-gpt"]
          then add_special_eos_token "</s>" tokenizer else tokenizer in
        (* (2) *)
        let tokenizer :=
          if mem model_name ["ctrl"; "gpt2"; "gpt_neo"; "openai-gpt"]
          then set_pad_token (eos_token tokenizer) tokenizer else tokenizer in
        (* (3) *)
        let tokenizer :=
          if mem model_name ["cpm"]
          then set_eos_token (sep_token tokenizer) tokenizer else tokenizer in
        (* (4) *)
        let tokenizer :=
          if mem model_name ["blenderbot-small"; "cpm"; "ctrl"; "gpt2"; "gpt_neo"; "openai-gpt"]
          then set_methods AppendEos (Constant 1) tokenizer
          else if mem model_name ["opt"]
          then set_methods BosEos (Constant 2) tokenizer
          else tokenizer in
        (* (5) *)
        if mem model_name ["m2m_100"; "mbart"] then
          if (truthy (config_src_lang config) && truthy (config_tgt_lang config))%bool
          then Return (set_langs (config_src_lang config) (config_tgt_lang config) tokenizer)
          else Throw (AssertionError (language_message model_name))
        else Return tokenizer
    end
  else Throw (UnboundLocalError "tokenizer").

End get_tokenizer.

End tokenizers.

(** ** Padding the real data, on concrete tensors

    [GANTrainer._add_pad] and [GANTrainer._get_real_data] on tensors of
    token ids given row by row: what the contract [cat_padded] of the
    backend stands for. *)

Module Padding.

(** A two-dimensional [LongTensor]: [shape[0]] is the number of rows,
    [shape[1]] the length every row has. *)
Record tensor : Type := Tensor2 {
  shape1 : nat;
  rows : list (list Z)
}.

Definition shape0 (t : tensor) : nat := length (rows t).

Definition well_shaped (t : tensor) : Prop :=
  Forall (fun row => length row = shape1 t) (rows t).

(** A batch of the loader: a dict of tensors. *)
Definition corpus : Type := gmap string tensor.

(** [torch.full((n, m), value)]; a negative size is refused *)
Definition full (n : nat) (m : Z) (value : Z) : outcome tensor :=
  if m <? 0 then Raise (RuntimeError "Trying to create tensor with negative dimension")
  else Ok (Tensor2 (Z.to_nat m) (repeat (repeat value (Z.to_nat m)) n)).

(** [target[:, :k] = source] for [source] of [k] columns: the slice has
    [min(k, shape[1])] columns, and [source] must have as many, or one
    column that is broadcast. *)
Definition assign_columns (target source : tensor) : outcome tensor :=
  let k := shape1 source in
  let width := Nat.min k (shape1 target) in
  if Nat.eqb k width then
    Ok (Tensor2 (shape1 target)
                (map (fun '(src, tgt) => src ++ skipn width tgt)
                     (combine (rows source) (rows target))))
  else if Nat.eqb k 1 then
    Ok (Tensor2 (shape1 target)
                (map (fun '(src, tgt) => repeat (hd 0 src) width ++ skipn width tgt)
                     (combine (rows source) (rows target))))
  else Raise (RuntimeError "The expanded size of the tensor must match the existing size").

(** lines 482-486 *)
Definition _add_pad (s : trainer) (data : tensor) : outcome tensor :=
  let batch_size := shape0 data in
  match full batch_size (max_length s) (pad_idx (self_model s)) with
  | Raise e => Raise e
  | Ok padded_data => assign_columns padded_data data
  end.

(** [torch.cat(tensors, dim=0)] of tensors with rows of one length *)
Definition cat (tensors : list tensor) : outcome tensor :=
  match tensors with
  | [] => Raise (RuntimeError "torch.cat(): expected a non-empty list of Tensors")
  | first :: _ => Ok (Tensor2 (shape1 first) (concat (map rows tensors)))
  end.

(** The loop of lines 489-493. *)
Fixpoint pad_all (s : trainer) (train_data : list corpus) : outcome (list tensor) :=
  match train_data with
  | [] => Ok []
  | corpus :: rest =>
      match corpus !! "target_idx" with
      | None => Raise (KeyError "target_idx")
      | Some real_data =>
          match _add_pad s real_data with
          | Raise e => Raise e
          | Ok real_data =>
              match pad_all s rest with
              | Raise e => Raise e
              | Ok real_datas => Ok (real_data :: real_datas)
              end
          end
      end
  end.

(** lines 488-496 *)
Definition _get_real_data (s : trainer) (train_data : list corpus) : outcome tensor :=
  match pad_all s train_data with
  | Raise e => Raise e
  | Ok real_datas => cat real_datas
  end.

End Padding.

(** [row] followed by [pad] up to the length [n] *)
Definition padded_to (n : nat) (pad : Z) (row : list Z) : list Z :=
  row ++ repeat pad (n - length row).


(** ** Small instances to run the functions on *)

Module Samples.

(** An evaluation over the backend [Toy]: the corpus generated is the
    model's parameters, and the score is their distance to the reference. *)
#[global] Instance evaluation : Evaluation losses (Z * Z) Z Z := {|
  generate := fun t _ => fst t;
  after_generate := fun _ t => t;
  get_reference := fun _ => 0;
  evaluator_evaluate := fun generated reference => generated - reference
|}.

Definition PLM_MODELS : list string :=
  ["bart"; "gpt2"; "ctrl"; "cpm"; "opt"; "m2m_100"].

(** A pretrained tokenizer of three tokens that adds no special token. *)
Definition pretrained : tokenizers.tokenizer :=
  tokenizers.Tokenizer (Some "<eos>") (Some "<bos>") (Some "<sep>") None
    (<["<eos>" := 0]> (<["<bos>" := 1]> (<["<sep>" := 2]> ∅))) None None None
    (tokenizers.PretrainedBuild (fun t0 _ => map Some t0))
    (tokenizers.PretrainedNum (fun _ => 0)).

Definition from_pretrained (path : option string) (kwargs : list (string * string))
  : utils.result tokenizers.tokenizer :=
  if tokenizers.truthy path then utils.Return pretrained
  else utils.Throw (utils.Builtin (ValueError "no tokenizer path")).

Definition tokenizer_config (model_name : string) (src tgt : option string)
  : tokenizers.tokenizer_config :=
  tokenizers.TokenizerConfig model_name None None (Some "checkpoints/model") src tgt.

(** Two batches of token ids, of two and of three columns. *)
Definition batch1 : Padding.tensor := Padding.Tensor2 2 [[5; 6]; [7; 8]].
Definition batch2 : Padding.tensor := Padding.Tensor2 3 [[1; 2; 3]].

Definition corpus_of (t : Padding.tensor) : Padding.corpus := <["target_idx" := t]> ∅.

(** A trainer with [max_seq_length = 2], so [max_length = 4], and
    [pad_idx = 0]. *)
Definition padding_trainer : trainer :=
  TrainerObj (Config "SeqGAN" "adam" 0.5%float 1 1 1 "saved" 5%float 0 0 1 1 1 1 1 2)
             Toy.model 1 "saved/SeqGAN.pth" None None None
             (TrainingState 0 0 100000000%float None) (History ∅ ∅ ∅).

(** A backend over the batches of [Coin] whose every loss is a pair of
    tensors, as a model that returns [(loss_a, loss_b)] gives. *)
Definition pair_loss_of (t : unit) (c : call bool) : losses :=
  TensorTuple [1%float; 2%float].

Definition pairs : Backend bool unit unit unit := {|
  loss_of := pair_loss_of;
  loss_pair_of := fun t c => (pair_loss_of t c, Tensor 1%float);
  run := fun _ t => t;
  state_dict := fun t => t;
  optimizer_state_dict := fun t => t;
  load_state_dict := fun _ t => Ok t;
  optimizer_load_state_dict := fun _ t => Ok t;
  sample_of := fun _ _ => false;
  sample_pair_of := fun _ => (false, false);
  ref_data_of := fun _ d => Ok d;
  batches_of := fun _ d _ => [d];
  loader_len := fun _ _ => 1;
  cat_padded := Coin.coin_cat_padded;
  load_state_dict_spec := Coin.coin_load_state_dict_spec;
  optimizer_load_state_dict_spec := Coin.coin_optimizer_load_state_dict_spec
|}.

End Samples.

(** * Proofs *)

(** ** The monad and its loops *)

Section MonadFacts.
Context {W : Type}.

Lemma bind_ok {A C} (m : Py.M W A) (k : A -> Py.M W C) (w w' : W) (a : A) :
  m w = (Ok a, w') -> Py.bind m k w = k a w'.
Proof. intros H. unfold Py.bind. rewrite H. reflexivity. Qed.

Lemma bind_raise {A C} (m : Py.M W A) (k : A -> Py.M W C) (w w' : W) (e : exn) :
  m w = (Raise e, w') -> Py.bind m k w = (Raise e, w').
Proof. intros H. unfold Py.bind. rewrite H. reflexivity. Qed.

Lemma for_fold_app {A S} (body : S -> A -> Py.M W S) (xs ys : list A) (s : S) (w : W) :
  Py.for_fold (xs ++ ys) body s w =
  match Py.for_fold xs body s w with
  | (Ok s', w') => Py.for_fold ys body s' w'
  | (Raise e, w') => (Raise e, w')
  end.
Proof.
  revert s w. induction xs as [|x xs IH]; intros s w; simpl.
  - reflexivity.
  - unfold Py.bind. destruct (body s x w) as [[s1|e] w1]; [apply IH | reflexivity].
Qed.

(** A loop stops at the first step that raises: nothing after it runs. *)
Lemma for_fold_raise {A S} (body : S -> A -> Py.M W S) (pre post : list A) (x : A)
      (s s1 : S) (w w1 w2 : W) (e : exn) :
  Py.for_fold pre body s w = (Ok s1, w1) ->
  body s1 x w1 = (Raise e, w2) ->
  Py.for_fold (pre ++ x :: post) body s w = (Raise e, w2).
Proof.
  intros Hpre Hx. rewrite for_fold_app, Hpre. simpl.
  apply bind_raise. exact Hx.
Qed.

Lemma for_each_raise {A} (body : A -> Py.M W Py.ctl) (pre post : list A) (x : A)
      (w w1 w2 : W) (e : exn) :
  completes body pre w w1 ->
  body x w1 = (Raise e, w2) ->
  Py.for_each (pre ++ x :: post) body w = (Raise e, w2).
Proof.
  intros Hpre Hx. induction Hpre as [w|y ys w wa wb Hy _ IH]; simpl.
  - apply bind_raise. exact Hx.
  - rewrite (bind_ok _ _ _ _ _ Hy). apply IH. exact Hx.
Qed.


End MonadFacts.

Lemma py_range_cons (a b : Z) : a < b -> py_range a b = a :: py_range (a + 1) b.
Proof.
  intros H. unfold py_range.
  replace (Z.to_nat (b - a)) with (S (Z.to_nat (b - (a + 1)))) by lia.
  simpl. f_equal; [lia|].
  rewrite <- seq_shift, map_map. apply map_ext. intros i. lia.
Qed.

Lemma py_range_nil (a b : Z) : b <= a -> py_range a b = [].
Proof. intros H. unfold py_range. replace (Z.to_nat (b - a)) with 0%nat by lia. reflexivity. Qed.

Lemma count_saves_app {Data Params OptSD} (a b : list (event Data Params OptSD)) :
  count_saves (a ++ b) = (count_saves a + count_saves b)%nat.
Proof. induction a as [|e a IH]; simpl; [reflexivity | rewrite IH; lia]. Qed.

(** ** Computations that leave the trainer object and the disk alone *)

Section Quiet.
Context {Data Params OptSD Torch : Type} `{B : Backend Data Params OptSD Torch}.

Local Abbreviation W := (world Data Params OptSD Torch).
Local Abbreviation M := (Py.M W).

Lemma quiet_ret {A} (a : A) : quiet (Py.ret a : M A).
Proof.
  intros w r w' H. inversion H; subst. repeat split.
  exists []. rewrite app_nil_r. split; reflexivity.
Qed.

Lemma quiet_raise {A} (e : exn) : quiet (Py.raise e : M A).
Proof.
  intros w r w' H. inversion H; subst. repeat split.
  exists []. rewrite app_nil_r. split; reflexivity.
Qed.

Lemma quiet_lift {A} (o : outcome A) : quiet (lift o : M A).
Proof.
  intros w r w' H. inversion H; subst. repeat split.
  exists []. rewrite app_nil_r. split; reflexivity.
Qed.

Lemma quiet_gets {A} (f : W -> A) : quiet (Py.gets f).
Proof.
  intros w r w' H. inversion H; subst. repeat split.
  exists []. rewrite app_nil_r. split; reflexivity.
Qed.

Lemma quiet_bind {A C} (m : M A) (k : A -> M C) :
  quiet m -> (forall a, quiet (k a)) -> quiet (Py.bind m k).
Proof.
  intros Hm Hk w r w' H. unfold Py.bind in H.
  destruct (m w) as [[a|e] w1] eqn:E.
  - destruct (Hm _ _ _ E) as (Hs & Hd & evs & Ht & Hc).
    destruct (Hk a _ _ _ H) as (Hs' & Hd' & evs' & Ht' & Hc').
    split; [congruence|]. split; [congruence|].
    exists (evs ++ evs'). rewrite Ht', Ht, <- app_assoc, count_saves_app, Hc, Hc'.
    split; reflexivity.
  - inversion H; subst. exact (Hm _ _ _ E).
Qed.

Lemma quiet_torch_do (o : torch_op Data) : quiet (torch_do o).
Proof.
  intros w r w' H. inversion H; subst. simpl. repeat split.
  exists [TorchOp o]. split; reflexivity.
Qed.

Lemma quiet_emit (e : event Data Params OptSD) : is_save e = false -> quiet (emit e : M unit).
Proof.
  intros He w r w' H. inversion H; subst. simpl. repeat split.
  exists [e]. simpl. rewrite He. split; reflexivity.
Qed.

Lemma quiet_call_loss (c : call Data) : quiet (call_loss c).
Proof.
  intros w r w' H. inversion H; subst. simpl. repeat split.
  eexists [_]. split; reflexivity.
Qed.

Lemma quiet_call_loss_pair (c : call Data) : quiet (call_loss_pair c).
Proof.
  intros w r w' H. inversion H; subst. simpl. repeat split.
  eexists [_]. split; reflexivity.
Qed.

Lemma quiet_when (b : bool) (m : M unit) : quiet m -> quiet (when b m).
Proof. intros Hm. destruct b; [exact Hm | apply quiet_ret]. Qed.

Lemma quiet_for_fold {A S} (body : S -> A -> M S) (xs : list A) (s : S) :
  (forall s x, quiet (body s x)) -> quiet (Py.for_fold xs body s).
Proof.
  intros Hb. revert s. induction xs as [|x xs IH]; intros s; simpl.
  - apply quiet_ret.
  - apply quiet_bind; [apply Hb | exact IH].
Qed.

Lemma quiet_try {A} (m h : M A) :
  quiet m -> quiet h -> quiet (Py.try_except_StopIteration m h).
Proof.
  intros Hm Hh w r w' H. unfold Py.try_except_StopIteration in H.
  destruct (m w) as [[a|e] w1] eqn:E.
  - inversion H; subst. exact (Hm _ _ _ E).
  - destruct (Hm _ _ _ E) as (Hs & Hd & evs & Ht & Hc).
    assert (Hcase : h w1 = (r, w') \/ (Raise e, w1) = (r, w')).
    { destruct e; auto. }
    destruct Hcase as [Hh'|Heq].
    + destruct (Hh _ _ _ Hh') as (Hs' & Hd' & evs' & Ht' & Hc').
      split; [congruence|]. split; [congruence|].
      exists (evs ++ evs'). rewrite Ht', Ht, <- app_assoc, count_saves_app, Hc, Hc'.
      split; reflexivity.
    + inversion Heq; subst. repeat split; try assumption. exists evs. split; assumption.
Qed.

End Quiet.

Create HintDb quiet.
#[export] Hint Resolve quiet_ret quiet_raise quiet_lift quiet_gets quiet_torch_do
  quiet_call_loss quiet_call_loss_pair quiet_when : quiet.

(** Decompose a computation made of the pieces above. *)
Ltac quiet_tac :=
  repeat first
    [ solve [ auto with quiet ]
    | apply quiet_emit; reflexivity
    | apply quiet_when
    | apply quiet_try
    | apply quiet_for_fold; intros ? ?
    | apply quiet_bind; [ | intros ? ]
    | match goal with
      | |- quiet (match ?x with _ => _ end) => destruct x
      | |- quiet (if ?x then _ else _) => destruct x
      end ].

Section QuietMethods.
Context {Data Params OptSD Torch : Type} `{B : Backend Data Params OptSD Torch}.

Local Abbreviation W := (world Data Params OptSD Torch).
Local Abbreviation M := (Py.M W).

Lemma quiet_get_optimizer (attr : string) : quiet (Trainer.get_optimizer attr : M _).
Proof. unfold Trainer.get_optimizer. quiet_tac. Qed.

Lemma quiet_train_step (epoch_idx : Z) (total_loss : option total) (data : Data) :
  quiet (Trainer.train_step epoch_idx total_loss data : M _).
Proof. unfold Trainer.train_step. pose proof quiet_get_optimizer. quiet_tac. Qed.

Lemma quiet_train_epoch (train_data : list Data) (epoch_idx : Z) :
  quiet (Trainer._train_epoch train_data epoch_idx : M _).
Proof. unfold Trainer._train_epoch. pose proof quiet_train_step. quiet_tac. Qed.

Lemma quiet_valid_step (total_loss : option total) (data : Data) :
  quiet (Trainer.valid_step total_loss data : M _).
Proof. unfold Trainer.valid_step. pose proof quiet_get_optimizer. quiet_tac. Qed.

Lemma quiet_valid_epoch (valid_data : list Data) :
  quiet (Trainer._valid_epoch valid_data : M _).
Proof.
  unfold Trainer._valid_epoch.
  pose proof quiet_valid_step. pose proof quiet_get_optimizer. quiet_tac.
Qed.

End QuietMethods.

(** ** Optimizers, checkpoints, resumption *)

Section Checkpoints.
Context {Data Params OptSD Torch : Type} `{B : Backend Data Params OptSD Torch}.

Local Abbreviation W := (world Data Params OptSD Torch).
Local Abbreviation M := (Py.M W).

Lemma logged_nil (w : W) : logged [] w = w.
Proof. destruct w. unfold logged. simpl. rewrite app_nil_r. reflexivity. Qed.

Lemma handle_kind_build (multi : bool) (k : learner_kind) (p : param_group) (lr : float) :
  handle_kind (if multi then ManagerWorker (Optim k ManagerParams lr) (Optim k WorkerParams lr)
               else OneOptimizer (Optim k p lr)) k.
Proof. destruct multi; repeat constructor. Qed.

Lemma builds_cases (w : W) (md : module) :
  let l := lower (learner (self w)) in
  (l = "adam" -> builds w md Adam []) /\
  (l = "sgd" -> builds w md SGD []) /\
  (l = "adagrad" -> builds w md Adagrad []) /\
  (l = "rmsprop" -> builds w md RMSprop []) /\
  (l <> "adam" -> l <> "sgd" -> l <> "adagrad" -> l <> "rmsprop" ->
   builds w md Adam [logger_warning Trainer.unrecognized_optimizer]).
Proof.
  intros l. unfold builds, Trainer._build_optimizer, GANTrainer._build_module_optimizer.
  unfold Py.bind, Py.gets, Py.ret, emit, Py.modify. fold l. rewrite logged_nil.
  repeat split; intros;
    repeat match goal with
           | H : l = _ |- _ => rewrite H; simpl
           | H : l <> ?s |- _ =>
               let E := fresh in
               destruct (String.eqb_spec l s) as [E|_]; [contradiction | clear H]
           end;
    eexists; (split; [reflexivity | first [reflexivity | apply handle_kind_build]]).
Qed.

Lemma build_optimizer_run (w : W) :
  exists o evs, Trainer._build_optimizer w = (Ok o, logged evs w).
Proof.
  pose proof (builds_cases w Generator) as (Ha & Hs & Hg & Hr & Hd). simpl in *.
  destruct (String.eqb_spec (lower (learner (self w))) "adam") as [E1|E1];
    [destruct (Ha E1) as [(o & Ho & _) _]; eauto|].
  destruct (String.eqb_spec (lower (learner (self w))) "sgd") as [E2|E2];
    [destruct (Hs E2) as [(o & Ho & _) _]; eauto|].
  destruct (String.eqb_spec (lower (learner (self w))) "adagrad") as [E3|E3];
    [destruct (Hg E3) as [(o & Ho & _) _]; eauto|].
  destruct (String.eqb_spec (lower (learner (self w))) "rmsprop") as [E4|E4];
    [destruct (Hr E4) as [(o & Ho & _) _]; eauto|].
  destruct (Hd E1 E2 E3 E4) as [(o & Ho & _) _]; eauto.
Qed.

Lemma build_module_optimizer_run (w : W) (md : module) :
  exists h evs, GANTrainer._build_module_optimizer md w = (Ok h, logged evs w).
Proof.
  pose proof (builds_cases w md) as (Ha & Hs & Hg & Hr & Hd). simpl in *.
  destruct (String.eqb_spec (lower (learner (self w))) "adam") as [E1|E1];
    [destruct (Ha E1) as [_ (o & Ho & _)]; eauto|].
  destruct (String.eqb_spec (lower (learner (self w))) "sgd") as [E2|E2];
    [destruct (Hs E2) as [_ (o & Ho & _)]; eauto|].
  destruct (String.eqb_spec (lower (learner (self w))) "adagrad") as [E3|E3];
    [destruct (Hg E3) as [_ (o & Ho & _)]; eauto|].
  destruct (String.eqb_spec (lower (learner (self w))) "rmsprop") as [E4|E4];
    [destruct (Hr E4) as [_ (o & Ho & _)]; eauto|].
  destruct (Hd E1 E2 E3 E4) as [_ (o & Ho & _)]; eauto.
Qed.

(** What [Trainer.__init__] leaves: the attributes as read from the
    configuration, an optimizer, the initial training state. *)
Lemma trainer_init_run (cfg : config) (model : model_info) (now : string) (t : Torch)
      (d : gmap string (checkpoint Params OptSD)) :
  exists o (evs : list (event Data Params OptSD)),
    Trainer.__init__ cfg model now t d =
    (Ok tt,
     World (TrainerObj cfg model (Z.min (cfg_eval_step cfg) (cfg_epochs cfg))
                       (checkpoint_path cfg now) (Some o) None None
                       (TrainingState 0 0 100000000%float None) (History ∅ ∅ ∅))
           t d evs).
Proof.
  unfold Trainer.__init__.
  match goal with
  | |- context [Py.bind _ _ ?w0] => destruct (build_optimizer_run w0) as (o & evs & Ho)
  end.
  exists o, evs. rewrite (bind_ok _ _ _ _ _ Ho). reflexivity.
Qed.

Lemma trainer_save_checkpoint_run (w : W) (epoch : Z) :
  Trainer._save_checkpoint epoch w =
  match optimizer (self w) with
  | Some _ => (Ok tt, written (saved_model_file (self w)) (trainer_checkpoint w epoch) w)
  | None => (Raise (AttributeError "state_dict"), w)
  end.
Proof.
  unfold Trainer._save_checkpoint, Trainer.get_optimizer, Py.bind, Py.gets.
  destruct (optimizer (self w)); reflexivity.
Qed.

Lemma gan_save_checkpoint_run (w : W) (epoch : Z) :
  GANTrainer._save_checkpoint epoch w =
  (Ok tt, written (saved_model_file (self w)) (gan_checkpoint w epoch) w).
Proof. reflexivity. Qed.

End Checkpoints.

Section CheckpointClaims.
Context {Data Params OptSD Torch : Type} `{B : Backend Data Params OptSD Torch}.

Local Abbreviation W := (world Data Params OptSD Torch).
Local Abbreviation M := (Py.M W).

Lemma gan_init_run (cfg : config) (model : model_info) (now : string) (t : Torch)
      (d : gmap string (checkpoint Params OptSD)) :
  exists g dd (evs : list (event Data Params OptSD)),
    GANTrainer.__init__ cfg model now t d =
    (Ok tt,
     World (TrainerObj cfg model (Z.min (cfg_eval_step cfg) (cfg_epochs cfg))
                       (checkpoint_path cfg now) None (Some g) (Some dd)
                       (TrainingState 0 0 100000000%float None) (History ∅ ∅ ∅))
           t d evs).
Proof.
  unfold GANTrainer.__init__.
  destruct (trainer_init_run (Data := Data) cfg model now t d) as (o & evs & ->).
  match goal with
  | |- context [Py.bind _ _ ?w0] =>
      destruct (build_module_optimizer_run w0 Generator) as (g & evs1 & Hg)
  end.
  rewrite (bind_ok _ _ _ _ _ Hg).
  match goal with
  | |- context [Py.bind _ _ ?w0] =>
      destruct (build_module_optimizer_run w0 Discriminator) as (dd & evs2 & Hd)
  end.
  rewrite (bind_ok _ _ _ _ _ Hd).
  exists g, dd. eexists. reflexivity.
Qed.


(** C6, as amended.  [Trainer._save_checkpoint] writes, at
    [saved_model_file], the configuration, the epoch it is given,
    [cur_step], [best_valid_score], the model's state dict and the state of
    its single optimizer (it raises when the trainer has no optimizer);
    [GANTrainer._save_checkpoint] writes the same fields but no optimizer
    state.  The file is [checkpoint_dir] joined with
    [model-timestamp.pth], as fixed when the trainer is constructed. *)
Theorem save_checkpoint_contents (w : W) (epoch : Z) (cfg : config) (model : model_info)
        (now : string) (t : Torch) (d : gmap string (checkpoint Params OptSD)) :
  let file := saved_model_file (self w) in
  Trainer._save_checkpoint epoch w =
    match optimizer (self w) with
    | Some _ => (Ok tt, written file (trainer_checkpoint w epoch) w)
    | None => (Raise (AttributeError "state_dict"), w)
    end /\
  GANTrainer._save_checkpoint epoch w = (Ok tt, written file (gan_checkpoint w epoch) w) /\
  disk (written file (trainer_checkpoint w epoch) w) !! file = Some (trainer_checkpoint w epoch) /\
  disk (written file (gan_checkpoint w epoch) w) !! file = Some (gan_checkpoint w epoch) /\
  ck_optimizer (trainer_checkpoint w epoch) = Some (optimizer_state_dict (torch w)) /\
  ck_optimizer (gan_checkpoint w epoch) = None /\
  saved_model_file (self (snd (Trainer.__init__ cfg model now t d : _ * W))) =
    checkpoint_path cfg now /\
  saved_model_file (self (snd (GANTrainer.__init__ cfg model now t d : _ * W))) =
    checkpoint_path cfg now.
Proof.
  intros file.
  split; [apply trainer_save_checkpoint_run|].
  split; [apply gan_save_checkpoint_run|].
  split; [apply lookup_insert_eq|].
  split; [apply lookup_insert_eq|].
  split; [reflexivity|]. split; [reflexivity|].
  destruct (trainer_init_run (Data := Data) cfg model now t d) as (o & evs & ->).
  destruct (gan_init_run cfg model now t d) as (g & dd & evs' & ->).
  split; reflexivity.
Qed.


End CheckpointClaims.

(** C2.  The early-stopping policy of the specification, a function of its
    five arguments: [improved] is the comparison the direction asks for; an
    improvement gives the new score and a patience counter of zero, anything
    else keeps the best score and adds one to the counter; [should_stop]
    holds exactly when the updated counter has reached a positive
    [max_step]. *)
Theorem early_stopping_policy (new_score best_score : float) (cur_step max_step : Z)
        (bigger_is_better : bool) :
  let '(updated_best, updated_cur_step, should_stop, improved) :=
    Utils.early_stopping new_score best_score cur_step max_step bigger_is_better in
  improved = (if bigger_is_better then PrimFloat.ltb best_score new_score
              else PrimFloat.ltb new_score best_score) /\
  (improved = true -> updated_best = new_score /\ updated_cur_step = 0) /\
  (improved = false -> updated_best = best_score /\ updated_cur_step = cur_step + 1) /\
  (should_stop = true <-> updated_cur_step >= max_step /\ max_step > 0).
Proof.
  unfold Utils.early_stopping.
  set (improved := if bigger_is_better then _ else _).
  split; [reflexivity|].
  split; [intros ->; split; reflexivity|].
  split; [intros ->; split; reflexivity|].
  rewrite andb_true_iff, Z.ltb_lt, Z.leb_le. lia.
Qed.

(** C6, the claim as stated fails: an adversarial trainer owns two
    optimizers, and the checkpoint it writes holds no optimizer state. *)
Lemma gan_checkpoint_without_optimizer_state :
  let w := Toy.fresh_gan (Toy.cfg "adam" 1 1 1) in
  exists g d ck,
    g_optimizer (self w) = Some g /\
    d_optimizer (self w) = Some d /\
    disk (snd (GANTrainer._save_checkpoint 1 w)) !! saved_model_file (self w) = Some ck /\
    ck_optimizer ck = None.
Proof.
  intros w. do 3 eexists.
  split; [reflexivity|]. split; [reflexivity|].
  split; [apply lookup_insert_eq | reflexivity].
Qed.


(** ** The epoch loop of [Trainer.fit] *)

Section FitFacts.
Context {Data Params OptSD Torch : Type} `{B : Backend Data Params OptSD Torch}.
Variable early_stopping : policy.

Local Abbreviation W := (world Data Params OptSD Torch).
Local Abbreviation M := (Py.M W).

Lemma fit_train_run (train_data : list Data) (verbose : bool) (epoch_idx : Z) (w w1 : W)
      (opt : optimizer_t) (train_loss : float) (ppl : np_float64) :
  optimizer (self w) = Some opt ->
  Trainer._train_epoch train_data epoch_idx w = (Ok (train_loss, ppl), w1) ->
  Trainer.fit_train train_data verbose epoch_idx w =
  (Ok tt, after_train w1 verbose epoch_idx train_loss ppl) /\ self w1 = self w.
Proof.
  intros Hopt Htrain.
  destruct (quiet_train_epoch _ _ _ _ _ Htrain) as (Hself & _).
  split; [|exact Hself].
  unfold Trainer.fit_train. rewrite (bind_ok _ _ _ _ _ Htrain).
  unfold Py.bind at 1. unfold update_self at 1, Py.modify at 1.
  unfold Py.bind at 1. rewrite trainer_save_checkpoint_run.
  cbn [self]. unfold record_train_loss, after_train.
  replace (optimizer (set_hist _ (self w1))) with (Some opt)
    by (rewrite Hself; symmetry; exact Hopt).
  destruct verbose; [reflexivity|].
  unfold when, Py.ret. rewrite logged_nil. reflexivity.
Qed.

Lemma fit_eval_disabled (valid_data : option (list Data)) (verbose saved : bool)
      (epoch_idx : Z) (w : W) (opt : optimizer_t) :
  optimizer (self w) = Some opt ->
  validation_enabled (self w) valid_data = false ->
  Trainer.fit_eval early_stopping valid_data verbose saved epoch_idx w =
  (Ok Py.Next,
   if saved then
     logged (if verbose
             then [logger_info (Text ("Saving current: " +:+ saved_model_file (self w)))]
             else [])
            (written (saved_model_file (self w)) (trainer_checkpoint w epoch_idx) w)
   else w).
Proof.
  intros Hopt Hen. unfold validation_enabled in Hen. apply negb_false_iff in Hen.
  unfold Trainer.fit_eval. unfold Py.bind at 1, Py.gets at 1. rewrite Hen.
  destruct saved; [|reflexivity].
  unfold when at 1. unfold Py.bind at 1. unfold Py.bind at 1.
  rewrite trainer_save_checkpoint_run, Hopt.
  destruct verbose; [reflexivity|].
  unfold when, Py.ret. rewrite logged_nil. reflexivity.
Qed.

Lemma fit_eval_skipped (valid_data : option (list Data)) (verbose saved : bool)
      (epoch_idx : Z) (w : W) :
  validation_enabled (self w) valid_data = true ->
  (epoch_idx + 1) mod eval_step (self w) <> 0 ->
  Trainer.fit_eval early_stopping valid_data verbose saved epoch_idx w = (Ok Py.Next, w).
Proof.
  intros Hen Hmod. unfold validation_enabled in Hen. apply negb_true_iff in Hen.
  unfold Trainer.fit_eval. unfold Py.bind at 1, Py.gets at 1. rewrite Hen.
  apply Z.eqb_neq in Hmod. rewrite Hmod. reflexivity.
Qed.

Lemma fit_eval_valid_raise (valid_data : option (list Data)) (verbose saved : bool)
      (epoch_idx : Z) (w w3 : W) (ex : exn) :
  validation_enabled (self w) valid_data = true ->
  (epoch_idx + 1) mod eval_step (self w) = 0 ->
  Trainer._valid_epoch (default [] valid_data) w = (Raise ex, w3) ->
  Trainer.fit_eval early_stopping valid_data verbose saved epoch_idx w = (Raise ex, w3).
Proof.
  intros Hen Hmod Hv. unfold validation_enabled in Hen. apply negb_true_iff in Hen.
  unfold Trainer.fit_eval. unfold Py.bind at 1, Py.gets at 1. rewrite Hen.
  apply Z.eqb_eq in Hmod. rewrite Hmod.
  apply bind_raise. exact Hv.
Qed.

Lemma fit_eval_validation (valid_data : option (list Data)) (verbose saved : bool)
      (epoch_idx : Z) (w w3 : W) (opt : optimizer_t) (valid_score : float)
      (valid_result : np_float64) :
  optimizer (self w) = Some opt ->
  validation_enabled (self w) valid_data = true ->
  (epoch_idx + 1) mod eval_step (self w) = 0 ->
  Trainer._valid_epoch (default [] valid_data) w = (Ok (valid_score, valid_result), w3) ->
  Trainer.fit_eval early_stopping valid_data verbose saved epoch_idx w =
  (Ok (fst (after_validation early_stopping w3 verbose saved epoch_idx valid_score valid_result)),
   snd (after_validation early_stopping w3 verbose saved epoch_idx valid_score valid_result)) /\
  self w3 = self w /\ disk w3 = disk w.
Proof.
  intros Hopt Hen Hmod Hv. unfold validation_enabled in Hen. apply negb_true_iff in Hen.
  destruct (quiet_valid_epoch _ _ _ _ Hv) as (Hself & Hdisk & _).
  split; [|split; assumption].
  unfold Trainer.fit_eval. unfold Py.bind at 1, Py.gets at 1. rewrite Hen.
  apply Z.eqb_eq in Hmod. rewrite Hmod.
  rewrite (bind_ok _ _ _ _ _ Hv). unfold Py.bind at 1, Py.gets at 1.
  unfold after_validation.
  destruct (early_stopping _ _ _ _ _) as [[[best cur] stop_flag] update_flag].
  assert (Hopt3 : optimizer (self w3) = Some opt) by congruence.
  destruct verbose, saved, update_flag, stop_flag;
    unfold when, Py.bind, update_self, Py.modify, emit, Py.gets, Py.ret;
    simpl; rewrite ?trainer_save_checkpoint_run; simpl; rewrite ?Hopt3;
    unfold logged, written; simpl; rewrite <- ?app_assoc, ?app_nil_r; reflexivity.
Qed.

Lemma after_validation_facts (w3 : W) (verbose saved : bool) (epoch_idx : Z)
      (valid_score : float) (valid_result : np_float64) :
  let s := self w3 in
  let '(best, cur, stop_flag, update_flag) :=
    early_stopping valid_score (best_valid_score (state s)) (cur_step (state s))
                   (stopping_step s) false in
  let r := after_validation early_stopping w3 verbose saved epoch_idx valid_score valid_result in
  fst r = (if stop_flag then Py.Break else Py.Next) /\
  state (self (snd r)) =
    TrainingState (start_epoch (state s)) cur best
                  (if update_flag then Some valid_result else best_valid_result (state s)) /\
  (exists rest, trace (snd r) = trace w3 ++ rest /\
                count_saves rest = if update_flag && saved then 1%nat else 0%nat) /\
  (update_flag && saved = true ->
   disk (snd r) !! saved_model_file s =
   Some (Checkpoint (self_config s) epoch_idx cur best (state_dict (torch w3))
                    (Some (optimizer_state_dict (torch w3))))) /\
  (update_flag && saved = false -> disk (snd r) = disk w3).
Proof.
  intros s. unfold after_validation. fold s.
  destruct (early_stopping _ _ _ _ _) as [[[best cur] stop_flag] update_flag].
  destruct verbose, saved, update_flag, stop_flag; simpl;
    (split; [reflexivity|]); (split; [reflexivity|]);
    (split; [eexists; rewrite <- ?app_assoc; split; [reflexivity|reflexivity]|]);
    (split; [intros; first [discriminate | apply lookup_insert_eq]|]);
    intros; first [discriminate | reflexivity].
Qed.



End FitFacts.




(** ** NaN losses

    A model call whose combined loss is NaN is the last model call of the
    run, and the run ends in an exception. *)

Section EventFacts.
Context {Data Params OptSD : Type}.
Implicit Types evs a b : list (event Data Params OptSD).

Lemma no_calls_app a b : no_calls (a ++ b) = no_calls a && no_calls b.
Proof. induction a as [|e a IH]; simpl; [reflexivity | rewrite IH, andb_assoc; reflexivity]. Qed.

Lemma no_nan_calls_app a b : no_nan_calls (a ++ b) = no_nan_calls a && no_nan_calls b.
Proof. induction a as [|e a IH]; simpl; [reflexivity | rewrite IH, andb_assoc; reflexivity]. Qed.

Lemma no_calls_no_nan evs : no_calls evs = true -> no_nan_calls evs = true.
Proof.
  induction evs as [|e evs IH]; simpl; [reflexivity|].
  intros H. apply andb_true_iff in H as [He Hr]. rewrite (IH Hr), andb_true_r.
  destruct e; simpl in *; try reflexivity. discriminate.
Qed.

Lemma no_nan_only_last evs : no_nan_calls evs = true -> nan_only_last evs = true.
Proof.
  induction evs as [|e evs IH]; simpl; [reflexivity|].
  intros H. apply andb_true_iff in H as [He Hr]. apply negb_true_iff in He.
  rewrite He. exact (IH Hr).
Qed.

Lemma nan_only_last_app a b :
  no_nan_calls a = true -> nan_only_last (a ++ b) = nan_only_last b.
Proof.
  induction a as [|e a IH]; simpl; [reflexivity|].
  intros H. apply andb_true_iff in H as [He Hr]. apply negb_true_iff in He.
  rewrite He. exact (IH Hr).
Qed.

(** What the two checks say about a call inside the events. *)
Lemma no_nan_calls_split a b (e : event Data Params OptSD) :
  is_nan_call e = true -> no_nan_calls (a ++ e :: b) = false.
Proof.
  intros He. rewrite no_nan_calls_app. simpl. rewrite He. simpl. apply andb_false_r.
Qed.

Lemma nan_only_last_split a b (e : event Data Params OptSD) :
  is_nan_call e = true -> nan_only_last (a ++ e :: b) = true -> no_calls b = true.
Proof.
  intros He. induction a as [|x a IH]; simpl.
  - rewrite He. trivial.
  - destruct (is_nan_call x); [|exact IH].
    rewrite no_calls_app. simpl. intros H. apply andb_true_iff in H as [_ H].
    apply andb_true_iff in H as [H _].
    destruct e; simpl in *; discriminate.
Qed.

End EventFacts.

Section Guarded.
Context {Data Params OptSD Torch : Type} `{B : Backend Data Params OptSD Torch}.

Local Abbreviation W := (world Data Params OptSD Torch).
Local Abbreviation M := (Py.M W).

Lemma callfree_same {A} (m : M A) :
  (forall w r w', m w = (r, w') -> trace w' = trace w) -> callfree m.
Proof.
  intros H w r w' E. exists []. rewrite app_nil_r. split; [eauto | reflexivity].
Qed.

Lemma callfree_ret {A} (a : A) : callfree (Py.ret a : M A).
Proof. apply callfree_same. intros w r w' H. inversion H. reflexivity. Qed.

Lemma callfree_raise {A} (e : exn) : callfree (Py.raise e : M A).
Proof. apply callfree_same. intros w r w' H. inversion H. reflexivity. Qed.

Lemma callfree_lift {A} (o : outcome A) : callfree (lift o : M A).
Proof. apply callfree_same. intros w r w' H. inversion H. reflexivity. Qed.

Lemma callfree_gets {A} (f : W -> A) : callfree (Py.gets f).
Proof. apply callfree_same. intros w r w' H. inversion H. reflexivity. Qed.

Lemma callfree_update_self (f : trainer -> trainer) : callfree (update_self f : M unit).
Proof. apply callfree_same. intros w r w' H. inversion H. reflexivity. Qed.

Lemma callfree_load_file (path : string) : callfree (load_file path : M _).
Proof.
  apply callfree_same. intros w r w' H. unfold load_file in H.
  destruct (disk w !! path); inversion H; reflexivity.
Qed.

Lemma callfree_do_load_state_dict (p : Params) : callfree (do_load_state_dict p : M unit).
Proof.
  apply callfree_same. intros w r w' H. unfold do_load_state_dict in H.
  destruct (load_state_dict p (torch w)); inversion H; reflexivity.
Qed.

Lemma callfree_do_optimizer_load_state_dict (s : OptSD) :
  callfree (do_optimizer_load_state_dict s : M unit).
Proof.
  apply callfree_same. intros w r w' H. unfold do_optimizer_load_state_dict in H.
  destruct (optimizer_load_state_dict s (torch w)); inversion H; reflexivity.
Qed.

Lemma callfree_bind {A C} (m : M A) (k : A -> M C) :
  callfree m -> (forall a, callfree (k a)) -> callfree (Py.bind m k).
Proof.
  intros Hm Hk w r w' H. unfold Py.bind in H.
  destruct (m w) as [[a|e] w1] eqn:E.
  - destruct (Hm _ _ _ E) as (evs & Ht & Hc).
    destruct (Hk a _ _ _ H) as (evs' & Ht' & Hc').
    exists (evs ++ evs'). rewrite Ht', Ht, <- app_assoc, no_calls_app, Hc, Hc'.
    split; reflexivity.
  - inversion H; subst. exact (Hm _ _ _ E).
Qed.

Lemma callfree_torch_do (o : torch_op Data) : callfree (torch_do o).
Proof. intros w r w' H. inversion H; subst. exists [TorchOp o]. split; reflexivity. Qed.

Lemma callfree_emit (e : event Data Params OptSD) : is_call e = false -> callfree (emit e : M unit).
Proof.
  intros He w r w' H. inversion H; subst. exists [e]. simpl. rewrite He. split; reflexivity.
Qed.

Lemma callfree_save_file (path : string) (ck : checkpoint Params OptSD) :
  callfree (save_file path ck : M unit).
Proof. intros w r w' H. inversion H; subst. eexists [_]. split; reflexivity. Qed.

Lemma callfree_when (b : bool) (m : M unit) : callfree m -> callfree (when b m).
Proof. intros Hm. destruct b; [exact Hm | apply callfree_ret]. Qed.

Lemma callfree_for_fold {A S} (body : S -> A -> M S) (xs : list A) (s : S) :
  (forall s x, callfree (body s x)) -> callfree (Py.for_fold xs body s).
Proof.
  intros Hb. revert s. induction xs as [|x xs IH]; intros s; simpl.
  - apply callfree_ret.
  - apply callfree_bind; [apply Hb | exact IH].
Qed.

Lemma callfree_try {A} (m h : M A) :
  callfree m -> callfree h -> callfree (Py.try_except_StopIteration m h).
Proof.
  intros Hm Hh w r w' H. unfold Py.try_except_StopIteration in H.
  destruct (m w) as [[a|e] w1] eqn:E.
  - inversion H; subst. exact (Hm _ _ _ E).
  - destruct (Hm _ _ _ E) as (evs & Ht & Hc).
    assert (Hcase : h w1 = (r, w') \/ (Raise e, w1) = (r, w')).
    { destruct e; auto. }
    destruct Hcase as [Hh'|Heq].
    + destruct (Hh _ _ _ Hh') as (evs' & Ht' & Hc').
      exists (evs ++ evs'). rewrite Ht', Ht, <- app_assoc, no_calls_app, Hc, Hc'.
      split; reflexivity.
    + inversion Heq; subst. exists evs. split; assumption.
Qed.

(** *** Rules for [guarded] *)

Lemma guarded_callfree {A} (m : M A) : callfree m -> guarded false m.
Proof.
  intros Hm w r w' H. destruct (Hm _ _ _ H) as (evs & Ht & Hc).
  exists evs. split; [exact Ht|].
  pose proof (no_calls_no_nan _ Hc) as Hn.
  destruct r; [split; [reflexivity | exact Hn] | apply no_nan_only_last; exact Hn].
Qed.

Lemma guarded_checks (pending : bool) {A} (m : M A) : checks pending m -> guarded pending m.
Proof.
  intros [Hm Hok] w r w' H. destruct (Hm _ _ _ H) as (evs & Ht & Hc).
  exists evs. split; [exact Ht|].
  pose proof (no_calls_no_nan _ Hc) as Hn.
  destruct r as [a|e].
  - split; [exact (Hok _ _ _ H) | exact Hn].
  - destruct pending; [exact Hc | apply no_nan_only_last; exact Hn].
Qed.

Lemma guarded_bind {A C} (m : M A) (k : A -> M C) :
  guarded false m -> (forall a, guarded false (k a)) -> guarded false (Py.bind m k).
Proof.
  intros Hm Hk w r w' H. unfold Py.bind in H.
  destruct (m w) as [[a|e] w1] eqn:E.
  - destruct (Hm _ _ _ E) as (evs & Ht & _ & Hc).
    destruct (Hk a _ _ _ H) as (evs' & Ht' & Hc').
    exists (evs ++ evs'). rewrite Ht', Ht, <- app_assoc. split; [reflexivity|].
    destruct r.
    + destruct Hc' as [_ Hc']. rewrite no_nan_calls_app, Hc, Hc'. split; reflexivity.
    + rewrite nan_only_last_app by exact Hc. exact Hc'.
  - inversion H; subst. exact (Hm _ _ _ E).
Qed.

Lemma guarded_bind_callfree (pending : bool) {A C} (m : M A) (k : A -> M C) :
  callfree m -> (forall a, guarded pending (k a)) -> guarded pending (Py.bind m k).
Proof.
  intros Hm Hk w r w' H. unfold Py.bind in H.
  destruct (m w) as [[a|e] w1] eqn:E.
  - destruct (Hm _ _ _ E) as (evs & Ht & Hc).
    destruct (Hk a _ _ _ H) as (evs' & Ht' & Hc').
    exists (evs ++ evs'). rewrite Ht', Ht, <- app_assoc. split; [reflexivity|].
    pose proof (no_calls_no_nan _ Hc) as Hn.
    destruct r.
    + destruct Hc' as [Hp Hc']. rewrite no_nan_calls_app, Hn, Hc'. split; [exact Hp|reflexivity].
    + destruct pending.
      * rewrite no_calls_app, Hc, Hc'. reflexivity.
      * rewrite nan_only_last_app by exact Hn. exact Hc'.
  - inversion H; subst. destruct (Hm _ _ _ E) as (evs & Ht & Hc).
    exists evs. split; [exact Ht|].
    destruct pending; [exact Hc | apply no_nan_only_last, no_calls_no_nan, Hc].
Qed.

Lemma guarded_bind_checks (p1 p2 : bool) {A C} (m : M A) (k : A -> M C) :
  checks p1 m -> (forall a, guarded p2 (k a)) -> guarded (p1 || p2) (Py.bind m k).
Proof.
  intros [Hm Hok] Hk w r w' H. unfold Py.bind in H.
  destruct (m w) as [[a|e] w1] eqn:E.
  - destruct (Hm _ _ _ E) as (evs & Ht & Hc).
    rewrite (Hok _ _ _ E). simpl.
    destruct (Hk a _ _ _ H) as (evs' & Ht' & Hc').
    exists (evs ++ evs'). rewrite Ht', Ht, <- app_assoc. split; [reflexivity|].
    pose proof (no_calls_no_nan _ Hc) as Hn.
    destruct r.
    + destruct Hc' as [Hp Hc']. rewrite no_nan_calls_app, Hn, Hc'. split; [exact Hp|reflexivity].
    + destruct p2.
      * rewrite no_calls_app, Hc, Hc'. reflexivity.
      * rewrite nan_only_last_app by exact Hn. exact Hc'.
  - inversion H; subst. destruct (Hm _ _ _ E) as (evs & Ht & Hc).
    exists evs. split; [exact Ht|].
    destruct (p1 || p2); [exact Hc | apply no_nan_only_last, no_calls_no_nan, Hc].
Qed.

Lemma guarded_call_loss {C} (c : call Data) (k : losses -> M C) :
  (forall l, guarded (nan_loss l) (k l)) -> guarded false (Py.bind (call_loss c) k).
Proof.
  intros Hk w r w' H. unfold Py.bind, call_loss, Py.gets, Py.modify, Py.ret in H.
  simpl in H.
  destruct (Hk _ _ _ _ H) as (evs & Ht & Hc). simpl in Ht.
  eexists (_ :: evs). rewrite Ht, <- app_assoc. split; [reflexivity|].
  simpl. destruct r.
  - destruct Hc as [Hp Hc]. rewrite Hp, Hc. split; reflexivity.
  - destruct (nan_loss _); exact Hc.
Qed.

Lemma guarded_call_loss_pair {C} (c : call Data) (k : losses * losses -> M C) :
  (forall p, guarded (nan_loss (fst p) || nan_loss (snd p)) (k p)) ->
  guarded false (Py.bind (call_loss_pair c) k).
Proof.
  intros Hk w r w' H. unfold Py.bind, call_loss_pair, Py.gets, Py.modify, Py.ret in H.
  simpl in H.
  destruct (Hk _ _ _ _ H) as (evs & Ht & Hc). simpl in Ht.
  eexists (_ :: evs). rewrite Ht, <- app_assoc. split; [reflexivity|].
  simpl. destruct r.
  - destruct Hc as [Hp Hc]. rewrite Hp, Hc. split; reflexivity.
  - destruct (nan_loss _ || nan_loss _); exact Hc.
Qed.

Lemma guarded_for_fold {A S} (body : S -> A -> M S) (xs : list A) (s : S) :
  (forall s x, guarded false (body s x)) -> guarded false (Py.for_fold xs body s).
Proof.
  intros Hb. revert s. induction xs as [|x xs IH]; intros s; simpl.
  - apply guarded_callfree, callfree_ret.
  - apply guarded_bind; [apply Hb | exact IH].
Qed.

Lemma guarded_for_each {A} (body : A -> M Py.ctl) (xs : list A) :
  (forall x, guarded false (body x)) -> guarded false (Py.for_each xs body).
Proof.
  intros Hb. induction xs as [|x xs IH]; simpl.
  - apply guarded_callfree, callfree_ret.
  - apply guarded_bind; [apply Hb|].
    intros [|]; [exact IH | apply guarded_callfree, callfree_ret].
Qed.

End Guarded.

Create HintDb callfree.
#[export] Hint Resolve callfree_ret callfree_raise callfree_lift callfree_gets
  callfree_update_self callfree_load_file callfree_do_load_state_dict
  callfree_do_optimizer_load_state_dict callfree_torch_do callfree_save_file
  callfree_when : callfree.

Ltac callfree_tac :=
  repeat first
    [ solve [ auto with callfree ]
    | apply callfree_emit; reflexivity
    | apply callfree_when
    | apply callfree_try
    | apply callfree_for_fold; intros ? ?
    | apply callfree_bind; [ | intros ? ]
    | match goal with
      | |- callfree (match ?x with _ => _ end) => destruct x
      | |- callfree (if ?x then _ else _) => destruct x
      end ].

Section GuardedMethods.
Context {Data Params OptSD Torch : Type} `{B : Backend Data Params OptSD Torch}.

Local Abbreviation W := (world Data Params OptSD Torch).
Local Abbreviation M := (Py.M W).

Lemma accumulate_loss (l : losses) (total_loss : option total) (loss : option float)
      (t : total) :
  accumulate l total_loss = Ok (loss, t) -> loss = combined_loss l.
Proof.
  unfold accumulate. destruct l, total_loss as [[]|]; intros H; inversion H; reflexivity.
Qed.

Lemma check_passed (l : losses) (total_loss : option total) (loss : option float)
      (t : total) :
  accumulate l total_loss = Ok (loss, t) -> _check_nan loss = Ok tt -> nan_loss l = false.
Proof.
  intros Hacc Hchk. apply accumulate_loss in Hacc. unfold nan_loss. rewrite <- Hacc.
  unfold _check_nan in Hchk. destruct loss as [x|]; [|reflexivity].
  destruct (PrimFloat.is_nan x); [discriminate | reflexivity].
Qed.

(** The aggregation and the check, followed by operations that call no loss
    contract: the shape of every step. *)
Lemma checks_accumulate {A} (l : losses) (total_loss : option total)
      (k : option float -> total -> M A) :
  (forall loss t, callfree (k loss t)) ->
  checks (nan_loss l)
         (Py.bind (lift (accumulate l total_loss))
                  (fun p => let '(loss, t) := p in
                            Py.bind (lift (_check_nan loss)) (fun _ => k loss t))).
Proof.
  intros Hk. split.
  - apply callfree_bind; [apply callfree_lift|]. intros [loss t].
    apply callfree_bind; [apply callfree_lift | intros _; apply Hk].
  - intros w a w' H. unfold Py.bind, lift in H.
    destruct (accumulate l total_loss) as [[loss t]|e] eqn:Hacc; [|discriminate].
    destruct (_check_nan loss) as [[]|e] eqn:Hchk; [|discriminate].
    exact (check_passed _ _ _ _ Hacc Hchk).
Qed.

Lemma guarded_bind_checks0 (p : bool) {A C} (m : M A) (k : A -> M C) :
  checks p m -> (forall a, guarded false (k a)) -> guarded p (Py.bind m k).
Proof.
  intros Hm Hk. pose proof (guarded_bind_checks p false m k Hm Hk) as H.
  rewrite orb_false_r in H. exact H.
Qed.

Lemma callfree_get_optimizer (attr : string) : callfree (Trainer.get_optimizer attr : M _).
Proof. unfold Trainer.get_optimizer. callfree_tac. Qed.

Lemma callfree_get_module_optimizer (md : module) :
  callfree (GANTrainer.get_module_optimizer md : M _).
Proof. unfold GANTrainer.get_module_optimizer. callfree_tac. Qed.

Lemma callfree_as_optimizer (opt : optimizer_handle) :
  callfree (GANTrainer.as_optimizer opt : M _).
Proof. unfold GANTrainer.as_optimizer. callfree_tac. Qed.

Lemma callfree_trainer_save_checkpoint (epoch : Z) :
  callfree (Trainer._save_checkpoint epoch : M _).
Proof.
  unfold Trainer._save_checkpoint. pose proof callfree_get_optimizer. callfree_tac.
Qed.

Lemma callfree_gan_save_checkpoint (epoch : Z) :
  callfree (GANTrainer._save_checkpoint epoch : M _).
Proof. unfold GANTrainer._save_checkpoint. callfree_tac. Qed.

Lemma callfree_optimize_multi_step (c : call Data) (l : losses) (opts : optimizer_handle) :
  callfree (GANTrainer._optimize_multi_step c l opts : M _).
Proof.
  unfold GANTrainer._optimize_multi_step, GANTrainer.zip_opts_losses. callfree_tac.
Qed.

Lemma callfree_get_real_data (train_data : list Data) :
  callfree (GANTrainer._get_real_data train_data : M _).
Proof. unfold GANTrainer._get_real_data. callfree_tac. Qed.

Lemma callfree_py_next (it : list Data) : callfree (MaskGANTrainer.py_next it : M _).
Proof. unfold MaskGANTrainer.py_next. callfree_tac. Qed.

Lemma checks_gan_optimize_step (c : call Data) (l : losses) (total_loss : option total)
      (model : module) (opt : optimizer_handle) :
  checks (nan_loss l) (GANTrainer._optimize_step c l total_loss model opt : M _).
Proof.
  unfold GANTrainer._optimize_step. apply checks_accumulate. intros loss t.
  pose proof callfree_optimize_multi_step. pose proof callfree_as_optimizer.
  callfree_tac.
Qed.

Lemma checks_maskgan_optimize_step (c : call Data) (t : which) (l : losses)
      (total_loss : option total) (model : module) (opt : optimizer_handle)
      (retain_graph : bool) :
  checks (nan_loss l)
         (MaskGANTrainer._optimize_step c t l total_loss model opt retain_graph : M _).
Proof.
  unfold MaskGANTrainer._optimize_step. apply checks_accumulate. intros loss t'.
  pose proof callfree_as_optimizer. callfree_tac.
Qed.

End GuardedMethods.

#[export] Hint Resolve callfree_get_optimizer callfree_get_module_optimizer
  callfree_as_optimizer callfree_trainer_save_checkpoint callfree_gan_save_checkpoint
  callfree_optimize_multi_step callfree_get_real_data callfree_py_next : callfree.

Create HintDb guarded.
#[export] Hint Resolve checks_gan_optimize_step checks_maskgan_optimize_step : guarded.

(** Decompose a computation into calls, checks and call-free pieces. *)
Ltac guarded_tac :=
  repeat first
    [ solve [ auto with guarded ]
    | apply guarded_callfree; solve [ callfree_tac ]
    | apply guarded_call_loss; intros ?
    | apply guarded_call_loss_pair; intros [? ?]; cbn [fst snd]
    | apply guarded_for_fold; intros ? ?
    | apply guarded_for_each; intros ?
    | apply guarded_checks; apply checks_accumulate; intros ? ?; solve [ callfree_tac ]
    | apply guarded_bind_checks; [ solve [ auto with guarded ] | intros ? ]
    | apply guarded_bind_checks0; [ solve [ auto with guarded ] | intros ? ]
    | apply guarded_bind_callfree; [ solve [ callfree_tac ] | intros ? ]
    | apply guarded_bind; [ | intros ? ]
    | match goal with
      | |- guarded _ (match ?x with _ => _ end) => destruct x
      | |- guarded _ (if ?x then _ else _) => destruct x
      end ].

Section GuardedTrainers.
Context {Data Params OptSD Torch : Type} `{B : Backend Data Params OptSD Torch}.
Variable early_stopping : policy.

Local Abbreviation W := (world Data Params OptSD Torch).
Local Abbreviation M := (Py.M W).

Lemma guarded_train_step (epoch_idx : Z) (total_loss : option total) (data : Data) :
  guarded false (Trainer.train_step epoch_idx total_loss data : M _).
Proof. unfold Trainer.train_step. guarded_tac. Qed.

Lemma guarded_valid_step (total_loss : option total) (data : Data) :
  guarded false (Trainer.valid_step total_loss data : M _).
Proof. unfold Trainer.valid_step. guarded_tac. Qed.

Lemma guarded_train_epoch (train_data : list Data) (epoch_idx : Z) :
  guarded false (Trainer._train_epoch train_data epoch_idx : M _).
Proof. unfold Trainer._train_epoch. pose proof guarded_train_step. guarded_tac. Qed.

Lemma guarded_valid_epoch (valid_data : list Data) :
  guarded false (Trainer._valid_epoch valid_data : M _).
Proof. unfold Trainer._valid_epoch. pose proof guarded_valid_step. guarded_tac. Qed.

Lemma guarded_trainer_fit (train_data : list Data) (valid_data : option (list Data))
      (verbose saved : bool) :
  guarded false (Trainer.fit early_stopping train_data valid_data verbose saved : M _).
Proof.
  unfold Trainer.fit, Trainer.fit_epoch, Trainer.fit_train, Trainer.fit_eval.
  pose proof guarded_train_epoch. pose proof guarded_valid_epoch.
  guarded_tac.
Qed.

End GuardedTrainers.

Section GuardedGAN.
Context {Data Params OptSD Torch : Type} `{B : Backend Data Params OptSD Torch}.

Local Abbreviation W := (world Data Params OptSD Torch).
Local Abbreviation M := (Py.M W).

Lemma guarded_g_train_epoch (train_data : list Data) (epoch_idx : Z) :
  guarded false (GANTrainer._g_train_epoch train_data epoch_idx : M _).
Proof. unfold GANTrainer._g_train_epoch. guarded_tac. Qed.

Lemma guarded_d_train_epoch (train_data : list Data) (epoch_idx : Z) :
  guarded false (GANTrainer._d_train_epoch train_data epoch_idx : M _).
Proof. unfold GANTrainer._d_train_epoch. guarded_tac. Qed.

Lemma guarded_adversarial_train_epoch (d_train_epoch : list Data -> Z -> M total)
      (train_data : list Data) (epoch_idx : Z) :
  (forall td e, guarded false (d_train_epoch td e)) ->
  guarded false (GANTrainer._adversarial_train_epoch d_train_epoch train_data epoch_idx).
Proof. intros Hd. unfold GANTrainer._adversarial_train_epoch. guarded_tac. Qed.

Lemma guarded_gan_fit (methods : gan_methods W Data) (train_data : list Data)
      (valid_data : option (list Data)) (verbose saved : bool) :
  guarded_methods methods ->
  guarded false (GANTrainer.fit methods train_data valid_data verbose saved).
Proof.
  intros (Hg & Hd & Ha). unfold GANTrainer.fit, GANTrainer.train_loss_dict_setitem.
  guarded_tac.
Qed.

Lemma guarded_gan_methods : guarded_methods (GANTrainer.methods : gan_methods W Data).
Proof.
  split; [|split]; simpl.
  - apply guarded_g_train_epoch.
  - apply guarded_d_train_epoch.
  - intros td e. apply guarded_adversarial_train_epoch. apply guarded_d_train_epoch.
Qed.

Lemma guarded_maskgan_g_train_epoch (train_data : list Data) (epoch_idx : Z) :
  guarded false (MaskGANTrainer._g_train_epoch train_data epoch_idx : M _).
Proof. unfold MaskGANTrainer._g_train_epoch. guarded_tac. Qed.

Lemma guarded_maskgan_d_train_epoch (train_data : list Data) (epoch_idx : Z) :
  guarded false (MaskGANTrainer._d_train_epoch train_data epoch_idx : M _).
Proof. unfold MaskGANTrainer._d_train_epoch. guarded_tac. Qed.

Lemma guarded_d_micro_step (train_data : list Data) (l : MaskGANTrainer.adv_locals) (i : Z) :
  guarded false (MaskGANTrainer.d_micro_step train_data l i : M _).
Proof. unfold MaskGANTrainer.d_micro_step. guarded_tac. Qed.

Lemma guarded_g_macro_step (train_data : list Data) (l : MaskGANTrainer.adv_locals)
      (g_x : Data) :
  guarded false (MaskGANTrainer.g_macro_step train_data l g_x : M _).
Proof.
  unfold MaskGANTrainer.g_macro_step. pose proof guarded_d_micro_step. guarded_tac.
Qed.

Lemma guarded_maskgan_adversarial_train_epoch (train_data : list Data) (epoch_idx : Z) :
  guarded false (MaskGANTrainer._adversarial_train_epoch train_data epoch_idx : M _).
Proof.
  unfold MaskGANTrainer._adversarial_train_epoch. pose proof guarded_g_macro_step.
  guarded_tac.
Qed.

Lemma guarded_maskgan_methods :
  guarded_methods (MaskGANTrainer.methods : gan_methods W Data).
Proof.
  split; [|split]; simpl.
  - apply guarded_maskgan_g_train_epoch.
  - apply guarded_maskgan_d_train_epoch.
  - apply guarded_maskgan_adversarial_train_epoch.
Qed.

Lemma callfree_draw_ref_data (real_data : Data) :
  callfree (RankGANTrainer.draw_ref_data real_data : M _).
Proof. unfold RankGANTrainer.draw_ref_data. callfree_tac. Qed.

Lemma guarded_textgan_d_train_epoch (train_data : list Data) (epoch_idx : Z) :
  guarded false (TextGANTrainer._d_train_epoch train_data epoch_idx : M _).
Proof. unfold TextGANTrainer._d_train_epoch. guarded_tac. Qed.

Lemma guarded_textgan_adversarial_train_epoch (train_data : list Data) (epoch_idx : Z) :
  guarded false (TextGANTrainer._adversarial_train_epoch train_data epoch_idx : M _).
Proof.
  unfold TextGANTrainer._adversarial_train_epoch.
  pose proof guarded_textgan_d_train_epoch. guarded_tac.
Qed.

Lemma guarded_textgan_methods :
  guarded_methods (TextGANTrainer.methods : gan_methods W Data).
Proof.
  split; [|split]; simpl.
  - apply guarded_g_train_epoch.
  - apply guarded_textgan_d_train_epoch.
  - apply guarded_textgan_adversarial_train_epoch.
Qed.

Lemma guarded_rankgan_d_train_epoch (train_data : list Data) (epoch_idx : Z) :
  guarded false (RankGANTrainer._d_train_epoch train_data epoch_idx : M _).
Proof.
  unfold RankGANTrainer._d_train_epoch. pose proof callfree_draw_ref_data. guarded_tac.
Qed.

Lemma guarded_rankgan_adversarial_train_epoch (d_train_epoch : list Data -> Z -> M total)
      (train_data : list Data) (epoch_idx : Z) :
  (forall td e, guarded false (d_train_epoch td e)) ->
  guarded false (RankGANTrainer._adversarial_train_epoch d_train_epoch train_data epoch_idx).
Proof.
  intros Hd. unfold RankGANTrainer._adversarial_train_epoch.
  pose proof callfree_draw_ref_data. guarded_tac.
Qed.

Lemma guarded_rankgan_methods :
  guarded_methods (RankGANTrainer.methods : gan_methods W Data).
Proof.
  split; [|split]; simpl.
  - apply guarded_g_train_epoch.
  - apply guarded_rankgan_d_train_epoch.
  - intros td e. apply guarded_rankgan_adversarial_train_epoch.
    apply guarded_rankgan_d_train_epoch.
Qed.

Lemma guarded_aborts {A} (m : M A) : guarded false m -> aborts_on_nan m.
Proof.
  intros Hm w pre c res post Htr Hnan.
  destruct (m w) as [r w'] eqn:E. cbn [fst snd] in *.
  destruct (Hm _ _ _ E) as (evs & Ht & Hc).
  rewrite Ht in Htr. apply app_inv_head in Htr. subst evs.
  destruct r as [a|e].
  - destruct Hc as [_ Hc].
    rewrite (no_nan_calls_split pre post (model_call c res)) in Hc by exact Hnan.
    discriminate.
  - split; [reflexivity|].
    exact (nan_only_last_split pre post (model_call c res) Hnan Hc).
Qed.

(** *** What a step does on a NaN loss *)

Lemma train_step_nan (epoch_idx : Z) (total_loss : option total) (data : Data) (w : W)
      (opt : optimizer_t) (x : float) (t : total) :
  optimizer (self w) = Some opt ->
  let c := calculate_loss data (Some epoch_idx) in
  let l := loss_of (run (zero_grad opt) (torch w)) c in
  accumulate l total_loss = Ok (Some x, t) ->
  PrimFloat.is_nan x = true ->
  Trainer.train_step epoch_idx total_loss data w =
  (Raise nan_error,
   World (self w) (run (forward c) (run (zero_grad opt) (torch w))) (disk w)
         (trace w ++ [TorchOp (zero_grad opt); model_call c (Losses l)])).
Proof.
  intros Hopt c l Hacc Hnan.
  unfold Trainer.train_step, Trainer.get_optimizer, Py.bind, Py.gets, call_loss,
    torch_do, Py.modify, Py.ret, lift. simpl.
  rewrite Hopt. simpl. fold c. fold l. rewrite Hacc. simpl. rewrite Hnan.
  rewrite <- app_assoc. reflexivity.
Qed.

Lemma valid_step_nan (total_loss : option total) (data : Data) (w : W)
      (opt : optimizer_t) (x : float) (t : total) :
  optimizer (self w) = Some opt ->
  let c := calculate_loss data None in
  let l := loss_of (run (zero_grad opt) (torch w)) c in
  accumulate l total_loss = Ok (Some x, t) ->
  PrimFloat.is_nan x = true ->
  Trainer.valid_step total_loss data w =
  (Raise nan_error,
   World (self w) (run (forward c) (run (zero_grad opt) (torch w))) (disk w)
         (trace w ++ [TorchOp (zero_grad opt); model_call c (Losses l)])).
Proof.
  intros Hopt c l Hacc Hnan.
  unfold Trainer.valid_step, Trainer.get_optimizer, Py.bind, Py.gets, call_loss,
    torch_do, Py.modify, Py.ret, lift. simpl.
  rewrite Hopt. simpl. fold c. fold l. rewrite Hacc. simpl. rewrite Hnan.
  rewrite <- app_assoc. reflexivity.
Qed.

Lemma gan_optimize_step_nan (c : call Data) (l : losses) (total_loss : option total)
      (model : module) (opt : optimizer_handle) (w : W) (x : float) (t : total) :
  accumulate l total_loss = Ok (Some x, t) ->
  PrimFloat.is_nan x = true ->
  GANTrainer._optimize_step c l total_loss model opt w = (Raise nan_error, w).
Proof.
  intros Hacc Hnan. unfold GANTrainer._optimize_step, Py.bind, lift.
  rewrite Hacc. simpl. rewrite Hnan. reflexivity.
Qed.

Lemma maskgan_optimize_step_nan (c : call Data) (wh : which) (l : losses)
      (total_loss : option total) (model : module) (opt : optimizer_handle)
      (retain_graph : bool) (w : W) (x : float) (t : total) :
  accumulate l total_loss = Ok (Some x, t) ->
  PrimFloat.is_nan x = true ->
  MaskGANTrainer._optimize_step c wh l total_loss model opt retain_graph w =
  (Raise nan_error, w).
Proof.
  intros Hacc Hnan. unfold MaskGANTrainer._optimize_step, Py.bind, lift.
  rewrite Hacc. simpl. rewrite Hnan. reflexivity.
Qed.

End GuardedGAN.

Section NanClaim.
Context {Data Params OptSD Torch : Type} `{B : Backend Data Params OptSD Torch}.
Variable early_stopping : policy.

Local Abbreviation W := (world Data Params OptSD Torch).
Local Abbreviation M := (Py.M W).

Lemma train_epoch_nan (train_data pre post : list Data) (d : Data) (e : Z) (w w1 : W)
      (opt : optimizer_t) (tot : option total) (x : float) (t : total) :
  optimizer (self w) = Some opt ->
  train_data = pre ++ d :: post ->
  Py.for_fold pre (Trainer.train_step e) None (snd (torch_do model_train w)) = (Ok tot, w1) ->
  let c := calculate_loss d (Some e) in
  let l := loss_of (run (zero_grad opt) (torch w1)) c in
  accumulate l tot = Ok (Some x, t) ->
  PrimFloat.is_nan x = true ->
  Trainer._train_epoch train_data e w =
  (Raise nan_error,
   World (self w1) (run (forward c) (run (zero_grad opt) (torch w1))) (disk w1)
         (trace w1 ++ [TorchOp (zero_grad opt); model_call c (Losses l)])).
Proof.
  intros Hopt -> Hpre c l Hacc Hnan.
  assert (Hself : self w1 = self w).
  { destruct (quiet_for_fold (Trainer.train_step e) pre None
                (fun s x => quiet_train_step e s x) _ _ _ Hpre) as (Hs & _).
    exact Hs. }
  unfold Trainer._train_epoch.
  rewrite (bind_ok _ _ w (snd (torch_do model_train w)) tt) by reflexivity.
  apply bind_raise.
  apply (for_fold_raise _ pre post d None tot _ w1); [exact Hpre|].
  eapply train_step_nan; [rewrite Hself; exact Hopt | exact Hacc | exact Hnan].
Qed.

Lemma valid_epoch_nan (valid_data pre post : list Data) (d : Data) (w w1 : W)
      (opt : optimizer_t) (tot : option total) (x : float) (t : total) :
  optimizer (self w) = Some opt ->
  valid_data = pre ++ d :: post ->
  Py.for_fold pre Trainer.valid_step None (snd (torch_do model_eval w)) = (Ok tot, w1) ->
  let c := calculate_loss d None in
  let l := loss_of (run (zero_grad opt) (torch w1)) c in
  accumulate l tot = Ok (Some x, t) ->
  PrimFloat.is_nan x = true ->
  Trainer._valid_epoch valid_data w =
  (Raise nan_error,
   World (self w1) (run (forward c) (run (zero_grad opt) (torch w1))) (disk w1)
         (trace w1 ++ [TorchOp (zero_grad opt); model_call c (Losses l)])).
Proof.
  intros Hopt -> Hpre c l Hacc Hnan.
  assert (Hself : self w1 = self w).
  { destruct (quiet_for_fold Trainer.valid_step pre None
                (fun s x => quiet_valid_step s x) _ _ _ Hpre) as (Hs & _).
    exact Hs. }
  unfold Trainer._valid_epoch.
  rewrite (bind_ok _ _ w (snd (torch_do model_eval w)) tt) by reflexivity.
  apply bind_raise.
  apply (for_fold_raise _ pre post d None tot _ w1); [exact Hpre|].
  eapply valid_step_nan; [rewrite Hself; exact Hopt | exact Hacc | exact Hnan].
Qed.

(** An exception of the body of epoch [e], the epochs before it having
    completed, leaves [fit]. *)
Lemma fit_raise (train_data : list Data) (valid_data : option (list Data))
      (verbose saved : bool) (w w_e w' : W) (done rest : list Z) (e : Z) (ex : exn) :
  py_range (start_epoch (state (self w))) (epochs (self w)) = done ++ e :: rest ->
  completes (Trainer.fit_epoch early_stopping train_data valid_data verbose saved)
            done w w_e ->
  Trainer.fit_epoch early_stopping train_data valid_data verbose saved e w_e = (Raise ex, w') ->
  Trainer.fit early_stopping train_data valid_data verbose saved w = (Raise ex, w').
Proof.
  intros Hrange Hdone Hbody. unfold Trainer.fit.
  unfold Py.bind at 1, Py.gets at 1. rewrite Hrange.
  apply bind_raise. exact (for_each_raise _ done rest e w w_e w' ex Hdone Hbody).
Qed.

(** C1, as amended.  In the [fit] of the base trainer and of the four
    adversarial trainers ([GANTrainer], [TextGANTrainer], [RankGANTrainer],
    [MaskGANTrainer]), whatever the data and the flags, a model call whose
    combined loss is NaN is the last model call of the run, and [fit] does
    not return: it raises.  The exception is the [ValueError] of
    [_check_nan], raised by the step itself, when the aggregation of the
    step is well typed: a training step of the base trainer raises it after
    [zero_grad] and the call, before [backward] and the optimizer's [step]; a
    validation step likewise; [_optimize_step] of the adversarial trainers
    raises it before any operation on the optimizer.  In the base trainer
    the error of a training or validation step of any epoch is the outcome
    of [fit], in the world the step left: the rest of the epoch does not
    run. *)
Theorem nan_loss_aborts_fit (train_data : list Data) (valid_data : option (list Data))
        (verbose saved : bool) :
  aborts_on_nan (Trainer.fit early_stopping train_data valid_data verbose saved : M _) /\
  aborts_on_nan (GANTrainer.fit GANTrainer.methods train_data valid_data verbose saved : M _) /\
  aborts_on_nan (GANTrainer.fit TextGANTrainer.methods train_data valid_data verbose saved
                 : M _) /\
  aborts_on_nan (GANTrainer.fit RankGANTrainer.methods train_data valid_data verbose saved
                 : M _) /\
  aborts_on_nan (GANTrainer.fit MaskGANTrainer.methods train_data valid_data verbose saved
                 : M _) /\
  (forall epoch_idx total_loss data (w : W) opt x t,
     optimizer (self w) = Some opt ->
     let c := calculate_loss data (Some epoch_idx) in
     let l := loss_of (run (zero_grad opt) (torch w)) c in
     accumulate l total_loss = Ok (Some x, t) ->
     PrimFloat.is_nan x = true ->
     Trainer.train_step epoch_idx total_loss data w =
     (Raise nan_error,
      World (self w) (run (forward c) (run (zero_grad opt) (torch w))) (disk w)
            (trace w ++ [TorchOp (zero_grad opt); model_call c (Losses l)]))) /\
  (forall total_loss data (w : W) opt x t,
     optimizer (self w) = Some opt ->
     let c := calculate_loss data None in
     let l := loss_of (run (zero_grad opt) (torch w)) c in
     accumulate l total_loss = Ok (Some x, t) ->
     PrimFloat.is_nan x = true ->
     Trainer.valid_step total_loss data w =
     (Raise nan_error,
      World (self w) (run (forward c) (run (zero_grad opt) (torch w))) (disk w)
            (trace w ++ [TorchOp (zero_grad opt); model_call c (Losses l)]))) /\
  (forall (c : call Data) wh l total_loss model opt retain_graph (w : W) x t,
     accumulate l total_loss = Ok (Some x, t) ->
     PrimFloat.is_nan x = true ->
     GANTrainer._optimize_step c l total_loss model opt w = (Raise nan_error, w) /\
     MaskGANTrainer._optimize_step c wh l total_loss model opt retain_graph w =
     (Raise nan_error, w)) /\
  (forall (w w_e w1 : W) done e rest pre d post opt tot x t,
     py_range (start_epoch (state (self w))) (epochs (self w)) = done ++ e :: rest ->
     completes (Trainer.fit_epoch early_stopping train_data valid_data verbose saved)
               done w w_e ->
     optimizer (self w_e) = Some opt ->
     train_data = pre ++ d :: post ->
     Py.for_fold pre (Trainer.train_step e) None (snd (torch_do model_train w_e))
       = (Ok tot, w1) ->
     let c := calculate_loss d (Some e) in
     let l := loss_of (run (zero_grad opt) (torch w1)) c in
     accumulate l tot = Ok (Some x, t) ->
     PrimFloat.is_nan x = true ->
     Trainer.fit early_stopping train_data valid_data verbose saved w =
     (Raise nan_error,
      World (self w1) (run (forward c) (run (zero_grad opt) (torch w1))) (disk w1)
            (trace w1 ++ [TorchOp (zero_grad opt); model_call c (Losses l)]))) /\
  (forall (w w_e w2 w1 : W) done e rest pre d post opt tot x t,
     py_range (start_epoch (state (self w))) (epochs (self w)) = done ++ e :: rest ->
     completes (Trainer.fit_epoch early_stopping train_data valid_data verbose saved)
               done w w_e ->
     Trainer.fit_train train_data verbose e w_e = (Ok tt, w2) ->
     optimizer (self w2) = Some opt ->
     validation_enabled (self w2) valid_data = true ->
     (e + 1) mod eval_step (self w2) = 0 ->
     valid_data = Some (pre ++ d :: post) ->
     Py.for_fold pre Trainer.valid_step None (snd (torch_do model_eval w2)) = (Ok tot, w1) ->
     let c := calculate_loss d None in
     let l := loss_of (run (zero_grad opt) (torch w1)) c in
     accumulate l tot = Ok (Some x, t) ->
     PrimFloat.is_nan x = true ->
     Trainer.fit early_stopping train_data valid_data verbose saved w =
     (Raise nan_error,
      World (self w1) (run (forward c) (run (zero_grad opt) (torch w1))) (disk w1)
            (trace w1 ++ [TorchOp (zero_grad opt); model_call c (Losses l)]))).
Proof.
  split; [apply guarded_aborts, guarded_trainer_fit|].
  split; [apply guarded_aborts, guarded_gan_fit, guarded_gan_methods|].
  split; [apply guarded_aborts, guarded_gan_fit, guarded_textgan_methods|].
  split; [apply guarded_aborts, guarded_gan_fit, guarded_rankgan_methods|].
  split; [apply guarded_aborts, guarded_gan_fit, guarded_maskgan_methods|].
  split; [intros; eapply train_step_nan; eassumption|].
  split; [intros; eapply valid_step_nan; eassumption|].
  split.
  { intros. split.
    - eapply gan_optimize_step_nan; eassumption.
    - eapply maskgan_optimize_step_nan; eassumption. }
  split.
  - intros w w_e w1 done e rest pre d post opt tot x t Hrange Hdone Hopt Htd Hpre c l
           Hacc Hnan.
    apply (fit_raise _ _ _ _ w w_e _ done rest e _ Hrange Hdone).
    unfold Trainer.fit_epoch, Trainer.fit_train.
    apply bind_raise, bind_raise.
    eapply train_epoch_nan; eassumption.
  - intros w w_e w2 w1 done e rest pre d post opt tot x t Hrange Hdone Htrain Hopt Hen
           Hmod Hvd Hpre c l Hacc Hnan.
    apply (fit_raise _ _ _ _ w w_e _ done rest e _ Hrange Hdone).
    unfold Trainer.fit_epoch. rewrite (bind_ok _ _ _ _ _ Htrain).
    apply fit_eval_valid_raise; [exact Hen | exact Hmod |].
    rewrite Hvd. cbn [default].
    eapply valid_epoch_nan; [exact Hopt | reflexivity | exact Hpre | exact Hacc | exact Hnan].
Qed.

End NanClaim.

(** C1, the claim as stated fails: the first batch of the epoch has an
    infinite, hence non-finite, loss; nothing is raised, the second batch is
    processed, and [fit] returns. *)
Lemma infinite_loss_does_not_raise :
  let w0 := Toy.fresh (Toy.cfg "adam" 1 1 1) in
  let '(r, w) := Trainer.fit Utils.early_stopping [Tensor infinity; Tensor 3%float] None
                             true true w0 in
  PrimFloat.is_finite infinity = false /\
  r = Ok (100000000%float, None) /\
  count_calls (trace w) = 2%nat /\
  train_loss_ppl_dict (hist (self w)) !! 0 = Some (infinity, np_exp infinity).
Proof. vm_compute. repeat split; reflexivity. Qed.

(** C1 at an epoch whose second batch has a NaN loss: [fit] raises and the
    third batch is never passed to the model. *)
Lemma nan_loss_aborts_fit_witness :
  let w0 := Toy.fresh (Toy.cfg "adam" 1 1 1) in
  let run := Trainer.fit Utils.early_stopping
                         [Tensor 1%float; Tensor nan; Tensor 2%float] None true true in
  is_ok (fst (run w0)) = false /\ count_calls (trace (snd (run w0))) = 2%nat.
Proof.
  intros w0 run.
  destruct (nan_loss_aborts_fit (B := Toy.backend) Utils.early_stopping
              [Tensor 1%float; Tensor nan; Tensor 2%float] None true true)
    as (Hfit & _).
  pose (opt := Optim Adam ModelParameters 0.5%float).
  pose (c1 := calculate_loss (Tensor 1%float) (Some 0)).
  destruct (Hfit w0
              [TorchOp model_train; TorchOp (zero_grad opt);
               model_call c1 (Losses (Tensor 1%float));
               TorchOp (backward c1 Combined false); TorchOp (step opt);
               TorchOp (zero_grad opt)]
              (calculate_loss (Tensor nan) (Some 0)) (Losses (Tensor nan)) [])
    as [Hraise _]; [vm_compute; reflexivity | vm_compute; reflexivity |].
  split; [exact Hraise | vm_compute; reflexivity].
Defined.

(** ** Tuple-valued losses and the epoch mean *)

Section TupleFacts.

Lemma zip_sum_length (a b : list float) :
  length (zip_sum a b) = Nat.min (length a) (length b).
Proof.
  revert b. induction a as [|x a IH]; intros [|y b]; simpl; try reflexivity.
  rewrite IH. reflexivity.
Qed.

(** Position by position, the new total is [sum((total_j, loss_j))]. *)
Lemma zip_sum_nth (a b : list float) (j : nat) (d : float) :
  (j < length a)%nat -> (j < length b)%nat ->
  nth j (zip_sum a b) d = float_sum [nth j a d; nth j b d].
Proof.
  revert b j. induction a as [|x a IH]; intros [|y b] [|j]; simpl; intros Ha Hb;
    try lia; try reflexivity.
  apply IH; lia.
Qed.

Lemma div_each_ok (xs : list float) (n : Z) :
  n <> 0 -> GANTrainer.div_each xs n = Ok (map (fun x => PrimFloat.div x (float_of_Z n)) xs).
Proof.
  intros Hn. induction xs as [|x xs IH]; simpl; [reflexivity|].
  unfold float_div_int. destruct (Z.eqb_spec n 0) as [E|_]; [contradiction|].
  rewrite IH. reflexivity.
Qed.

(** [GANTrainer._g_train_epoch] divides a tuple element by element ... *)
Lemma epoch_mean_tuple (xs : list float) (n : Z) :
  n <> 0 ->
  GANTrainer.epoch_mean (Some (TTuple xs)) n =
  Ok (TTuple (map (fun x => PrimFloat.div x (float_of_Z n)) xs)).
Proof. intros Hn. unfold GANTrainer.epoch_mean. rewrite (div_each_ok xs n Hn). reflexivity. Qed.

(** ... and [Trainer._train_epoch] divides the tuple itself, which Python
    refuses. *)
Lemma total_div_int_tuple (xs : list float) (n : Z) :
  total_div_int (Some (TTuple xs)) n =
  Raise (TypeError "unsupported operand type(s) for /: 'tuple' and 'int'").
Proof. reflexivity. Qed.

End TupleFacts.

Section TupleEpoch.
Context {Data Params OptSD Torch : Type} `{B : Backend Data Params OptSD Torch}.

Local Abbreviation W := (world Data Params OptSD Torch).
Local Abbreviation M := (Py.M W).

Lemma train_step_keeps_tuple (e : Z) (total_loss : option total) (d : Data) (w w' : W)
      (t : option total) :
  (forall ts c, exists xs, loss_of ts c = TensorTuple xs) ->
  not_a_float total_loss ->
  Trainer.train_step e total_loss d w = (Ok t, w') ->
  not_a_float t.
Proof.
  intros Htuple Hnf. unfold Trainer.train_step, Trainer.get_optimizer, Py.bind, Py.gets,
    call_loss, torch_do, Py.modify, Py.ret, lift. simpl.
  destruct (optimizer (self w)) as [opt|]; simpl; [|discriminate].
  destruct (Htuple (run (zero_grad opt) (torch w)) (calculate_loss d (Some e)))
    as (xs & ->).
  destruct total_loss as [[x|ts]|]; simpl in *; try contradiction;
    destruct (_check_nan (py_sum xs)); simpl; intros H; inversion H; exact I.
Qed.

Lemma train_fold_keeps_tuple (e : Z) (train_data : list Data) (total_loss : option total)
      (w w' : W) (t : option total) :
  (forall ts c, exists xs, loss_of ts c = TensorTuple xs) ->
  not_a_float total_loss ->
  Py.for_fold train_data (Trainer.train_step e) total_loss w = (Ok t, w') ->
  not_a_float t.
Proof.
  intros Htuple. revert total_loss w.
  induction train_data as [|d ds IH]; intros total_loss w Hnf; simpl.
  - intros H. inversion H; subst. exact Hnf.
  - unfold Py.bind. destruct (Trainer.train_step e total_loss d w) as [[t1|ex] w1] eqn:E;
      [|discriminate].
    apply IH. exact (train_step_keeps_tuple e total_loss d w w1 t1 Htuple Hnf E).
Qed.

(** With a model whose [calculate_loss] returns tuples, the training epoch
    of the base trainer never returns. *)
Lemma train_epoch_of_tuples_raises (train_data : list Data) (e : Z) (w : W) :
  (forall ts c, exists xs, loss_of ts c = TensorTuple xs) ->
  is_ok (fst (Trainer._train_epoch train_data e w)) = false.
Proof.
  intros Htuple. unfold Trainer._train_epoch.
  unfold Py.bind at 1. cbn [torch_do Py.modify].
  unfold Py.bind at 1.
  destruct (Py.for_fold train_data (Trainer.train_step e) None _) as [[t|ex] w1] eqn:E;
    [|reflexivity].
  pose proof (train_fold_keeps_tuple e train_data None _ w1 t Htuple I E) as Hnf.
  unfold Py.bind, lift. destruct t as [[x|ts]|]; [contradiction | reflexivity | reflexivity].
Qed.

End TupleEpoch.

(** C5 on the code.  Two batches with losses [(1, 2)] and [(3, 6)]: the
    training epoch of the base trainer raises on the division of the
    running total, and so does [fit]; [GANTrainer._g_train_epoch], on the
    same batches, returns the element-wise mean [(2, 4)]. *)
Theorem base_epoch_mean_of_tuples_raises :
  let train_data := [TensorTuple [1%float; 2%float]; TensorTuple [3%float; 6%float]] in
  let c := Toy.cfg "adam" 1 1 1 in
  let type_error := TypeError "unsupported operand type(s) for /: 'tuple' and 'int'" in
  fst (Trainer._train_epoch train_data 0 (Toy.fresh c)) = Raise type_error /\
  fst (Trainer.fit Utils.early_stopping train_data None true true (Toy.fresh c))
    = Raise type_error /\
  count_saves (trace (snd (Trainer.fit Utils.early_stopping train_data None true true
                                       (Toy.fresh c)))) = 0%nat /\
  fst (GANTrainer._g_train_epoch train_data 0 (Toy.fresh_gan c))
    = Ok (TTuple [2%float; 4%float]).
Proof. vm_compute. repeat split; reflexivity. Qed.

(** ** [GANTrainer.fit] and its checkpoint *)

Section GanFit.
Context {Data Params OptSD Torch : Type} `{B : Backend Data Params OptSD Torch}.

Local Abbreviation W := (world Data Params OptSD Torch).
Local Abbreviation M := (Py.M W).

Lemma calm_quiet {A} (m : M A) : quiet m -> calm m.
Proof.
  intros Hm w r w' H. destruct (Hm _ _ _ H) as (Hs & Hd & Hev).
  rewrite Hs. repeat split; assumption.
Qed.

(** *** The epoch methods of the family leave [self] and the disk alone *)

Lemma quiet_get_module_optimizer (md : module) :
  quiet (GANTrainer.get_module_optimizer md : M _).
Proof. unfold GANTrainer.get_module_optimizer. quiet_tac. Qed.

Lemma quiet_as_optimizer (opt : optimizer_handle) : quiet (GANTrainer.as_optimizer opt : M _).
Proof. unfold GANTrainer.as_optimizer. quiet_tac. Qed.

Lemma quiet_optimize_multi_step (c : call Data) (l : losses) (opts : optimizer_handle) :
  quiet (GANTrainer._optimize_multi_step c l opts : M _).
Proof. unfold GANTrainer._optimize_multi_step, GANTrainer.zip_opts_losses. quiet_tac. Qed.

Lemma quiet_gan_optimize_step (c : call Data) (l : losses) (total_loss : option total)
      (model : module) (opt : optimizer_handle) :
  quiet (GANTrainer._optimize_step c l total_loss model opt : M _).
Proof.
  unfold GANTrainer._optimize_step.
  pose proof quiet_optimize_multi_step. pose proof quiet_as_optimizer. quiet_tac.
Qed.

Lemma quiet_maskgan_optimize_step (c : call Data) (t : which) (l : losses)
      (total_loss : option total) (model : module) (opt : optimizer_handle)
      (retain_graph : bool) :
  quiet (MaskGANTrainer._optimize_step c t l total_loss model opt retain_graph : M _).
Proof. unfold MaskGANTrainer._optimize_step. pose proof quiet_as_optimizer. quiet_tac. Qed.

Lemma quiet_get_real_data (train_data : list Data) :
  quiet (GANTrainer._get_real_data train_data : M _).
Proof. unfold GANTrainer._get_real_data. quiet_tac. Qed.

Lemma quiet_draw_ref_data (real_data : Data) :
  quiet (RankGANTrainer.draw_ref_data real_data : M _).
Proof. unfold RankGANTrainer.draw_ref_data. quiet_tac. Qed.

Lemma quiet_py_next (it : list Data) : quiet (MaskGANTrainer.py_next it : M _).
Proof. unfold MaskGANTrainer.py_next. quiet_tac. Qed.

Lemma quiet_g_train_epoch (train_data : list Data) (epoch_idx : Z) :
  quiet (GANTrainer._g_train_epoch train_data epoch_idx : M _).
Proof.
  unfold GANTrainer._g_train_epoch.
  pose proof quiet_get_module_optimizer. pose proof quiet_gan_optimize_step. quiet_tac.
Qed.

Lemma quiet_d_train_epoch (train_data : list Data) (epoch_idx : Z) :
  quiet (GANTrainer._d_train_epoch train_data epoch_idx : M _).
Proof.
  unfold GANTrainer._d_train_epoch. pose proof quiet_get_real_data.
  pose proof quiet_get_module_optimizer. pose proof quiet_gan_optimize_step. quiet_tac.
Qed.

Lemma quiet_adversarial_train_epoch (d_train_epoch : list Data -> Z -> M total)
      (train_data : list Data) (epoch_idx : Z) :
  (forall td e, quiet (d_train_epoch td e)) ->
  quiet (GANTrainer._adversarial_train_epoch d_train_epoch train_data epoch_idx).
Proof.
  intros Hd. unfold GANTrainer._adversarial_train_epoch.
  pose proof quiet_get_module_optimizer. pose proof quiet_gan_optimize_step. quiet_tac.
Qed.

Lemma quiet_textgan_d_train_epoch (train_data : list Data) (epoch_idx : Z) :
  quiet (TextGANTrainer._d_train_epoch train_data epoch_idx : M _).
Proof.
  unfold TextGANTrainer._d_train_epoch. pose proof quiet_get_real_data.
  pose proof quiet_get_module_optimizer. pose proof quiet_gan_optimize_step. quiet_tac.
Qed.

Lemma quiet_textgan_adversarial_train_epoch (train_data : list Data) (epoch_idx : Z) :
  quiet (TextGANTrainer._adversarial_train_epoch train_data epoch_idx : M _).
Proof.
  unfold TextGANTrainer._adversarial_train_epoch. pose proof quiet_get_real_data.
  pose proof quiet_get_module_optimizer. pose proof quiet_gan_optimize_step.
  pose proof quiet_textgan_d_train_epoch. quiet_tac.
Qed.

Lemma quiet_rankgan_d_train_epoch (train_data : list Data) (epoch_idx : Z) :
  quiet (RankGANTrainer._d_train_epoch train_data epoch_idx : M _).
Proof.
  unfold RankGANTrainer._d_train_epoch. pose proof quiet_get_real_data.
  pose proof quiet_draw_ref_data.
  pose proof quiet_get_module_optimizer. pose proof quiet_gan_optimize_step. quiet_tac.
Qed.

Lemma quiet_rankgan_adversarial_train_epoch (d_train_epoch : list Data -> Z -> M total)
      (train_data : list Data) (epoch_idx : Z) :
  (forall td e, quiet (d_train_epoch td e)) ->
  quiet (RankGANTrainer._adversarial_train_epoch d_train_epoch train_data epoch_idx).
Proof.
  intros Hd. unfold RankGANTrainer._adversarial_train_epoch.
  pose proof quiet_get_real_data. pose proof quiet_draw_ref_data.
  pose proof quiet_get_module_optimizer. pose proof quiet_gan_optimize_step. quiet_tac.
Qed.

Lemma quiet_maskgan_g_train_epoch (train_data : list Data) (epoch_idx : Z) :
  quiet (MaskGANTrainer._g_train_epoch train_data epoch_idx : M _).
Proof.
  unfold MaskGANTrainer._g_train_epoch.
  pose proof quiet_get_module_optimizer. pose proof quiet_maskgan_optimize_step. quiet_tac.
Qed.

Lemma quiet_maskgan_d_train_epoch (train_data : list Data) (epoch_idx : Z) :
  quiet (MaskGANTrainer._d_train_epoch train_data epoch_idx : M _).
Proof.
  unfold MaskGANTrainer._d_train_epoch.
  pose proof quiet_get_module_optimizer. pose proof quiet_maskgan_optimize_step. quiet_tac.
Qed.

Lemma quiet_d_micro_step (train_data : list Data) (l : MaskGANTrainer.adv_locals) (i : Z) :
  quiet (MaskGANTrainer.d_micro_step train_data l i : M _).
Proof.
  unfold MaskGANTrainer.d_micro_step. pose proof quiet_py_next.
  pose proof quiet_get_module_optimizer. pose proof quiet_maskgan_optimize_step. quiet_tac.
Qed.

Lemma quiet_g_macro_step (train_data : list Data) (l : MaskGANTrainer.adv_locals)
      (g_x : Data) :
  quiet (MaskGANTrainer.g_macro_step train_data l g_x : M _).
Proof.
  unfold MaskGANTrainer.g_macro_step. pose proof quiet_d_micro_step.
  pose proof quiet_get_module_optimizer. pose proof quiet_maskgan_optimize_step. quiet_tac.
Qed.

Lemma quiet_maskgan_adversarial_train_epoch (train_data : list Data) (epoch_idx : Z) :
  quiet (MaskGANTrainer._adversarial_train_epoch train_data epoch_idx : M _).
Proof.
  unfold MaskGANTrainer._adversarial_train_epoch. pose proof quiet_py_next.
  pose proof quiet_g_macro_step. quiet_tac.
Qed.

Lemma calm_family (methods : gan_methods W Data) : In methods family -> calm_methods methods.
Proof.
  intros [<-|[<-|[<-|[<-|[]]]]]; (split; [|split]); simpl; intros td e; apply calm_quiet.
  - apply quiet_g_train_epoch.
  - apply quiet_d_train_epoch.
  - apply quiet_adversarial_train_epoch, quiet_d_train_epoch.
  - apply quiet_g_train_epoch.
  - apply quiet_textgan_d_train_epoch.
  - apply quiet_textgan_adversarial_train_epoch.
  - apply quiet_g_train_epoch.
  - apply quiet_rankgan_d_train_epoch.
  - apply quiet_rankgan_adversarial_train_epoch, quiet_rankgan_d_train_epoch.
  - apply quiet_maskgan_g_train_epoch.
  - apply quiet_maskgan_d_train_epoch.
  - apply quiet_maskgan_adversarial_train_epoch.
Qed.

Lemma calm_update_hist (f : history -> history) : calm (update_self (set_hist f) : M unit).
Proof.
  intros w r w' H. inversion H; subst. simpl. repeat split.
  exists []. rewrite app_nil_r. split; reflexivity.
Qed.

Lemma calm_bind {A C} (m : M A) (k : A -> M C) :
  calm m -> (forall a, calm (k a)) -> calm (Py.bind m k).
Proof.
  intros Hm Hk w r w' H. unfold Py.bind in H.
  destruct (m w) as [[a|e] w1] eqn:E.
  - destruct (Hm _ _ _ E) as (Hs & Hd & evs & Ht & Hc).
    destruct (Hk a _ _ _ H) as (Hs' & Hd' & evs' & Ht' & Hc').
    split; [congruence|]. split; [congruence|].
    exists (evs ++ evs'). rewrite Ht', Ht, <- app_assoc, count_saves_app, Hc, Hc'.
    split; reflexivity.
  - inversion H; subst. exact (Hm _ _ _ E).
Qed.

Lemma calm_for_fold {A S} (body : S -> A -> M S) (xs : list A) (s : S) :
  (forall s x, calm (body s x)) -> calm (Py.for_fold xs body s).
Proof.
  intros Hb. revert s. induction xs as [|x xs IH]; intros s; simpl.
  - apply calm_quiet, quiet_ret.
  - apply calm_bind; [apply Hb | exact IH].
Qed.

Lemma doomed_bind_calm (cfg0 : config) {A C} (m : M A) (k : A -> M C) :
  calm m -> (forall a, doomed cfg0 (k a)) -> doomed cfg0 (Py.bind m k).
Proof.
  intros Hm Hk w r w' Hcfg H. unfold Py.bind in H.
  destruct (m w) as [[a|e] w1] eqn:E.
  - destruct (Hm _ _ _ E) as (Hs & Hd & evs & Ht & Hc).
    assert (Hcfg1 : self_config (self w1) = cfg0) by congruence.
    destruct (Hk a _ _ _ Hcfg1 H) as (Hr & Hd' & evs' & Ht' & Hc').
    split; [exact Hr|]. split; [congruence|].
    exists (evs ++ evs'). rewrite Ht', Ht, <- app_assoc, count_saves_app, Hc, Hc'.
    split; reflexivity.
  - inversion H; subst. destruct (Hm _ _ _ E) as (_ & Hd & Hev).
    split; [reflexivity|]. split; assumption.
Qed.

Lemma doomed_gets_self (cfg0 : config) {C} (k : trainer -> M C) :
  (forall s, self_config s = cfg0 -> doomed cfg0 (k s)) ->
  doomed cfg0 (Py.bind (Py.gets self) k).
Proof.
  intros Hk w r w' Hcfg H. unfold Py.bind, Py.gets in H.
  exact (Hk (self w) Hcfg w r w' Hcfg H).
Qed.

Lemma doomed_never (cfg0 : config) {A C} (m : M A) (k : A -> M C) :
  calm m -> (forall w a w', m w <> (Ok a, w')) -> doomed cfg0 (Py.bind m k).
Proof.
  intros Hm Hnever w r w' _ H. unfold Py.bind in H.
  destruct (m w) as [[a|e] w1] eqn:E; [exfalso; exact (Hnever _ _ _ E)|].
  inversion H; subst. destruct (Hm _ _ _ E) as (_ & Hd & Hev).
  split; [reflexivity|]. split; assumption.
Qed.

(** The body of the adversarial loop (lines 619-626) never completes. *)
Lemma adversarial_body_never_returns (methods : gan_methods W Data)
      (train_data : list Data) (verbose : bool) (n : Z) (w w' : W) (a : unit) :
  1 <= n ->
  Py.for_fold (py_range 0 n)
    (fun _ epoch_idx =>
       let* train_loss := m_adversarial_train_epoch methods train_data epoch_idx in
       GANTrainer.train_loss_dict_setitem epoch_idx (GANTrainer.loss_entry train_loss) ;;;
       let train_loss_output :=
         Trainer._generate_train_loss_output epoch_idx train_loss "" in
       when verbose (emit (logger_info train_loss_output)))
    tt w <> (Ok a, w').
Proof.
  intros Hn. rewrite (py_range_cons 0 n) by lia. simpl.
  unfold Py.bind at 1. unfold Py.bind at 1.
  destruct (m_adversarial_train_epoch methods train_data 0 w) as [[t|ex] w1];
    simpl; discriminate.
Qed.

(** With at least one adversarial epoch configured, [fit] never returns and
    writes no checkpoint. *)
Lemma gan_fit_never_returns (methods : gan_methods W Data) (train_data : list Data)
      (valid_data : option (list Data)) (verbose saved : bool) (w : W) :
  calm_methods methods ->
  1 <= adversarail_training_epochs (self w) ->
  let r := GANTrainer.fit methods train_data valid_data verbose saved w in
  is_ok (fst r) = false /\
  disk (snd r) = disk w /\
  count_saves (trace (snd r)) = count_saves (trace w).
Proof.
  intros (Hg & Hd & Ha) Hn r.
  assert (Hdoomed : doomed (self_config (self w))
                           (GANTrainer.fit methods train_data valid_data verbose saved)).
  { unfold GANTrainer.fit.
    assert (Hlog : forall (b : bool) m, calm (when b (emit (logger_info m)) : M unit)).
    { intros b m. apply calm_quiet, quiet_when, quiet_emit. reflexivity. }
    apply doomed_bind_calm; [apply Hlog|]. intros _.
    apply doomed_gets_self. intros s1 Hs1.
    apply doomed_bind_calm.
    { apply calm_for_fold. intros _ e.
      apply calm_bind; [apply Hg|]. intros t.
      apply calm_bind; [apply calm_update_hist | intros _; apply Hlog]. }
    intros _. apply doomed_bind_calm; [apply Hlog|]. intros _.
    apply doomed_bind_calm; [apply Hlog|]. intros _.
    apply doomed_gets_self. intros s2 Hs2.
    apply doomed_bind_calm.
    { apply calm_for_fold. intros _ e.
      apply calm_bind; [apply Hd|]. intros t.
      apply calm_bind; [apply calm_update_hist | intros _; apply Hlog]. }
    intros _. apply doomed_bind_calm; [apply Hlog|]. intros _.
    apply doomed_bind_calm; [apply Hlog|]. intros _.
    apply doomed_gets_self. intros s3 Hs3.
    apply doomed_never.
    - apply calm_for_fold. intros _ e.
      apply calm_bind; [apply Ha|]. intros t.
      apply calm_bind; [apply calm_quiet, quiet_raise | intros _; apply Hlog].
    - intros w0 a w0'. apply adversarial_body_never_returns.
      unfold adversarail_training_epochs in *. rewrite Hs3. exact Hn. }
  subst r. destruct (GANTrainer.fit methods train_data valid_data verbose saved w)
    as [r w'] eqn:E.
  destruct (Hdoomed w r w' eq_refl E) as (Hr & Hdisk & evs & Ht & Hc).
  cbn [fst snd]. split; [exact Hr|]. split; [exact Hdisk|].
  rewrite Ht, count_saves_app, Hc. lia.
Qed.

Lemma ends_bind_calm (cfg0 : config) {A} (m : M A) (k : A -> M (Z * option np_float64)) :
  calm m -> (forall a, ends cfg0 (k a)) -> ends cfg0 (Py.bind m k).
Proof.
  intros Hm Hk w r w' Hcfg H. unfold Py.bind in H.
  destruct (m w) as [[a|e] w1] eqn:E.
  - destruct (Hm _ _ _ E) as (Hs & Hd & evs & Ht & Hc).
    assert (Hcfg1 : self_config (self w1) = cfg0) by congruence.
    destruct (Hk a _ _ _ Hcfg1 H) as (evs' & Ht' & Hc').
    exists (evs ++ evs'). rewrite Ht', Ht, <- app_assoc, count_saves_app, Hc.
    split; [reflexivity | exact Hc'].
  - inversion H; subst. destruct (Hm _ _ _ E) as (_ & _ & evs & Ht & Hc).
    exists evs. split; assumption.
Qed.

Lemma ends_gets_self (cfg0 : config) (k : trainer -> M (Z * option np_float64)) :
  (forall s, self_config s = cfg0 -> ends cfg0 (k s)) ->
  ends cfg0 (Py.bind (Py.gets self) k).
Proof.
  intros Hk w r w' Hcfg H. unfold Py.bind, Py.gets in H.
  exact (Hk (self w) Hcfg w r w' Hcfg H).
Qed.

(** With no adversarial epoch configured, [fit] writes its one checkpoint
    after the two pretraining phases and returns [(-1, None)], unless a
    pretraining epoch raises. *)
Lemma gan_fit_without_adversarial_epochs (methods : gan_methods W Data)
      (train_data : list Data) (valid_data : option (list Data)) (verbose saved : bool)
      (w : W) :
  calm_methods methods ->
  adversarail_training_epochs (self w) <= 0 ->
  let r := GANTrainer.fit methods train_data valid_data verbose saved w in
  match fst r with
  | Ok v => v = (-1, None) /\ count_saves (trace (snd r)) = S (count_saves (trace w))
  | Raise _ => count_saves (trace (snd r)) = count_saves (trace w)
  end.
Proof.
  intros (Hg & Hd & Ha) Hn r.
  assert (Hends : ends (self_config (self w))
                       (GANTrainer.fit methods train_data valid_data verbose saved)).
  { unfold GANTrainer.fit.
    assert (Hlog : forall (b : bool) m, calm (when b (emit (logger_info m)) : M unit)).
    { intros b m. apply calm_quiet, quiet_when, quiet_emit. reflexivity. }
    apply ends_bind_calm; [apply Hlog|]. intros _.
    apply ends_gets_self. intros s1 Hs1.
    apply ends_bind_calm.
    { apply calm_for_fold. intros _ e.
      apply calm_bind; [apply Hg|]. intros t.
      apply calm_bind; [apply calm_update_hist | intros _; apply Hlog]. }
    intros _. apply ends_bind_calm; [apply Hlog|]. intros _.
    apply ends_bind_calm; [apply Hlog|]. intros _.
    apply ends_gets_self. intros s2 Hs2.
    apply ends_bind_calm.
    { apply calm_for_fold. intros _ e.
      apply calm_bind; [apply Hd|]. intros t.
      apply calm_bind; [apply calm_update_hist | intros _; apply Hlog]. }
    intros _. apply ends_bind_calm; [apply Hlog|]. intros _.
    apply ends_bind_calm; [apply Hlog|]. intros _.
    apply ends_gets_self. intros s3 Hs3.
    apply ends_bind_calm.
    { apply calm_for_fold. intros _ e.
      apply calm_bind; [apply Ha|]. intros t.
      apply calm_bind; [apply calm_quiet, quiet_raise | intros _; apply Hlog]. }
    intros _. apply ends_bind_calm; [apply Hlog|]. intros _.
    apply ends_gets_self. intros s4 Hs4.
    intros w1 r1 w1' _ H. inversion H; subst.
    eexists [_]. split; [reflexivity|]. split; reflexivity. }
  subst r. destruct (GANTrainer.fit methods train_data valid_data verbose saved w)
    as [r w'] eqn:E.
  destruct (Hends w r w' eq_refl E) as (evs & Ht & Hc).
  cbn [fst snd]. rewrite Ht, count_saves_app.
  destruct r as [v|ex]; [destruct Hc as [Hv Hc]; split; [exact Hv | lia] | lia].
Qed.

(** Every trainer of the family: with an adversarial epoch configured
    [fit] raises and writes nothing; with none it writes one checkpoint and
    returns [(-1, None)], unless a pretraining epoch raises. *)
Lemma gan_family_fit (methods : gan_methods W Data) (train_data : list Data)
      (valid_data : option (list Data)) (verbose saved : bool) (w : W) :
  In methods family ->
  let r := GANTrainer.fit methods train_data valid_data verbose saved w in
  (1 <= adversarail_training_epochs (self w) ->
   is_ok (fst r) = false /\
   disk (snd r) = disk w /\
   count_saves (trace (snd r)) = count_saves (trace w)) /\
  (adversarail_training_epochs (self w) <= 0 ->
   match fst r with
   | Ok v => v = (-1, None) /\ count_saves (trace (snd r)) = S (count_saves (trace w))
   | Raise _ => count_saves (trace (snd r)) = count_saves (trace w)
   end).
Proof.
  intros Hin r. apply calm_family in Hin. split; intros Hn.
  - exact (gan_fit_never_returns methods train_data valid_data verbose saved w Hin Hn).
  - exact (gan_fit_without_adversarial_epochs methods train_data valid_data verbose saved w
             Hin Hn).
Qed.

End GanFit.

(** C4 on the code, at the scenario of the specification: no pretraining
    epoch, one adversarial epoch, one discriminator pass.  The generator
    step and the discriminator pass run (two model calls), then line 621
    raises: [fit] does not return [(-1, None)] and no checkpoint is
    written. *)
Theorem gan_fit_scenario_raises :
  let c := Config "SeqGAN" "adam" 0.5%float 1 1 1 "saved" 5%float 0 0 1 1 1 1 1 10 in
  let w0 := Toy.fresh_gan c in
  let r := GANTrainer.fit GANTrainer.methods [Tensor 1%float] None true true w0 in
  fst r = Raise (AttributeError "train_loss_dict") /\
  count_calls (trace (snd r)) = 2%nat /\
  count_saves (trace (snd r)) = 0%nat /\
  disk (snd r) = ∅.
Proof. vm_compute. repeat split; reflexivity. Qed.

(** ** The adversarial epoch of [MaskGANTrainer] *)

Lemma stream_app {E A} (f : E -> list A) (a b : list E) :
  stream f (a ++ b) = stream f a ++ stream f b.
Proof. induction a as [|e a IH]; simpl; [reflexivity | rewrite IH, app_assoc; reflexivity]. Qed.

Lemma float_total_snoc (xs : list float) (x : float) :
  float_total (xs ++ [x]) =
  Some (TFloat (match float_total xs with
                | Some (TFloat s) => PrimFloat.add s x
                | _ => x
                end)).
Proof.
  destruct xs as [|y ys]; simpl; [reflexivity|].
  rewrite fold_left_app. reflexivity.
Qed.


Section MaskGANEpoch.
Context {Data Params OptSD Torch : Type} `{B : Backend Data Params OptSD Torch}.

Local Abbreviation W := (world Data Params OptSD Torch).
Local Abbreviation M := (Py.M W).
Local Abbreviation E := (event Data Params OptSD).




















(** *** The three running means *)






Section Run.
Variable w0 : W.
Variable train_data : list Data.
Variables g_opt d_opt : optimizer_t.
Hypothesis Hg_opt : g_optimizer (self w0) = Some (OneOptimizer g_opt).
Hypothesis Hd_opt : d_optimizer (self w0) = Some (OneOptimizer d_opt).
Hypothesis Htd : train_data <> [].
Hypothesis Hscalar :
  forall t c, exists x, loss_of t c = Tensor x /\ PrimFloat.is_nan x = false.
Hypothesis Hpair :
  forall t c, exists g k,
    loss_pair_of t c = (Tensor g, Tensor k) /\
    PrimFloat.is_nan g = false /\ PrimFloat.is_nan k = false.





End Run.




End MaskGANEpoch.



(** C2 at a score that does not improve, with a patience of one check. *)
Lemma early_stopping_policy_witness :
  let '(_, updated_cur_step, should_stop, _) :=
    Utils.early_stopping 3%float 2%float 0 1 false in
  should_stop = true /\ updated_cur_step = 1.
Proof.
  pose proof (early_stopping_policy 3%float 2%float 0 1 false) as H.
  cbv [Utils.early_stopping] in H |- *.
  change (PrimFloat.ltb 3 2) with false in H |- *.
  cbv iota beta zeta in H |- *.
  destruct H as (_ & _ & Hkeep & Hstop).
  split; [apply Hstop; split; reflexivity || lia | apply Hkeep; reflexivity].
Defined.

(** * Further properties *)

Section EmitsOnly.
Context {Data Params OptSD Torch : Type} `{B : Backend Data Params OptSD Torch}.

Local Abbreviation W := (world Data Params OptSD Torch).
Local Abbreviation M := (Py.M W).
Local Abbreviation E := (event Data Params OptSD).

Variable p : E -> bool.

Lemma emits_only_same {A} (m : M A) :
  (forall w r w', m w = (r, w') -> trace w' = trace w) -> emits_only p m.
Proof.
  intros Hm w r w' H. exists []. rewrite app_nil_r. split; [exact (Hm _ _ _ H) | reflexivity].
Qed.

Lemma emits_only_ret {A} (a : A) : emits_only p (Py.ret a : M A).
Proof. apply emits_only_same. intros w r w' H. inversion H. reflexivity. Qed.

Lemma emits_only_raise {A} (e : exn) : emits_only p (Py.raise e : M A).
Proof. apply emits_only_same. intros w r w' H. inversion H. reflexivity. Qed.

Lemma emits_only_lift {A} (o : outcome A) : emits_only p (lift o : M A).
Proof. apply emits_only_same. intros w r w' H. inversion H. reflexivity. Qed.

Lemma emits_only_gets {A} (f : W -> A) : emits_only p (Py.gets f).
Proof. apply emits_only_same. intros w r w' H. inversion H. reflexivity. Qed.

Lemma emits_only_update_self (f : trainer -> trainer) : emits_only p (update_self f : M unit).
Proof. apply emits_only_same. intros w r w' H. inversion H. reflexivity. Qed.

Lemma emits_only_bind {A C} (m : M A) (k : A -> M C) :
  emits_only p m -> (forall a, emits_only p (k a)) -> emits_only p (Py.bind m k).
Proof.
  intros Hm Hk w r w' H. unfold Py.bind in H.
  destruct (m w) as [[a|e] w1] eqn:Em.
  - destruct (Hm _ _ _ Em) as (evs & Ht & Hp).
    destruct (Hk a _ _ _ H) as (evs' & Ht' & Hp').
    exists (evs ++ evs'). rewrite Ht', Ht, <- app_assoc, forallb_app, Hp, Hp'.
    split; reflexivity.
  - inversion H; subst. exact (Hm _ _ _ Em).
Qed.

Lemma emits_only_torch_do (o : torch_op Data) :
  p (TorchOp o) = true -> emits_only p (torch_do o : M unit).
Proof.
  intros Ho w r w' H. inversion H; subst. exists [TorchOp o]. simpl. rewrite Ho.
  split; reflexivity.
Qed.

Lemma emits_only_emit (e : E) : p e = true -> emits_only p (emit e : M unit).
Proof.
  intros He w r w' H. inversion H; subst. exists [e]. simpl. rewrite He.
  split; reflexivity.
Qed.

Lemma emits_only_call_loss (c : call Data) :
  (forall l, p (model_call c (Losses l)) = true) -> emits_only p (call_loss c : M _).
Proof.
  intros Hc w r w' H. inversion H; subst. eexists [_]. simpl. rewrite Hc.
  split; reflexivity.
Qed.

Lemma emits_only_when (b : bool) (m : M unit) : emits_only p m -> emits_only p (when b m).
Proof. intros Hm. destruct b; [exact Hm | apply emits_only_ret]. Qed.

Lemma emits_only_for_fold {A S} (body : S -> A -> M S) (xs : list A) (s : S) :
  (forall s x, emits_only p (body s x)) -> emits_only p (Py.for_fold xs body s).
Proof.
  intros Hb. revert s. induction xs as [|x xs IH]; intros s; simpl.
  - apply emits_only_ret.
  - apply emits_only_bind; [apply Hb | exact IH].
Qed.

End EmitsOnly.

Create HintDb emits.
#[export] Hint Resolve emits_only_ret emits_only_raise emits_only_lift emits_only_gets
  emits_only_update_self emits_only_when : emits.

Ltac emits_tac :=
  repeat first
    [ solve [ auto with emits ]
    | apply emits_only_torch_do; reflexivity
    | apply emits_only_emit; reflexivity
    | apply emits_only_call_loss; intros ?; reflexivity
    | apply emits_only_when
    | apply emits_only_for_fold; intros ? ?
    | apply emits_only_bind; [ | intros ? ]
    | match goal with
      | |- emits_only _ (match ?x with _ => _ end) => destruct x
      | |- emits_only _ (if ?x then _ else _) => destruct x
      end ].

Section ValidNeverUpdates.
Context {Data Params OptSD Torch : Type} `{B : Backend Data Params OptSD Torch}.

Local Abbreviation W := (world Data Params OptSD Torch).
Local Abbreviation M := (Py.M W).
Local Abbreviation E := (event Data Params OptSD).

Lemma emits_only_get_optimizer (p : E -> bool) (attr : string) :
  emits_only p (Trainer.get_optimizer attr : M _).
Proof. unfold Trainer.get_optimizer. emits_tac. Qed.

(** X1.  A validation epoch computes no gradient and applies none: whatever
    the data and the model return, it issues no [backward], no
    [clip_grad_norm_] and no optimizer [step]; it changes neither the
    trainer object nor the files on disk. *)
Theorem valid_epoch_never_updates (valid_data : list Data) (w : W) :
  let w' := snd (Trainer._valid_epoch valid_data w) in
  self w' = self w /\ disk w' = disk w /\
  exists evs, trace w' = trace w ++ evs /\ forallb (fun e => negb (is_update e)) evs = true.
Proof.
  intros w'. subst w'.
  destruct (Trainer._valid_epoch valid_data w) as [r w'] eqn:Hv. cbn [snd].
  destruct (quiet_valid_epoch _ _ _ _ Hv) as (Hs & Hd & _).
  split; [exact Hs|]. split; [exact Hd|].
  assert (H : emits_only (fun e : E => negb (is_update e))
                (Trainer._valid_epoch valid_data : M _)).
  { unfold Trainer._valid_epoch, Trainer.valid_step.
    pose proof (emits_only_get_optimizer (fun e : E => negb (is_update e))).
    emits_tac. }
  exact (H _ _ _ Hv).
Qed.

End ValidNeverUpdates.

Section ResumeFailures.
Context {Data Params OptSD Torch : Type} `{B : Backend Data Params OptSD Torch}.

Local Abbreviation W := (world Data Params OptSD Torch).
Local Abbreviation M := (Py.M W).

Lemma resume_reaches_optimizer (f : string) (w : W) (ck : checkpoint Params OptSD)
      (t' : Torch) :
  disk w !! f = Some ck ->
  load_state_dict (ck_state_dict ck) (torch w) = Ok t' ->
  let w' := resumed_model w ck t' in
  Trainer.resume_checkpoint f w =
  match optimizer (self w), ck_optimizer ck with
  | None, _ => (Raise (AttributeError "load_state_dict"), w')
  | Some _, None => (Raise (KeyError "optimizer"), w')
  | Some _, Some osd =>
      match optimizer_load_state_dict osd t' with
      | Ok t'' => (Ok tt, World (self w') t'' (disk w')
                                (trace w' ++ [logger_info (CheckpointLoaded (ck_epoch ck + 1))]))
      | Raise e => (Raise e, w')
      end
  end.
Proof.
  intros Hf Hload w'. subst w'.
  unfold Trainer.resume_checkpoint.
  unfold Py.bind at 1. unfold load_file at 1. rewrite Hf.
  unfold Py.bind, update_self, Py.modify, Py.gets, when, emit, do_load_state_dict,
    do_optimizer_load_state_dict, Trainer.get_optimizer, Py.ret, Py.raise, resumed_model.
  cbn -[lower String.eqb].
  destruct (negb _); cbn -[lower String.eqb]; rewrite Hload; cbn;
    destruct (optimizer (self w)) as [o|]; cbn;
    try destruct (ck_optimizer ck) as [osd|]; cbn;
    try destruct (optimizer_load_state_dict osd t') as [t''|ex]; cbn;
    rewrite ?app_nil_r; reflexivity.
Qed.


(** X3.  A checkpoint written by an adversarial trainer cannot be resumed.
    Loaded into a freshly constructed adversarial trainer, whose
    [optimizer] is [None], [resume_checkpoint] raises [AttributeError];
    loaded into a freshly constructed base trainer it raises [KeyError], the
    checkpoint having no optimizer entry.  In both cases the error comes
    after [start_epoch], [cur_step] and [best_valid_score] were overwritten
    and the model loaded the saved parameters. *)
Theorem gan_checkpoint_cannot_be_resumed (w1 : W) (epoch : Z) (cfg2 : config)
        (model2 : model_info) (now2 : string) (t2 t3 : Torch) :
  load_state_dict (state_dict (torch w1)) t2 = Ok t3 ->
  let file := saved_model_file (self w1) in
  let d := disk (snd (GANTrainer._save_checkpoint epoch w1)) in
  let resumed ex (w2 : W) :=
    exists w3,
      Trainer.resume_checkpoint file w2 = (Raise ex, w3) /\
      start_epoch (state (self w3)) = epoch + 1 /\
      cur_step (state (self w3)) = cur_step (state (self w1)) /\
      best_valid_score (state (self w3)) = best_valid_score (state (self w1)) /\
      state_dict (torch w3) = state_dict (torch w1) in
  resumed (AttributeError "load_state_dict")
          (snd (GANTrainer.__init__ cfg2 model2 now2 t2 d)) /\
  resumed (KeyError "optimizer") (snd (Trainer.__init__ cfg2 model2 now2 t2 d)).
Proof.
  intros Hload file d resumed. subst d file resumed.
  rewrite gan_save_checkpoint_run. unfold written at 1 2. cbn [snd disk].
  pose proof (load_state_dict_spec _ _ _ Hload) as Hsd.
  split.
  - destruct (gan_init_run (Data := Data) cfg2 model2 now2 t2
                (<[saved_model_file (self w1) := gan_checkpoint w1 epoch]> (disk w1)))
      as (g & dd & evs & ->).
    cbn [snd].
    match goal with
    | |- context [Trainer.resume_checkpoint ?f ?w] =>
        pose proof (resume_reaches_optimizer f w (gan_checkpoint w1 epoch) t3
                      (lookup_insert_eq _ _ _) Hload) as Hrun
    end.
    cbn in Hrun. eexists. split; [exact Hrun|].
    cbn. repeat split. exact Hsd.
  - destruct (trainer_init_run (Data := Data) cfg2 model2 now2 t2
                (<[saved_model_file (self w1) := gan_checkpoint w1 epoch]> (disk w1)))
      as (o & evs & ->).
    cbn [snd].
    match goal with
    | |- context [Trainer.resume_checkpoint ?f ?w] =>
        pose proof (resume_reaches_optimizer f w (gan_checkpoint w1 epoch) t3
                      (lookup_insert_eq _ _ _) Hload) as Hrun
    end.
    cbn in Hrun. eexists. split; [exact Hrun|].
    cbn. repeat split. exact Hsd.
Qed.

End ResumeFailures.

(** X3 at a fresh adversarial trainer that saved at epoch 3. *)
Lemma gan_checkpoint_cannot_be_resumed_witness :
  let w1 := Toy.fresh_gan (Toy.cfg "adam" 1 1 1) in
  exists w3,
    Trainer.resume_checkpoint (saved_model_file (self w1))
      (snd (GANTrainer.__init__ (Toy.cfg "adam" 1 1 1) Toy.model Toy.now (5, 5)
              (disk (snd (GANTrainer._save_checkpoint 3 w1)))))
    = (Raise (AttributeError "load_state_dict"), w3) /\
    start_epoch (state (self w3)) = 4.
Proof.
  intros w1.
  destruct (gan_checkpoint_cannot_be_resumed (B := Toy.backend) w1 3 (Toy.cfg "adam" 1 1 1)
              Toy.model Toy.now (5, 5) (0, 5) eq_refl)
    as [(w3 & Hrun & Hstart & _) _].
  exists w3. split; [exact Hrun | exact Hstart].
Defined.

Section FitWithoutValidation.
Context {Data Params OptSD Torch : Type} `{B : Backend Data Params OptSD Torch}.
Variable early_stopping : policy.

Local Abbreviation W := (world Data Params OptSD Torch).
Local Abbreviation M := (Py.M W).

Lemma for_each_ext {A} (body body' : A -> M Py.ctl) (xs : list A) (w : W) :
  (forall x w, body x w = body' x w) -> Py.for_each xs body w = Py.for_each xs body' w.
Proof.
  intros Hb. revert w. induction xs as [|x xs IH]; intros w; simpl; [reflexivity|].
  unfold Py.bind. rewrite Hb. destruct (body' x w) as [[[]|e] w1]; auto.
Qed.

(** One epoch of [fit] with validation disabled. *)
Lemma fit_epoch_without_validation (train_data : list Data) (valid_data : option (list Data))
      (verbose saved : bool) (e : Z) (w : W) (opt : optimizer_t) :
  optimizer (self w) = Some opt ->
  validation_enabled (self w) valid_data = false ->
  match Trainer.fit_epoch early_stopping train_data valid_data verbose saved e w with
  | (Ok c, w') =>
      c = Py.Next /\
      optimizer (self w') = Some opt /\
      validation_enabled (self w') valid_data = false /\
      state (self w') = state (self w) /\
      self_config (self w') = self_config (self w) /\
      count_saves (trace w') = (count_saves (trace w) + if saved then 2 else 1)%nat
  | (Raise _, w') =>
      state (self w') = state (self w) /\
      count_saves (trace w') = count_saves (trace w)
  end.
Proof.
  intros Hopt Hen. unfold Trainer.fit_epoch.
  destruct (Trainer._train_epoch train_data e w) as [[[l p]|ex] w1] eqn:Htrain.
  - destruct (fit_train_run train_data verbose e w w1 opt l p Hopt Htrain) as [Hrun Hself].
    rewrite (bind_ok _ _ _ _ _ Hrun).
    destruct (quiet_train_epoch _ _ _ _ _ Htrain) as (_ & _ & evs & Ht & Hc).
    assert (Hopt2 : optimizer (self (after_train w1 verbose e l p)) = Some opt).
    { unfold after_train. cbn. rewrite Hself. exact Hopt. }
    assert (Hen2 : validation_enabled (self (after_train w1 verbose e l p)) valid_data = false).
    { unfold after_train, validation_enabled in *. cbn. rewrite Hself. exact Hen. }
    rewrite (fit_eval_disabled early_stopping valid_data verbose saved e _ opt Hopt2 Hen2).
    split; [reflexivity|].
    assert (Hc2 : count_saves (trace (after_train w1 verbose e l p))
                  = S (count_saves (trace w))).
    { unfold after_train, logged, written. cbn [trace].
      rewrite !count_saves_app, Ht, count_saves_app, Hc. destruct verbose; simpl; lia. }
    assert (Hself2 : forall evs' ck,
               self (logged evs' (written (saved_model_file (self w1)) ck
                                          (after_train w1 verbose e l p)))
               = self (after_train w1 verbose e l p)) by reflexivity.
    assert (Hst : state (self (after_train w1 verbose e l p)) = state (self w))
      by (unfold after_train; cbn; rewrite Hself; reflexivity).
    assert (Hcfg : self_config (self (after_train w1 verbose e l p)) = self_config (self w))
      by (unfold after_train; cbn; rewrite Hself; reflexivity).
    destruct saved.
    + replace (saved_model_file (self (after_train w1 verbose e l p)))
        with (saved_model_file (self w1)) by reflexivity.
      rewrite Hself2.
      split; [exact Hopt2|]. split; [exact Hen2|].
      split; [exact Hst|]. split; [exact Hcfg|].
      unfold logged at 1. cbn [trace]. rewrite count_saves_app.
      unfold written at 1. cbn [trace]. rewrite count_saves_app, Hc2.
      destruct verbose; simpl; lia.
    + split; [exact Hopt2|]. split; [exact Hen2|].
      split; [exact Hst|]. split; [exact Hcfg|].
      rewrite Hc2. lia.
  - assert (Hrun : Trainer.fit_train train_data verbose e w = (Raise ex, w1))
      by (unfold Trainer.fit_train; apply bind_raise; exact Htrain).
    rewrite (bind_raise _ _ _ _ _ Hrun).
    destruct (quiet_train_epoch _ _ _ _ _ Htrain) as (Hs & _ & evs & Ht & Hc).
    rewrite Hs, Ht, count_saves_app, Hc. split; [reflexivity | lia].
Qed.

Lemma epochs_without_validation (train_data : list Data) (valid_data : option (list Data))
      (verbose saved : bool) (opt : optimizer_t) (es : list Z) (w : W) :
  optimizer (self w) = Some opt ->
  validation_enabled (self w) valid_data = false ->
  match Py.for_each es (Trainer.fit_epoch early_stopping train_data valid_data verbose saved) w
  with
  | (Ok _, w') =>
      state (self w') = state (self w) /\
      count_saves (trace w') =
        (count_saves (trace w) + length es * if saved then 2 else 1)%nat
  | (Raise _, w') =>
      state (self w') = state (self w) /\
      exists k, (k < length es)%nat /\
        count_saves (trace w') = (count_saves (trace w) + k * if saved then 2 else 1)%nat
  end.
Proof.
  revert w. induction es as [|e es IH]; intros w Hopt Hen; simpl.
  - split; [reflexivity | lia].
  - unfold Py.bind.
    pose proof (fit_epoch_without_validation train_data valid_data verbose saved e w opt
                  Hopt Hen) as Hep.
    destruct (Trainer.fit_epoch early_stopping train_data valid_data verbose saved e w)
      as [[c|ex] w1].
    + destruct Hep as (-> & Hopt1 & Hen1 & Hst1 & _ & Hc1).
      specialize (IH w1 Hopt1 Hen1).
      destruct (Py.for_each es _ w1) as [[u|ex] w2].
      * destruct IH as [Hst2 Hc2]. split; [congruence | lia].
      * destruct IH as (Hst2 & k & Hk & Hc2). split; [congruence|].
        exists (S k). split; [lia | lia].
    + destruct Hep as [Hst Hc]. split; [exact Hst|]. exists 0%nat. split; [lia | lia].
Qed.

(** X4.  With validation disabled ([eval_step <= 0], or no validation data,
    or an empty validation loader) a base trainer's [fit] that returns has
    run every epoch from [start_epoch] to [epochs], has written two
    checkpoints per epoch when [saved] holds and one per epoch otherwise,
    has left [cur_step], [best_valid_score] and [best_valid_result] as
    they were, and returns the stored pair [(best_valid_score,
    best_valid_result)]: for a fresh trainer [(100000000, None)].  A [fit]
    that raises has written the checkpoints of the epochs it completed. *)
Theorem fit_without_validation (train_data : list Data) (valid_data : option (list Data))
        (verbose saved : bool) (opt : optimizer_t) (w : W) :
  optimizer (self w) = Some opt ->
  validation_enabled (self w) valid_data = false ->
  let n := Z.to_nat (epochs (self w) - start_epoch (state (self w))) in
  let per_epoch := if saved then 2%nat else 1%nat in
  match Trainer.fit early_stopping train_data valid_data verbose saved w with
  | (Ok r, w') =>
      r = (best_valid_score (state (self w)), best_valid_result (state (self w))) /\
      state (self w') = state (self w) /\
      count_saves (trace w') = (count_saves (trace w) + n * per_epoch)%nat
  | (Raise _, w') =>
      state (self w') = state (self w) /\
      exists k, (k < n)%nat /\
        count_saves (trace w') = (count_saves (trace w) + k * per_epoch)%nat
  end.
Proof.
  intros Hopt Hen n per_epoch. unfold Trainer.fit.
  unfold Py.bind at 1, Py.gets at 1. unfold Py.bind at 1.
  pose proof (epochs_without_validation train_data valid_data verbose saved opt
                (py_range (start_epoch (state (self w))) (epochs (self w))) w Hopt Hen)
    as Hloop.
  assert (Hlen : length (py_range (start_epoch (state (self w))) (epochs (self w))) = n).
  { unfold py_range. rewrite length_map, length_seq. reflexivity. }
  rewrite Hlen in Hloop.
  destruct (Py.for_each _ _ w) as [[u|ex] w1].
  - destruct Hloop as [Hst Hc]. unfold Py.bind, Py.gets, Py.ret.
    rewrite Hst. repeat split. exact Hc.
  - exact Hloop.
Qed.

(** X5.  An empty validation loader is no validation data: [fit] with it
    does what [fit] with [valid_data=None] does, whatever [eval_step] is. *)
Theorem empty_valid_loader_disables_validation (train_data : list Data)
        (verbose saved : bool) (w : W) :
  Trainer.fit early_stopping train_data (Some []) verbose saved w =
  Trainer.fit early_stopping train_data None verbose saved w.
Proof.
  unfold Trainer.fit. unfold Py.bind at 1 3. unfold Py.gets at 1 3.
  unfold Py.bind at 1 3.
  rewrite (for_each_ext
             (Trainer.fit_epoch early_stopping train_data (Some []) verbose saved)
             (Trainer.fit_epoch early_stopping train_data None verbose saved)).
  - reflexivity.
  - intros e w0. unfold Trainer.fit_epoch, Py.bind.
    destruct (Trainer.fit_train train_data verbose e w0) as [[[]|ex] w1]; [|reflexivity].
    unfold Trainer.fit_eval, Py.bind, Py.gets. simpl.
    rewrite !orb_true_r. reflexivity.
Qed.

End FitWithoutValidation.

(** X4 on a fresh trainer, two epochs, [saved=True]: four checkpoints. *)
Lemma fit_without_validation_witness :
  let w := Toy.fresh (Toy.cfg "adam" 2 1 1) in
  let '(r, w') := Trainer.fit Utils.early_stopping [Tensor 1%float] None true true w in
  r = Ok (100000000%float, None) /\ count_saves (trace w') = 4%nat.
Proof.
  pose proof (fit_without_validation (B := Toy.backend) Utils.early_stopping
                [Tensor 1%float] None true true
                (Optim Adam ModelParameters 0.5%float) (Toy.fresh (Toy.cfg "adam" 2 1 1))
                eq_refl eq_refl) as H.
  cbv zeta in H |- *.
  destruct (Trainer.fit _ _ _ _ _ _) as [[r|ex] w'] eqn:E.
  - destruct H as (-> & _ & Hc). split; [reflexivity | exact Hc].
  - exfalso. vm_compute in E. discriminate.
Defined.

Section EpochCheckpoint.
Context {Data Params OptSD Torch : Type} `{B : Backend Data Params OptSD Torch}.
Variable early_stopping : policy.

Local Abbreviation W := (world Data Params OptSD Torch).
Local Abbreviation M := (Py.M W).

Lemma fit_train_ok_has_optimizer (train_data : list Data) (verbose : bool) (e : Z)
      (w w2 : W) :
  Trainer.fit_train train_data verbose e w = (Ok tt, w2) ->
  exists opt l p w1,
    optimizer (self w) = Some opt /\
    Trainer._train_epoch train_data e w = (Ok (l, p), w1) /\
    w2 = after_train w1 verbose e l p.
Proof.
  intros H.
  destruct (Trainer._train_epoch train_data e w) as [[[l p]|ex] w1] eqn:Htrain.
  - destruct (optimizer (self w)) as [opt|] eqn:Hopt.
    + destruct (fit_train_run train_data verbose e w w1 opt l p Hopt Htrain) as [Hrun _].
      exists opt, l, p, w1. repeat split. congruence.
    + exfalso. destruct (quiet_train_epoch _ _ _ _ _ Htrain) as (Hself & _).
      unfold Trainer.fit_train in H. rewrite (bind_ok _ _ _ _ _ Htrain) in H.
      unfold Py.bind at 1 in H. unfold update_self at 1, Py.modify at 1 in H.
      unfold Py.bind at 1 in H. rewrite trainer_save_checkpoint_run in H.
      cbn [self] in H.
      replace (optimizer (set_hist _ (self w1))) with (@None optimizer_t) in H
        by (rewrite Hself; symmetry; exact Hopt).
      discriminate.
  - exfalso. unfold Trainer.fit_train in H. rewrite (bind_raise _ _ _ _ _ Htrain) in H.
    discriminate.
Qed.

(** X6.  Whenever an epoch of the base trainer's [fit] completes, the file
    [saved_model_file] holds a checkpoint of that very epoch: each epoch
    overwrites what the epochs before it saved, a checkpoint of an earlier,
    better epoch included. *)
Theorem epoch_overwrites_checkpoint (train_data : list Data)
        (valid_data : option (list Data)) (verbose saved : bool) (e : Z) (w w' : W)
        (c : Py.ctl) :
  Trainer.fit_epoch early_stopping train_data valid_data verbose saved e w = (Ok c, w') ->
  exists ck,
    disk w' !! saved_model_file (self w) = Some ck /\
    ck_epoch ck = e /\
    ck_config ck = self_config (self w).
Proof.
  intros H. unfold Trainer.fit_epoch in H. unfold Py.bind at 1 in H.
  destruct (Trainer.fit_train train_data verbose e w) as [[[]|ex] w2] eqn:Htrain;
    [|discriminate].
  destruct (fit_train_ok_has_optimizer _ _ _ _ _ Htrain) as (opt & l & p & w1 & Hopt & Hep & ->).
  destruct (quiet_train_epoch _ _ _ _ _ Hep) as (Hself & _).
  set (w2 := after_train w1 verbose e l p) in *.
  assert (Hfile2 : saved_model_file (self w2) = saved_model_file (self w))
    by (subst w2; unfold after_train; cbn; rewrite Hself; reflexivity).
  assert (Hcfg2 : self_config (self w2) = self_config (self w))
    by (subst w2; unfold after_train; cbn; rewrite Hself; reflexivity).
  assert (Hopt2 : optimizer (self w2) = Some opt)
    by (subst w2; unfold after_train; cbn; rewrite Hself; exact Hopt).
  assert (Hdisk2 : exists ck, disk w2 !! saved_model_file (self w) = Some ck /\
                              ck_epoch ck = e /\ ck_config ck = self_config (self w)).
  { subst w2. unfold after_train, logged, written. cbn [disk self].
    rewrite Hself. eexists. split; [apply lookup_insert_eq|]. split; reflexivity. }
  destruct (validation_enabled (self w2) valid_data) eqn:Hen.
  - destruct (Z.eq_dec ((e + 1) mod eval_step (self w2)) 0) as [Hmod|Hmod].
    + destruct (Trainer._valid_epoch (default [] valid_data) w2) as [[[v r]|ex] w3] eqn:Hv.
      * destruct (fit_eval_validation early_stopping valid_data verbose saved e w2 w3 opt v r
                    Hopt2 Hen Hmod Hv) as (Hrun & Hself3 & Hdisk3).
        rewrite Hrun in H. inversion H; subst c w'. clear H.
        pose proof (after_validation_facts early_stopping w3 verbose saved e v r) as Hfacts.
        cbv zeta in Hfacts.
        destruct (early_stopping _ _ _ _ _) as [[[best cur] stop_flag] update_flag].
        destruct Hfacts as (_ & _ & _ & Hdk & Hnd).
        destruct (update_flag && saved) eqn:Hus.
        -- specialize (Hdk eq_refl). rewrite Hself3, Hfile2 in Hdk.
           eexists. split; [exact Hdk|]. split; [reflexivity|].
           cbn. exact Hcfg2.
        -- rewrite (Hnd eq_refl), Hdisk3. exact Hdisk2.
      * rewrite (fit_eval_valid_raise early_stopping valid_data verbose saved e w2 w3 ex
                   Hen Hmod Hv) in H. discriminate.
    + rewrite (fit_eval_skipped early_stopping valid_data verbose saved e w2 Hen Hmod) in H.
      inversion H; subst. exact Hdisk2.
  - rewrite (fit_eval_disabled early_stopping valid_data verbose saved e w2 opt Hopt2 Hen) in H.
    inversion H; subst c w'. clear H.
    destruct saved; [|exact Hdisk2].
    rewrite <- Hfile2. unfold logged, written. cbn [disk].
    eexists. split; [apply lookup_insert_eq|]. split; [reflexivity | exact Hcfg2].
Qed.

(** X7.  On an empty training loader the epoch methods raise [TypeError]:
    the running total is still [None] when it is divided by the number of
    batches, so the division by zero is never reached.  A base trainer's
    [fit] with an epoch left to run raises it in its first epoch, after
    [model.train()] and before any checkpoint is written. *)
Theorem empty_training_data_raises (valid_data : option (list Data))
        (verbose saved : bool) (e : Z) (w : W) :
  let none_over_int :=
    TypeError "unsupported operand type(s) for /: 'NoneType' and 'int'" in
  let after op := World (self w) (run op (torch w)) (disk w) (trace w ++ [TorchOp op]) in
  Trainer._train_epoch [] e w = (Raise none_over_int, after model_train) /\
  GANTrainer._g_train_epoch [] e w = (Raise none_over_int, after generator_train) /\
  MaskGANTrainer._g_train_epoch [] e w = (Raise none_over_int, after generator_train) /\
  MaskGANTrainer._d_train_epoch [] e w = (Raise none_over_int, after discriminator_train) /\
  (start_epoch (state (self w)) < epochs (self w) ->
   Trainer.fit early_stopping [] valid_data verbose saved w =
   (Raise none_over_int, after model_train)).
Proof.
  intros none_over_int after.
  split; [reflexivity|]. split; [reflexivity|]. split; [reflexivity|].
  split; [reflexivity|].
  intros Hlt. unfold Trainer.fit. unfold Py.bind at 1, Py.gets at 1.
  rewrite (py_range_cons _ _ Hlt). reflexivity.
Qed.

(** X8.  The constructor clamps [eval_step] to [epochs], so a fresh trainer
    with a positive [eval_step] and at least one epoch validates within
    its run: epoch [eval_step - 1] is one of the epochs of [fit] and is on
    the validation schedule, however large the configured [eval_step]. *)
Theorem clamped_eval_step_validates (cfg : config) (model : model_info) (now : string)
        (t : Torch) (d : gmap string (checkpoint Params OptSD)) :
  0 < cfg_eval_step cfg ->
  0 < cfg_epochs cfg ->
  let s := self (snd (Trainer.__init__ cfg model now t d : _ * W)) in
  eval_step s = Z.min (cfg_eval_step cfg) (cfg_epochs cfg) /\
  0 < eval_step s <= epochs s /\
  In (eval_step s - 1) (py_range (start_epoch (state s)) (epochs s)) /\
  (eval_step s - 1 + 1) mod eval_step s = 0.
Proof.
  intros Hev Hep s. subst s.
  destruct (trainer_init_run (Data := Data) cfg model now t d) as (o & evs & ->).
  cbn [snd self eval_step state start_epoch]. unfold epochs. cbn [self_config].
  split; [reflexivity|]. split; [lia|]. split.
  - unfold py_range. apply in_map_iff.
    exists (Z.to_nat (Z.min (cfg_eval_step cfg) (cfg_epochs cfg) - 1)).
    split; [lia|]. apply in_seq. lia.
  - replace (Z.min (cfg_eval_step cfg) (cfg_epochs cfg) - 1 + 1)
      with (Z.min (cfg_eval_step cfg) (cfg_epochs cfg)) by lia.
    apply Z_mod_same_full.
Qed.

End EpochCheckpoint.

(** X6 at the second epoch of a run with validation: the validation of
    epoch 0 improved on the initial score and saved a best checkpoint; when
    epoch 1 is over the file holds epoch 1. *)
Lemma epoch_overwrites_checkpoint_witness :
  let w0 := Toy.fresh (Toy.cfg "adam" 2 1 5) in
  let body := Trainer.fit_epoch Utils.early_stopping [Tensor 1%float]
                                (Some [Tensor 2%float]) true true in
  let w1 := snd (body 0 w0) in
  let w2 := snd (body 1 w1) in
  exists ck, disk w2 !! saved_model_file (self w1) = Some ck /\ ck_epoch ck = 1.
Proof.
  intros w0 body w1 w2.
  destruct (epoch_overwrites_checkpoint (B := Toy.backend) Utils.early_stopping
              [Tensor 1%float] (Some [Tensor 2%float]) true true 1 w1 w2 Py.Next)
    as (ck & Hck & Hep & _); [vm_compute; reflexivity|].
  exists ck. split; [exact Hck | exact Hep].
Defined.

(** X8 at a configured [eval_step] of 10 and 3 epochs: the third epoch
    validates. *)
Lemma clamped_eval_step_validates_witness :
  let s := self (Toy.fresh (Toy.cfg "adam" 3 10 1)) in
  eval_step s = 3 /\ In 2 (py_range 0 3).
Proof.
  destruct (clamped_eval_step_validates (Data := losses) (Params := Z) (OptSD := Z)
              (Toy.cfg "adam" 3 10 1) Toy.model Toy.now (0, 0) ∅) as (Hes & _ & Hin & _);
    [reflexivity | reflexivity |].
  split; [exact Hes | exact Hin].
Defined.

Section EvaluateFacts.
Context {Data Params OptSD Torch Corpus Result : Type}
        `{B : Backend Data Params OptSD Torch} `{V : Evaluation Data Torch Corpus Result}.

Local Abbreviation W := (world Data Params OptSD Torch).
Local Abbreviation M := (Py.M W).

(** X9.  [evaluate] reads a checkpoint only when [load_best_model] holds.
    Without it no file is consulted, not even on an empty disk: the model
    is scored with the parameters it has.  With it, and with no
    [model_file] or an empty one, the file is [saved_model_file]: if it is
    missing, the error is raised before the model is touched; otherwise
    the model is scored with the parameters of that checkpoint, whatever
    it held before.  Only [state_dict] is read, so a checkpoint of an
    adversarial trainer, which has no optimizer entry, serves as well. *)
Theorem evaluate_loads_the_checkpoint (eval_data : Data) (model_file : option string)
        (w : W) :
  let scored t := evaluator_evaluate (generate t eval_data) (get_reference eval_data) in
  Evaluate.evaluate eval_data false model_file w =
    (Ok (scored (run model_eval (torch w))),
     World (self w) (after_generate eval_data (run model_eval (torch w))) (disk w)
           (trace w ++ [TorchOp model_eval])) /\
  (disk w !! Evaluate.checkpoint_file model_file (self w) = None ->
   Evaluate.evaluate eval_data true model_file w =
     (Raise (FileNotFoundError (Evaluate.checkpoint_file model_file (self w))), w)) /\
  (model_file = None \/ model_file = Some "" ->
   Evaluate.checkpoint_file model_file (self w) = saved_model_file (self w)) /\
  (forall ck t',
     disk w !! Evaluate.checkpoint_file model_file (self w) = Some ck ->
     load_state_dict (ck_state_dict ck) (torch w) = Ok t' ->
     state_dict t' = ck_state_dict ck /\
     Evaluate.evaluate eval_data true model_file w =
       (Ok (scored (run model_eval t')),
        World (self w) (after_generate eval_data (run model_eval t')) (disk w)
              (trace w ++
               [logger_info (Text ("Loading model structure and parameters from "
                                   +:+ Evaluate.checkpoint_file model_file (self w)));
                TorchOp model_eval]))).
Proof.
  intros scored. split; [reflexivity|]. split; [|split].
  - intros Hnone. unfold Evaluate.evaluate.
    unfold Py.bind at 1. unfold Py.bind at 1. unfold Py.gets at 1.
    unfold Py.bind at 1. unfold load_file at 1. rewrite Hnone. reflexivity.
  - intros [-> | ->]; reflexivity.
  - intros ck t' Hck Hload. split; [exact (load_state_dict_spec _ _ _ Hload)|].
    unfold Evaluate.evaluate.
    unfold Py.bind at 1. unfold Py.bind at 1. unfold Py.gets at 1.
    unfold Py.bind at 1. unfold load_file at 1. rewrite Hck.
    unfold Py.bind at 1. unfold do_load_state_dict at 1. rewrite Hload.
    unfold emit, torch_do, Py.modify, Py.bind, Py.gets, Py.ret. cbn.
    rewrite <- app_assoc. reflexivity.
Qed.

End EvaluateFacts.

Lemma count_steps_app {Data Params OptSD} (a b : list (event Data Params OptSD)) :
  count_steps (a ++ b) = (count_steps a + count_steps b)%nat.
Proof. unfold count_steps. rewrite filter_app, length_app. reflexivity. Qed.

Section ScalarEpoch.
Context {Data Params OptSD Torch : Type} `{B : Backend Data Params OptSD Torch}.

Local Abbreviation W := (world Data Params OptSD Torch).
Local Abbreviation M := (Py.M W).
Local Abbreviation E := (event Data Params OptSD).

Hypothesis scalar_losses :
  forall t c, exists x, loss_of t c = Tensor x /\ PrimFloat.is_nan x = false.

Lemma train_step_scalar (e : Z) (xs0 : list float) (d : Data) (w : W) (opt : optimizer_t) :
  optimizer (self w) = Some opt ->
  exists x w',
    Trainer.train_step e (float_total xs0) d w = (Ok (float_total (xs0 ++ [x])), w') /\
    self w' = self w /\ disk w' = disk w /\
    exists evs : list E,
      trace w' = trace w ++ evs /\ stream loss_of_event evs = [x] /\
      count_steps evs = 1%nat.
Proof.
  intros Hopt.
  set (c := calculate_loss d (Some e)).
  destruct (scalar_losses (run (zero_grad opt) (torch w)) c) as (x & Hx & Hnan).
  exists x. eexists. split.
  - unfold Trainer.train_step, Trainer.get_optimizer, Py.bind, Py.gets, call_loss,
      torch_do, Py.modify, Py.ret, lift. simpl.
    rewrite Hopt. simpl. fold c. rewrite Hx.
    rewrite float_total_snoc.
    destruct (float_total xs0) as [[s|ts]|] eqn:Etot; simpl; rewrite ?Hnan.
    + reflexivity.
    + exfalso. destruct xs0; discriminate.
    + reflexivity.
  - simpl. split; [reflexivity|]. split; [reflexivity|].
    eexists. rewrite <- !app_assoc. split; [reflexivity|].
    simpl. fold c. split; reflexivity.
Qed.

Lemma train_steps_scalar (e : Z) (opt : optimizer_t) (train_data : list Data) :
  forall (xs0 : list float) (w : W),
    optimizer (self w) = Some opt ->
    exists w' (evs : list E),
      Py.for_fold train_data (Trainer.train_step e) (float_total xs0) w =
      (Ok (float_total (xs0 ++ stream loss_of_event evs)), w') /\
      self w' = self w /\ disk w' = disk w /\
      trace w' = trace w ++ evs /\
      length (stream loss_of_event evs) = length train_data /\
      count_steps evs = length train_data.
Proof.
  induction train_data as [|d td IH]; intros xs0 w Hopt.
  - exists w, []. simpl. rewrite !app_nil_r. repeat split; reflexivity.
  - destruct (train_step_scalar e xs0 d w opt Hopt)
      as (x & w1 & Hstep & Hs1 & Hd1 & evs1 & Ht1 & Hx1 & Hc1).
    assert (Hopt1 : optimizer (self w1) = Some opt) by congruence.
    destruct (IH (xs0 ++ [x]) w1 Hopt1) as (w2 & evs2 & Hrest & Hs2 & Hd2 & Ht2 & Hl2 & Hc2).
    exists w2, (evs1 ++ evs2). simpl.
    rewrite (bind_ok _ _ _ _ _ Hstep), Hrest.
    rewrite stream_app, Hx1, <- app_assoc. simpl.
    split; [reflexivity|]. split; [congruence|]. split; [congruence|].
    split; [rewrite Ht2, Ht1, app_assoc; reflexivity|].
    split; [rewrite Hl2; reflexivity|].
    rewrite count_steps_app, Hc1, Hc2. reflexivity.
Qed.

End ScalarEpoch.

Section ScalarEpochClaim.
Context {Data Params OptSD Torch : Type} `{B : Backend Data Params OptSD Torch}.

Local Abbreviation W := (world Data Params OptSD Torch).
Local Abbreviation M := (Py.M W).
Local Abbreviation E := (event Data Params OptSD).

(** X10.  When the model returns scalar losses that are not NaN, a training
    epoch of the base trainer over [n >= 1] batches calls the model once
    per batch, takes one optimizer step per batch, and returns the sum of
    the [n] losses, added in the order of the batches, divided by [n],
    together with the exponential of that mean; the trainer object and
    the disk are unchanged. *)
Theorem train_epoch_scalar_mean (train_data : list Data) (e : Z) (w : W)
        (opt : optimizer_t) :
  optimizer (self w) = Some opt ->
  train_data <> [] ->
  (forall t c, exists x, loss_of t c = Tensor x /\ PrimFloat.is_nan x = false) ->
  exists w' (evs : list E),
    let xs := stream loss_of_event evs in
    Trainer._train_epoch train_data e w = (Ok (mean_over xs, np_exp (mean_over xs)), w') /\
    trace w' = trace w ++ evs /\
    length xs = length train_data /\
    count_steps evs = length train_data /\
    self w' = self w /\ disk w' = disk w.
Proof.
  intros Hopt Hne Hscalar.
  set (w0 := snd (torch_do model_train w)).
  destruct (train_steps_scalar Hscalar e opt train_data [] w0 Hopt)
    as (w' & evs & Hfold & Hs & Hd & Ht & Hl & Hc).
  exists w', (TorchOp model_train :: evs). cbv zeta.
  change (stream loss_of_event (TorchOp model_train :: evs)) with (stream loss_of_event evs).
  split.
  - unfold Trainer._train_epoch.
    rewrite (bind_ok (torch_do model_train) _ w w0 tt eq_refl).
    change (float_total []) with (@None total) in Hfold.
    rewrite (bind_ok _ _ _ _ _ Hfold). simpl app.
    destruct (stream loss_of_event evs) as [|x rest] eqn:Exs.
    + exfalso. destruct train_data; [congruence | discriminate].
    + unfold Py.bind, lift, Py.ret. simpl float_total. unfold total_div_int, float_div_int.
      rewrite <- Hl.
      destruct (Z.eqb_spec (Z.of_nat (length (x :: rest))) 0) as [Hz|_];
        [simpl in Hz; lia|].
      reflexivity.
  - split; [rewrite Ht; subst w0; simpl; rewrite <- app_assoc; reflexivity|].
    split; [exact Hl|]. split; [exact Hc|]. split; assumption.
Qed.

End ScalarEpochClaim.

(** X10 on two batches. *)
Lemma train_epoch_scalar_mean_witness :
  let w := snd (Trainer.__init__ (Toy.cfg "adam" 1 1 1) Toy.model Toy.now tt ∅) in
  exists w' (evs : list (event bool unit unit)),
    Trainer._train_epoch [true; false] 0 w =
    (Ok (mean_over (stream loss_of_event evs),
         np_exp (mean_over (stream loss_of_event evs))), w') /\
    length (stream loss_of_event evs) = 2%nat /\
    count_steps evs = 2%nat.
Proof.
  intros w.
  assert (Hscalar : forall (t : unit) (c : call bool),
             exists x, loss_of t c = Tensor x /\ PrimFloat.is_nan x = false).
  { intros t [d e|d a e|args e a|args e]; simpl; unfold Coin.coin_loss;
      try destruct d; try destruct args as [|[] ?]; eexists; split; reflexivity. }
  assert (Hne : [true; false] <> []) by discriminate.
  destruct (train_epoch_scalar_mean (B := Coin.backend) [true; false] 0 w
              (Optim Adam ModelParameters 0.5%float) eq_refl Hne Hscalar)
    as (w' & evs & Hrun & _ & Hl & Hc & _).
  exists w', evs. split; [exact Hrun|]. split; [exact Hl | exact Hc].
Defined.

Section BindInversion.
Context {W : Type}.

Lemma bind_ok_inv {A C} (m : Py.M W A) (k : A -> Py.M W C) (w w' : W) (c : C) :
  Py.bind m k w = (Ok c, w') -> exists a w1, m w = (Ok a, w1) /\ k a w1 = (Ok c, w').
Proof.
  unfold Py.bind. destruct (m w) as [[a|e] w1]; [|discriminate].
  intros H. exists a, w1. split; [reflexivity | exact H].
Qed.

Lemma for_fold_invariant {A S} (P : S -> W -> Prop) (body : S -> A -> Py.M W S)
      (xs : list A) (s s' : S) (w w' : W) :
  (forall s x w s' w', P s w -> body s x w = (Ok s', w') -> P s' w') ->
  P s w -> Py.for_fold xs body s w = (Ok s', w') -> P s' w'.
Proof.
  intros Hb. revert s w. induction xs as [|x xs IH]; intros s w HP H; simpl in H.
  - inversion H; subst. exact HP.
  - apply bind_ok_inv in H. destruct H as (s1 & w1 & Hx & Hrest).
    exact (IH s1 w1 (Hb _ _ _ _ _ HP Hx) Hrest).
Qed.

End BindInversion.

Section DegenerateEpochs.
Context {Data Params OptSD Torch : Type} `{B : Backend Data Params OptSD Torch}.

Local Abbreviation W := (world Data Params OptSD Torch).
Local Abbreviation M := (Py.M W).
Local Abbreviation E := (event Data Params OptSD).

(** If everything before [k] leaves [self] alone and [k] cannot return
    from such a world, the whole cannot return. *)
Lemma never_ok_after_quiet {A C} (m : M A) (k : A -> M C) (w : W) :
  quiet m ->
  (forall a w1, self w1 = self w -> is_ok (fst (k a w1)) = false) ->
  is_ok (fst (Py.bind m k w)) = false.
Proof.
  intros Hm Hk. unfold Py.bind. destruct (m w) as [[a|e] w1] eqn:Em; [|reflexivity].
  destruct (Hm _ _ _ Em) as (Hs & _). exact (Hk a w1 Hs).
Qed.

(** X11.  With [adversarail_d_epochs = 0] the adversarial epoch of
    [RankGANTrainer] never returns: [d_loss], still the int [0], is
    divided by zero.  When the generator step goes through (real data,
    reference rows, a scalar loss that is not NaN, a single optimizer),
    the error is that [ZeroDivisionError], raised after the generator was
    updated. *)
Theorem rankgan_zero_d_epochs (d_train_epoch : list Data -> Z -> M total)
        (train_data : list Data) (epoch_idx : Z) (w : W) :
  adversarail_d_epochs (self w) = 0 ->
  let r := RankGANTrainer._adversarial_train_epoch d_train_epoch train_data epoch_idx w in
  is_ok (fst r) = false /\
  (forall real_data ref_data x o,
     let t1 := run generator_train (torch w) in
     let t2 := run (np_random_randint real_data) t1 in
     let c := calculate_g_adversarial_loss [ref_data] (PyInt epoch_idx) in
     cat_padded (max_length (self w)) (pad_idx (self_model (self w))) train_data
       = Ok real_data ->
     ref_data_of t1 real_data = Ok ref_data ->
     loss_of t2 c = Tensor x ->
     PrimFloat.is_nan x = false ->
     g_optimizer (self w) = Some (OneOptimizer o) ->
     generator_name (self_model (self w)) <> "LeakGANGenerator" ->
     fst r = Raise ZeroDivisionError /\
     trace (snd r) =
       trace w ++ [TorchOp generator_train; TorchOp (np_random_randint real_data);
                   model_call c (Losses (Tensor x)); TorchOp (zero_grad o);
                   TorchOp (backward c Combined false);
                   TorchOp (clip_grad_norm_ GeneratorParameters (grad_clip (self w)));
                   TorchOp (step o)]).
Proof.
  intros Hzero r. split.
  - subst r. unfold RankGANTrainer._adversarial_train_epoch.
    apply never_ok_after_quiet; [apply quiet_torch_do|]. intros _ w1 Hs1.
    apply never_ok_after_quiet; [apply quiet_get_real_data|]. intros real w2 Hs2.
    apply never_ok_after_quiet; [apply quiet_draw_ref_data|]. intros ref w3 Hs3.
    apply never_ok_after_quiet; [apply quiet_call_loss|]. intros l w4 Hs4.
    apply never_ok_after_quiet; [apply quiet_get_module_optimizer|]. intros opt w5 Hs5.
    apply never_ok_after_quiet; [apply quiet_gan_optimize_step|]. intros tot w6 Hs6.
    assert (Hn : adversarail_d_epochs (self w6) = 0) by (rewrite Hs6, Hs5, Hs4, Hs3, Hs2, Hs1; exact Hzero).
    unfold Py.bind at 1. unfold Py.gets at 1. rewrite Hn.
    change (py_range 0 0) with (@nil Z). simpl Py.for_fold.
    unfold Py.bind, Py.ret, Py.gets, lift. rewrite Hn. reflexivity.
  - intros real_data ref_data x o t1 t2 c Hcat Href Hloss Hnan Hopt Hname.
    subst r.
    unfold RankGANTrainer._adversarial_train_epoch, GANTrainer._get_real_data,
      RankGANTrainer.draw_ref_data, GANTrainer.get_module_optimizer,
      GANTrainer._optimize_step, GANTrainer.as_optimizer, call_loss, torch_do,
      Py.bind, Py.gets, Py.modify, Py.ret, Py.raise, lift.
    cbn [self torch disk trace fst snd].
    rewrite Hcat. fold t1. rewrite Href. cbn [self torch disk trace fst snd].
    fold t2. fold c. rewrite Hloss, Hopt. cbn [accumulate _check_nan]. rewrite Hnan.
    cbn [self torch disk trace fst snd module_name].
    rewrite (proj2 (String.eqb_neq _ _) Hname).
    cbn [self torch disk trace fst snd]. rewrite Hzero.
    change (py_range 0 0) with (@nil Z). cbn. rewrite Hzero. cbn.
    rewrite <- !app_assoc. split; reflexivity.
Qed.

Lemma g_macro_step_keeps_dis_total (train_data : list Data)
      (l l' : MaskGANTrainer.adv_locals) (g_x : Data) (w w' : W) :
  adversarail_d_epochs (self w) <= 0 ->
  MaskGANTrainer.g_macro_step train_data l g_x w = (Ok l', w') ->
  MaskGANTrainer.dis_total_loss l' = MaskGANTrainer.dis_total_loss l /\
  self w' = self w.
Proof.
  intros Hn H.
  destruct (quiet_g_macro_step _ _ _ _ _ _ H) as (Hs & _).
  split; [|exact Hs].
  unfold MaskGANTrainer.g_macro_step in H.
  unfold Py.bind at 1 in H. unfold Py.gets at 1 in H.
  rewrite (py_range_nil 0 _ Hn) in H. simpl Py.for_fold in H.
  unfold Py.bind at 1 in H. unfold Py.ret at 1 in H.
  repeat (apply bind_ok_inv in H; destruct H as (? & ? & _ & H)).
  destruct x as [gl cl].
  repeat (apply bind_ok_inv in H; destruct H as (? & ? & _ & H)).
  inversion H. reflexivity.
Qed.

(** X12.  With [adversarail_d_epochs <= 0] the adversarial epoch of
    [MaskGANTrainer] never returns: no discriminator step runs, so the
    running discriminator total is still [None] when it is divided by
    [d_num]; if the generator steps all go through, the error is that
    [TypeError], raised after the last of them. *)
Theorem maskgan_without_d_epochs (train_data : list Data) (epoch_idx : Z) (w : W) :
  adversarail_d_epochs (self w) <= 0 ->
  is_ok (fst (MaskGANTrainer._adversarial_train_epoch train_data epoch_idx w)) = false /\
  (forall first rest l w',
     train_data = first :: rest ->
     Py.for_fold train_data (MaskGANTrainer.g_macro_step train_data)
       (MaskGANTrainer.AdvLocals None None None 0%float 0%float rest) w = (Ok l, w') ->
     MaskGANTrainer._adversarial_train_epoch train_data epoch_idx w =
     (Raise (TypeError "unsupported operand type(s) for /: 'NoneType' and 'float'"), w')).
Proof.
  intros Hn.
  assert (Hinv : forall rest l w',
             Py.for_fold train_data (MaskGANTrainer.g_macro_step train_data)
               (MaskGANTrainer.AdvLocals None None None 0%float 0%float rest) w = (Ok l, w') ->
             MaskGANTrainer.dis_total_loss l = None).
  { intros rest l w' Hfold.
    refine (proj1 (for_fold_invariant
              (fun (l : MaskGANTrainer.adv_locals) (w1 : W) =>
                 MaskGANTrainer.dis_total_loss l = None /\ self w1 = self w)
              _ _ _ _ _ _ _ _ Hfold)).
    - intros l0 x w0 l1 w1 [Hd Hs] Hstep.
      destruct (g_macro_step_keeps_dis_total train_data l0 l1 x w0 w1) as [Hd1 Hs1];
        [rewrite Hs; exact Hn | exact Hstep |].
      split; congruence.
    - split; reflexivity. }
  split.
  - unfold MaskGANTrainer._adversarial_train_epoch.
    destruct train_data as [|first rest]; [reflexivity|].
    unfold Py.bind at 1. cbn [MaskGANTrainer.py_next Py.ret].
    unfold Py.bind at 1.
    destruct (Py.for_fold _ _ _ w) as [[l|ex] w'] eqn:Hfold; [|reflexivity].
    rewrite (Hinv rest l w' Hfold). reflexivity.
  - intros first rest l w' Htd Hfold.
    pose proof (Hinv rest l w' Hfold) as Hd.
    unfold MaskGANTrainer._adversarial_train_epoch. rewrite Htd in *.
    unfold Py.bind at 1. cbn [MaskGANTrainer.py_next Py.ret].
    rewrite (bind_ok _ _ _ _ _ Hfold). rewrite Hd. reflexivity.
Qed.

End DegenerateEpochs.

Section Arity.

(** X13.  The step aggregation never checks the arity of a tuple loss
    against the running total: the new total has the shorter of the two
    arities and its components are the sums position by position, the
    surplus being dropped without an error.  Only mixing a scalar loss
    with a tuple total, or a tuple loss with a scalar total, raises
    ([TypeError]). *)
Theorem tuple_arity_is_truncated (xs ts : list float) (x t : float) :
  accumulate (TensorTuple xs) (Some (TTuple ts)) = Ok (py_sum xs, TTuple (zip_sum ts xs)) /\
  length (zip_sum ts xs) = Nat.min (length ts) (length xs) /\
  (forall j, (j < Nat.min (length ts) (length xs))%nat ->
             nth j (zip_sum ts xs) 0%float =
             PrimFloat.add (PrimFloat.add 0 (nth j ts 0%float)) (nth j xs 0%float)) /\
  (exists msg, accumulate (Tensor x) (Some (TTuple ts)) = Raise (TypeError msg)) /\
  (exists msg, accumulate (TensorTuple xs) (Some (TFloat t)) = Raise (TypeError msg)).
Proof.
  split; [reflexivity|]. split; [apply zip_sum_length|]. split.
  - intros j Hj. rewrite zip_sum_nth by lia. reflexivity.
  - split; eexists; reflexivity.
Qed.

End Arity.

(** X11 at a trainer whose data has one batch. *)
Lemma rankgan_zero_d_epochs_witness :
  let w := Toy.fresh_gan (Config "RankGAN" "adam" 0.5%float 1 1 1 "saved" 5%float
                                 0 0 1 1 1 0 1 10) in
  fst (RankGANTrainer._adversarial_train_epoch RankGANTrainer._d_train_epoch
         [Tensor 1%float] 0 w) = Raise ZeroDivisionError.
Proof.
  intros w.
  destruct (rankgan_zero_d_epochs (B := Toy.backend) RankGANTrainer._d_train_epoch
              [Tensor 1%float] 0 w eq_refl) as [_ H].
  destruct (H (Tensor 1%float) (Tensor 1%float) 1%float
              (Optim Adam GeneratorParameters 0.5%float)
              eq_refl eq_refl eq_refl eq_refl eq_refl) as [Hex _]; [discriminate|].
  exact Hex.
Defined.

(** X12 at [adversarail_d_epochs = 0] on two batches. *)
Lemma maskgan_without_d_epochs_witness :
  let w := Coin.fresh_maskgan (Config "MaskGAN" "adam" 0.5%float 1 1 1 "saved" 5%float
                                      0 0 1 1 1 0 1 10) in
  is_ok (fst (MaskGANTrainer._adversarial_train_epoch [true; false] 0 w)) = false.
Proof.
  intros w.
  destruct (maskgan_without_d_epochs (B := Coin.backend) [true; false] 0 w) as [H _];
    [vm_compute; discriminate | exact H].
Defined.

Section MaskGANTuples.
Context {Data Params OptSD Torch : Type} `{B : Backend Data Params OptSD Torch}.

Local Abbreviation W := (world Data Params OptSD Torch).
Local Abbreviation M := (Py.M W).

Hypothesis tuple_losses : forall t c, exists xs, loss_of t c = TensorTuple xs.

Lemma maskgan_step_keeps_tuple (c : call Data) (wh : which) (total_loss : option total)
      (md : module) (opt : optimizer_handle) (rg : bool) (w w1 w' : W) (l : losses)
      (t : total) :
  not_a_float total_loss ->
  call_loss c w = (Ok l, w1) ->
  MaskGANTrainer._optimize_step c wh l total_loss md opt rg w1 = (Ok t, w') ->
  not_a_float (Some t).
Proof.
  intros Hnf Hcall Hstep. unfold call_loss, Py.bind, Py.gets, Py.modify, Py.ret in Hcall.
  inversion Hcall; subst l w1. clear Hcall.
  destruct (tuple_losses (torch w) c) as (xs & Hxs). rewrite Hxs in Hstep.
  unfold MaskGANTrainer._optimize_step in Hstep.
  apply bind_ok_inv in Hstep. destruct Hstep as ([loss t0] & w2 & Hacc & Hrest).
  unfold lift in Hacc.
  repeat (apply bind_ok_inv in Hrest; destruct Hrest as (? & ? & _ & Hrest)).
  inversion Hrest; subst t. clear Hrest.
  destruct total_loss as [[fl|ts]|]; simpl in *; try contradiction;
    inversion Hacc; exact I.
Qed.

Lemma maskgan_fold_keeps_tuple (body : option total -> Data -> M (option total))
      (train_data : list Data) (total_loss t : option total) (w w' : W) :
  (forall tot d w0 t0 w1, not_a_float tot -> body tot d w0 = (Ok t0, w1) -> not_a_float t0) ->
  not_a_float total_loss ->
  Py.for_fold train_data body total_loss w = (Ok t, w') ->
  not_a_float t.
Proof.
  intros Hbody Hnf Hfold.
  exact (for_fold_invariant (fun tot _ => not_a_float tot) body train_data total_loss t w w'
           (fun s x w0 s' w1 HP Hx => Hbody s x w0 s' w1 HP Hx) Hnf Hfold).
Qed.

Lemma maskgan_tuple_epochs_raise (train_data : list Data) (e : Z) (w : W) :
  is_ok (fst (MaskGANTrainer._g_train_epoch train_data e w)) = false /\
  is_ok (fst (MaskGANTrainer._d_train_epoch train_data e w)) = false.
Proof.
  split.
  - unfold MaskGANTrainer._g_train_epoch.
    unfold Py.bind at 1. cbn [torch_do Py.modify]. unfold Py.bind at 1.
    destruct (Py.for_fold train_data _ None _) as [[t|ex] w1] eqn:E; [|reflexivity].
    assert (Hnf : not_a_float t).
    { refine (maskgan_fold_keeps_tuple _ train_data None t _ w1 _ I E).
      intros tot d w0 t0 w2 Htot Hbody.
      apply bind_ok_inv in Hbody. destruct Hbody as (l & w3 & Hcall & Hbody).
      apply bind_ok_inv in Hbody. destruct Hbody as (opt & w4 & Hopt & Hbody).
      apply bind_ok_inv in Hbody. destruct Hbody as (t1 & w5 & Hstep & Hbody).
      inversion Hbody; subst t0.
      unfold GANTrainer.get_module_optimizer, Py.bind, Py.gets in Hopt.
      destruct (g_optimizer (self w3)); inversion Hopt; subst.
      exact (maskgan_step_keeps_tuple _ _ _ _ _ _ _ _ _ _ _ Htot Hcall Hstep). }
    unfold Py.bind, lift. destruct t as [[x|ts]|]; [contradiction | reflexivity | reflexivity].
  - unfold MaskGANTrainer._d_train_epoch.
    unfold Py.bind at 1. cbn [torch_do Py.modify]. unfold Py.bind at 1.
    destruct (Py.for_fold train_data _ None _) as [[t|ex] w1] eqn:E; [|reflexivity].
    assert (Hnf : not_a_float t).
    { refine (maskgan_fold_keeps_tuple _ train_data None t _ w1 _ I E).
      intros tot d w0 t0 w2 Htot Hbody.
      apply bind_ok_inv in Hbody. destruct Hbody as (l & w3 & Hcall & Hbody).
      apply bind_ok_inv in Hbody. destruct Hbody as (opt & w4 & Hopt & Hbody).
      apply bind_ok_inv in Hbody. destruct Hbody as (t1 & w5 & Hstep & Hbody).
      inversion Hbody; subst t0.
      unfold GANTrainer.get_module_optimizer, Py.bind, Py.gets in Hopt.
      destruct (d_optimizer (self w3)); inversion Hopt; subst.
      exact (maskgan_step_keeps_tuple _ _ _ _ _ _ _ _ _ _ _ Htot Hcall Hstep). }
    unfold Py.bind, lift. destruct t as [[x|ts]|]; [contradiction | reflexivity | reflexivity].
Qed.

End MaskGANTuples.

Section MaskGANTuplesClaim.
Context {Data Params OptSD Torch : Type} `{B : Backend Data Params OptSD Torch}.

Local Abbreviation W := (world Data Params OptSD Torch).

(** X14.  Like the base trainer, [MaskGANTrainer] divides the running total
    of a pretraining epoch as it is: with a model whose losses are tuples
    neither its generator epoch nor its discriminator epoch ever returns,
    and so neither does the [fit] of a trainer with a generator
    pretraining epoch to run. *)
Theorem maskgan_pretraining_of_tuples_raises (train_data : list Data)
        (valid_data : option (list Data)) (verbose saved : bool) (e : Z) (w : W) :
  (forall t c, exists xs, loss_of t c = TensorTuple xs) ->
  is_ok (fst (MaskGANTrainer._g_train_epoch train_data e w)) = false /\
  is_ok (fst (MaskGANTrainer._d_train_epoch train_data e w)) = false /\
  (1 <= g_pretraining_epochs (self w) ->
   is_ok (fst (GANTrainer.fit MaskGANTrainer.methods train_data valid_data verbose saved w))
     = false).
Proof.
  intros Htuple.
  split; [exact (proj1 (maskgan_tuple_epochs_raise Htuple train_data e w))|].
  split; [exact (proj2 (maskgan_tuple_epochs_raise Htuple train_data e w))|].
  intros Hg. unfold GANTrainer.fit.
  apply never_ok_after_quiet; [apply quiet_when, quiet_emit; reflexivity|].
  intros _ w1 Hs1.
  unfold Py.bind at 1, Py.gets at 1. rewrite Hs1.
  rewrite (py_range_cons 0 _) by lia. simpl Py.for_fold.
  cbn [m_g_train_epoch MaskGANTrainer.methods].
  unfold Py.bind at 1. unfold Py.bind at 1. unfold Py.bind at 1.
  pose proof (proj1 (maskgan_tuple_epochs_raise Htuple train_data 0 w1)) as Hraise.
  destruct (MaskGANTrainer._g_train_epoch train_data 0 w1) as [[t|ex] w2];
    [discriminate | reflexivity].
Qed.

End MaskGANTuplesClaim.

Section OptimizerShape.
Context {Data Params OptSD Torch : Type} `{B : Backend Data Params OptSD Torch}.

Local Abbreviation W := (world Data Params OptSD Torch).
Local Abbreviation M := (Py.M W).
Local Abbreviation E := (event Data Params OptSD).



End OptimizerShape.

Section UtilsFacts.
Import utils.

(** X16.  [ordinal] never fails on an int, negative ones included: the index
    into the suffix list is always within bounds.  It returns the decimal
    form of [n] followed by ["st"], ["nd"] or ["rd"] when the remainder of
    [n] by 10 (Python's, which is never negative) is 1, 2 or 3 and the
    remainder by 100 is not 11, 12 or 13, and by ["th"] otherwise. *)
Theorem ordinal_suffix (n : Z) :
  exists suffix,
    ordinal n = Return (str n +:+ suffix) /\
    (suffix = "st" <-> n mod 10 = 1 /\ n mod 100 <> 11) /\
    (suffix = "nd" <-> n mod 10 = 2 /\ n mod 100 <> 12) /\
    (suffix = "rd" <-> n mod 10 = 3 /\ n mod 100 <> 13) /\
    (suffix = "th" <-> (n mod 10 <> 1 /\ n mod 10 <> 2 /\ n mod 10 <> 3)
                       \/ 11 <= n mod 100 <= 13).
Proof.
  unfold ordinal.
  assert (H100 : 0 <= n mod 100 < 100) by (apply Z.mod_pos_bound; lia).
  assert (H10 : 0 <= n mod 10 < 10) by (apply Z.mod_pos_bound; lia).
  assert (Hmm : n mod 10 = (n mod 100) mod 10).
  { symmetry. rewrite <- (Z.mod_mod_divide n 100 10) by (exists 10; reflexivity). reflexivity. }
  rewrite Hmm in *. clear Hmm H10.
  set (r := n mod 100) in *. clearbody r.
  destruct ((11 <=? r) && (r <=? 13))%bool eqn:Hteen.
  - apply andb_true_iff in Hteen. destruct Hteen as [Hlo Hhi].
    apply Z.leb_le in Hlo, Hhi.
    exists "th". split; [reflexivity|].
    assert (Hr : r = 11 \/ r = 12 \/ r = 13) by lia.
    destruct Hr as [-> | [-> | ->]];
      repeat split; intros; try discriminate; try (right; lia);
        match goal with
        | H : _ /\ _ |- _ => destruct H as [H1 H2]; vm_compute in H1; congruence
        end.
  - assert (Hnot : r < 11 \/ 13 < r).
    { apply andb_false_iff in Hteen. destruct Hteen as [H|H]; apply Z.leb_gt in H; lia. }
    assert (Hm : 0 <= r mod 10 < 10) by (apply Z.mod_pos_bound; lia).
    set (m := r mod 10) in *. clearbody m.
    assert (Hcases : m = 0 \/ m = 1 \/ m = 2 \/ m = 3 \/ 4 <= m < 10) by lia.
    destruct Hcases as [E|[E|[E|[E|E]]]];
      [ rewrite E; exists "th" | rewrite E; exists "st" | rewrite E; exists "nd"
      | rewrite E; exists "rd"
      | replace (Z.min m 4) with 4 by lia; exists "th" ];
      (split; [reflexivity|]);
      repeat split; intros; try discriminate; try reflexivity; try lia;
        try (exfalso; lia); try (left; lia).
Qed.

End UtilsFacts.

Section LocalTime.
Import utils.

Lemma string_app_inj_len (x1 x2 r1 r2 : string) :
  String.length x1 = String.length x2 -> x1 +:+ r1 = x2 +:+ r2 -> x1 = x2 /\ r1 = r2.
Proof.
  revert x2. induction x1 as [|c x1 IH]; intros [|c2 x2] Hlen H; simpl in *;
    try discriminate.
  - split; [reflexivity | exact H].
  - injection H as Hc Hrest. injection Hlen as Hlen.
    destruct (IH x2 Hlen Hrest) as [-> ->]. subst. split; reflexivity.
Qed.

Lemma string_length_app (x y : string) :
  String.length (x +:+ y) = (String.length x + String.length y)%nat.
Proof. induction x as [|c x IH]; simpl; [reflexivity | rewrite IH; reflexivity]. Qed.

Lemma string_app_inv_head (x r1 r2 : string) : x +:+ r1 = x +:+ r2 -> r1 = r2.
Proof. intros H. exact (proj2 (string_app_inj_len x x r1 r2 eq_refl H)). Qed.

Lemma string_app_inv_tail (x1 x2 r : string) : x1 +:+ r = x2 +:+ r -> x1 = x2.
Proof.
  intros H.
  assert (Hlen : String.length x1 = String.length x2).
  { apply (f_equal String.length) in H. rewrite !string_length_app in H. lia. }
  exact (proj1 (string_app_inj_len x1 x2 r r Hlen H)).
Qed.

Lemma to_int_not_nil (n : Z) :
  Z.to_int n <> Decimal.Pos Decimal.Nil /\ Z.to_int n <> Decimal.Neg Decimal.Nil.
Proof.
  pose proof (to_of (Z.to_int n)) as H. rewrite of_to in H.
  split; intros E; rewrite E in H; discriminate.
Qed.

Lemma str_inj (a b : Z) : str a = str b -> a = b.
Proof.
  intros H. unfold str in H.
  destruct (to_int_not_nil a) as [Ha1 Ha2]. destruct (to_int_not_nil b) as [Hb1 Hb2].
  pose proof (NilZero.isi _ Ha1 Ha2) as Ia. pose proof (NilZero.isi _ Hb1 Hb2) as Ib.
  rewrite H in Ia. rewrite Ia in Ib. injection Ib as Ib. exact (to_int_inj _ _ Ib).
Qed.

Lemma str_year_length (y : Z) : 1000 <= y <= 9999 -> String.length (str y) = 4%nat.
Proof.
  intros Hy.
  assert (Hall : forallb (fun k => Nat.eqb (String.length (str (1000 + Z.of_nat k))) 4)
                         (seq 0 (Z.to_nat 9000)) = true) by (vm_compute; reflexivity).
  rewrite forallb_forall in Hall.
  specialize (Hall (Z.to_nat (y - 1000))).
  replace (1000 + Z.of_nat (Z.to_nat (y - 1000))) with y in Hall by lia.
  apply Nat.eqb_eq, Hall, in_seq. lia.
Qed.

Lemma digit_inj (a b : Z) : 0 <= a <= 9 -> 0 <= b <= 9 -> digit a = digit b -> a = b.
Proof.
  intros Ha Hb H. unfold digit in H.
  apply (f_equal nat_of_ascii) in H.
  rewrite !nat_ascii_embedding in H by lia. lia.
Qed.

Lemma two_digits_inj (a b : Z) :
  0 <= a <= 99 -> 0 <= b <= 99 -> two_digits a = two_digits b -> a = b.
Proof.
  intros Ha Hb H. unfold two_digits in H. injection H as H1 H0.
  assert (Ha1 : 0 <= a / 10 < 10)
    by (split; [apply Z.div_pos | apply Z.div_lt_upper_bound]; lia).
  assert (Hb1 : 0 <= b / 10 < 10)
    by (split; [apply Z.div_pos | apply Z.div_lt_upper_bound]; lia).
  assert (Ha0 : 0 <= a mod 10 < 10) by (apply Z.mod_pos_bound; lia).
  assert (Hb0 : 0 <= b mod 10 < 10) by (apply Z.mod_pos_bound; lia).
  apply digit_inj in H1; [|lia|lia]. apply digit_inj in H0; [|lia|lia].
  rewrite (Z.div_mod a 10), (Z.div_mod b 10) by lia. rewrite H1, H0. reflexivity.
Qed.

Lemma month_cases (m : Z) :
  1 <= m <= 12 ->
  m = 1 \/ m = 2 \/ m = 3 \/ m = 4 \/ m = 5 \/ m = 6 \/
  m = 7 \/ m = 8 \/ m = 9 \/ m = 10 \/ m = 11 \/ m = 12.
Proof. lia. Qed.

Lemma month_abbr_length (m : Z) : 1 <= m <= 12 -> String.length (month_abbr m) = 3%nat.
Proof.
  intros Hm. destruct (month_cases m Hm) as [E|[E|[E|[E|[E|[E|[E|[E|[E|[E|[E|E]]]]]]]]]]];
    subst; reflexivity.
Qed.

Lemma month_abbr_inj (a b : Z) :
  1 <= a <= 12 -> 1 <= b <= 12 -> month_abbr a = month_abbr b -> a = b.
Proof.
  intros Ha Hb.
  destruct (month_cases a Ha) as [E|[E|[E|[E|[E|[E|[E|[E|[E|[E|[E|E]]]]]]]]]]]; subst a;
    destruct (month_cases b Hb) as [E|[E|[E|[E|[E|[E|[E|[E|[E|[E|[E|E]]]]]]]]]]]; subst b;
    intros H; first [reflexivity | discriminate H].
Qed.

Lemma strftime_length (t : datetime) :
  four_digit_year t -> String.length (strftime t) = 20%nat.
Proof.
  intros (Hy & Hm & _). unfold strftime.
  rewrite !string_length_app, (str_year_length _ Hy), (month_abbr_length _ Hm).
  reflexivity.
Qed.

Lemma strftime_inj (a b : datetime) :
  four_digit_year a -> four_digit_year b -> strftime a = strftime b -> same_second a b.
Proof.
  intros (Hay & Ham & Had & Hah & Hami & Has) (Hby & Hbm & Hbd & Hbh & Hbmi & Hbs) H.
  unfold strftime in H.
  apply string_app_inj_len in H;
    [|rewrite !str_year_length by assumption; reflexivity].
  destruct H as [Hy H]. apply string_app_inv_head in H.
  apply string_app_inj_len in H;
    [|rewrite !month_abbr_length by assumption; reflexivity].
  destruct H as [Hm H]. apply string_app_inv_head in H.
  apply string_app_inj_len in H; [|reflexivity].
  destruct H as [Hd H]. apply string_app_inv_head in H.
  apply string_app_inj_len in H; [|reflexivity].
  destruct H as [Hh H]. apply string_app_inv_head in H.
  apply string_app_inj_len in H; [|reflexivity].
  destruct H as [Hmi Hs]. apply string_app_inv_head in Hs.
  unfold same_second.
  split; [apply str_inj; exact Hy|].
  split; [apply month_abbr_inj; assumption|].
  split; [apply two_digits_inj; [lia | lia | exact Hd]|].
  split; [apply two_digits_inj; [lia | lia | exact Hh]|].
  split; [apply two_digits_inj; [lia | lia | exact Hmi]|].
  apply two_digits_inj; [lia | lia | exact Hs].
Qed.

Lemma strftime_same_second (a b : datetime) : same_second a b -> strftime a = strftime b.
Proof.
  intros (Hy & Hm & Hd & Hh & Hmi & Hs). unfold strftime.
  rewrite Hy, Hm, Hd, Hh, Hmi, Hs. reflexivity.
Qed.

(** X17.  The stamp [get_local_time] returns tells the time to the second and
    nothing finer: for clock readings with a year of four digits it has
    twenty characters, and two readings give the same stamp exactly when
    they agree on the year, month, day, hour, minute and second, whatever
    their microseconds. *)
Theorem local_time_to_the_second (a b : datetime) :
  four_digit_year a -> four_digit_year b ->
  String.length (get_local_time a) = 20%nat /\
  (get_local_time a = get_local_time b <-> same_second a b).
Proof.
  intros Ha Hb. unfold get_local_time. split; [apply strftime_length; exact Ha|].
  split; [apply strftime_inj; assumption | apply strftime_same_second].
Qed.

End LocalTime.

Section CheckpointNames.
Context {Data Params OptSD Torch : Type}.
Import utils.

Local Abbreviation W := (world Data Params OptSD Torch).

Lemma os_path_join_inj (a b1 b2 : string) (c : ascii) (r1 r2 : string) :
  b1 = String c r1 -> b2 = String c r2 -> os_path_join a b1 = os_path_join a b2 -> b1 = b2.
Proof.
  intros -> ->. unfold os_path_join. simpl starts_with_sep.
  destruct (Ascii.eqb c "/"); [auto|].
  destruct (String.eqb a "" || ends_with_sep a)%bool; intros H.
  - exact (string_app_inv_head _ _ _ H).
  - apply string_app_inv_head in H. exact (string_app_inv_head _ _ _ H).
Qed.

(** X18.  Two base trainers built from the same configuration write their
    checkpoints to the same file exactly when they were constructed within
    the same second: the file name carries the model name and the
    construction time to the second, so trainers a second apart never
    share a file and trainers within one second always do. *)
Theorem checkpoint_file_per_second (cfg : config) (model1 model2 : model_info)
        (a b : datetime) (t1 t2 : Torch) (d1 d2 : gmap string (checkpoint Params OptSD)) :
  four_digit_year a -> four_digit_year b ->
  let file now model t d :=
    saved_model_file (self (snd (Trainer.__init__ cfg model now t d : _ * W))) in
  file (get_local_time a) model1 t1 d1 = file (get_local_time b) model2 t2 d2
  <-> same_second a b.
Proof.
  intros Ha Hb file. subst file. cbv beta.
  destruct (trainer_init_run (Data := Data) cfg model1 (get_local_time a) t1 d1)
    as (o1 & evs1 & ->).
  destruct (trainer_init_run (Data := Data) cfg model2 (get_local_time b) t2 d2)
    as (o2 & evs2 & ->).
  cbn [snd self saved_model_file]. unfold get_local_time.
  split.
  - unfold checkpoint_path. intros H. apply strftime_inj; [exact Ha | exact Hb |].
    assert (Hname : cfg_model cfg +:+ "-" +:+ strftime a +:+ ".pth" =
                    cfg_model cfg +:+ "-" +:+ strftime b +:+ ".pth").
    { unfold get_local_time. destruct (cfg_model cfg) as [|c r] eqn:Em.
      - exact (os_path_join_inj _ _ _ "-"%char _ _ eq_refl eq_refl H).
      - exact (os_path_join_inj _ _ _ c _ _ eq_refl eq_refl H). }
    apply string_app_inv_head in Hname. apply string_app_inv_head in Hname.
    exact (string_app_inv_tail _ _ _ Hname).
  - intros Hsame. rewrite (strftime_same_second a b Hsame). reflexivity.
Qed.

End CheckpointNames.

(** X17 at two readings of the clock half a second apart, and a third one
    second later. *)
Lemma local_time_to_the_second_witness :
  utils.get_local_time (utils.Datetime 2020 11 14 10 0 0 0) =
  utils.get_local_time (utils.Datetime 2020 11 14 10 0 0 500000) /\
  utils.get_local_time (utils.Datetime 2020 11 14 10 0 0 0) <>
  utils.get_local_time (utils.Datetime 2020 11 14 10 0 1 0).
Proof.
  assert (Hv : forall s us, 0 <= s <= 59 ->
                 utils.four_digit_year (utils.Datetime 2020 11 14 10 0 s us)).
  { intros s us Hs. unfold utils.four_digit_year. simpl. lia. }
  split.
  - apply (local_time_to_the_second _ _ (Hv 0 0 ltac:(lia)) (Hv 0 500000 ltac:(lia))).
    repeat split.
  - intros H.
    apply (local_time_to_the_second _ _ (Hv 0 0 ltac:(lia)) (Hv 1 0 ltac:(lia))) in H.
    destruct H as (_ & _ & _ & _ & _ & Hs). discriminate Hs.
Defined.

(** X18 at a trainer constructed half a second after another. *)
Lemma checkpoint_file_per_second_witness :
  saved_model_file
    (self (snd (Trainer.__init__ (Toy.cfg "adam" 1 1 1) Toy.model
                  (utils.get_local_time (utils.Datetime 2020 11 14 10 0 0 0))
                  (0, 0) ∅ : _ * world losses Z Z (Z * Z)))) =
  saved_model_file
    (self (snd (Trainer.__init__ (Toy.cfg "adam" 1 1 1) Toy.model
                  (utils.get_local_time (utils.Datetime 2020 11 14 10 0 0 500000))
                  (0, 0) ∅ : _ * world losses Z Z (Z * Z)))).
Proof.
  assert (Hv : forall us, utils.four_digit_year (utils.Datetime 2020 11 14 10 0 0 us)).
  { intros us. unfold utils.four_digit_year. simpl. lia. }
  apply (checkpoint_file_per_second (Data := losses) (Toy.cfg "adam" 1 1 1) Toy.model
           Toy.model _ _ (0, 0) (0, 0) ∅ ∅ (Hv 0) (Hv 500000)).
  repeat split.
Defined.

Section Loaders.
Import utils loaders.

(** X19.  [get_model] raises nothing but [NotImplementedError]: a module
    that is not found, one that fails to import and a class missing from
    its module all end in the same error, whose message names
    [Pretrained_Models] for every name of [PLM_MODELS].  It returns a class
    exactly when the module named by the lower-cased name holds it under
    the name as given: the module is found whatever the case of the
    letters, the class only by its exact name. *)
Theorem get_model_only_not_implemented {C} (PLM_MODELS : list string)
        (model_package : string -> module_state C) (model_name : string) :
  let name := class_name_of PLM_MODELS model_name in
  (mem (lower model_name) PLM_MODELS = true -> name = "Pretrained_Models") /\
  (mem (lower model_name) PLM_MODELS = false -> name = model_name) /\
  (forall c, get_model PLM_MODELS model_package model_name = Return c <->
             exists attrs, model_package (lower name) = Module_ attrs /\
                           attrs !! name = Some c) /\
  (forall e, get_model PLM_MODELS model_package model_name = Throw e ->
             e = NotImplementedError (name +:+ " can't be found")).
Proof.
  intros name. subst name. unfold class_name_of.
  split; [intros ->; reflexivity|]. split; [intros ->; reflexivity|].
  fold (class_name_of PLM_MODELS model_name).
  unfold get_model, find_class.
  destruct (model_package (lower (class_name_of PLM_MODELS model_name)))
    as [|e0|e0|attrs] eqn:Em.
  - split; [intros c; split; [discriminate | intros (a & Ha & _); discriminate]|].
    intros e H. inversion H. reflexivity.
  - split; [intros c; split; [discriminate | intros (a & Ha & _); discriminate]|].
    intros e H. inversion H. reflexivity.
  - split; [intros c; split; [discriminate | intros (a & Ha & _); discriminate]|].
    intros e H. inversion H. reflexivity.
  - destruct (attrs !! class_name_of PLM_MODELS model_name) as [c0|] eqn:Ea.
    + split; [|discriminate].
      intros c. split.
      * intros H. inversion H; subst. exists attrs. split; [reflexivity | exact Ea].
      * intros (a & Ha & Hc). inversion Ha; subst. congruence.
    + split; [|intros e H; inversion H; reflexivity].
      intros c. split; [discriminate|].
      intros (a & Ha & Hc). inversion Ha; subst. congruence.
Qed.

Lemma ends_with_Trainer_cons (c : ascii) (r : string) :
  ends_with_Trainer (String c r) =
  if String.eqb (String c r) "Trainer" then true else ends_with_Trainer r.
Proof. reflexivity. Qed.

Lemma ends_with_Trainer_app (s : string) : ends_with_Trainer (s +:+ "Trainer") = true.
Proof.
  induction s as [|c s IH]; [reflexivity|].
  change (String c s +:+ "Trainer") with (String c (s +:+ "Trainer")).
  rewrite ends_with_Trainer_cons, IH.
  destruct (String.eqb (String c (s +:+ "Trainer")) "Trainer"); reflexivity.
Qed.

Lemma getattr_in {A} (namespace : list (string * A)) (name : string) (v : A) :
  getattr namespace name = Return v -> In (name, v) namespace.
Proof.
  induction namespace as [|[k x] rest IH]; simpl; [discriminate|].
  destruct (String.eqb_spec k name) as [->|_].
  - intros H. inversion H. left. reflexivity.
  - intros H. right. exact (IH H).
Qed.

Lemma getattr_throw {A} (namespace : list (string * A)) (name : string) (e : error) :
  getattr namespace name = Throw e -> e = Builtin (AttributeError name).
Proof.
  induction namespace as [|[k x] rest IH]; simpl.
  - intros H. inversion H. reflexivity.
  - destruct (String.eqb k name); [discriminate | exact IH].
Qed.

(** Only classes have a name that ends with ["Trainer"]. *)
Lemma trainer_names_are_classes (name : string) (v : attribute) :
  In (name, v) trainer_module -> ends_with_Trainer name = true ->
  exists c, v = Class c /\ trainer_class_name c = name.
Proof.
  intros Hin Hend.
  assert (Hall : forallb (fun kv : string * attribute =>
                            implb (ends_with_Trainer (fst kv))
                                  (match snd kv with
                                   | Class c => String.eqb (trainer_class_name c) (fst kv)
                                   | _ => false
                                   end)) trainer_module = true)
    by (vm_compute; reflexivity).
  rewrite forallb_forall in Hall. specialize (Hall _ Hin). simpl in Hall.
  rewrite Hend in Hall. simpl in Hall.
  destruct v as [c| |]; try discriminate.
  exists c. split; [reflexivity | apply String.eqb_eq; exact Hall].
Qed.

(** X20.  [get_trainer] never fails and always returns a class of
    [trainer.py], never another name of the module: the class called
    [model_name + 'Trainer'] when the module has one, and the base
    [Trainer] for every other name, a name that differs from a class only
    by the case of its letters included. *)
Theorem get_trainer_returns_a_trainer (model_name : string) :
  exists c,
    get_trainer model_name = Return (Class c) /\
    (trainer_class_name c = model_name +:+ "Trainer" \/
     c = Trainer /\
     forall c', trainer_class_name c' <> model_name +:+ "Trainer").
Proof.
  unfold get_trainer.
  destruct (getattr trainer_module (model_name +:+ "Trainer")) as [v|e] eqn:Hget.
  - destruct (trainer_names_are_classes _ _ (getattr_in _ _ _ Hget)
                (ends_with_Trainer_app model_name)) as (c & -> & Hname).
    exists c. split; [reflexivity | left; exact Hname].
  - rewrite (getattr_throw _ _ _ Hget).
    exists Trainer. split; [reflexivity|]. right. split; [reflexivity|].
    intros c' Hc'. rewrite <- Hc' in Hget.
    destruct c'; vm_compute in Hget; discriminate.
Qed.

End Loaders.

Section Tokenizers.
Import utils loaders tokenizers.

Variable PLM_MODELS : list string.
Variable from_pretrained : option string -> list (string * string) -> result tokenizer.

Local Abbreviation get := (get_tokenizer PLM_MODELS from_pretrained).

(** X21.  [get_tokenizer] returns a tokenizer only for the models of
    [PLM_MODELS]: for every other model the name [tokenizer] is never
    bound and the function raises [UnboundLocalError].  For a model of
    [PLM_MODELS] that none of the five adjustments names, it returns the
    pretrained tokenizer as [from_pretrained] built it, from
    [tokenizer_path] or, when that is unset or empty, from [model_path];
    an error of [from_pretrained] is passed on. *)
Theorem get_tokenizer_needs_a_plm (config : tokenizer_config) :
  let name := model_name config in
  (mem name PLM_MODELS = false -> get config = Throw (UnboundLocalError "tokenizer")) /\
  (mem name PLM_MODELS = true ->
   mem name ["ctrl"; "openai-gpt"; "gpt2"; "gpt_neo"; "cpm"; "blenderbot-small"; "opt";
             "m2m_100"; "mbart"] = false ->
   get config =
   from_pretrained (or_else (tokenizer_path config) (model_path config))
                   (kwargs_or_empty (tokenizer_kwargs config))).
Proof.
  intros name. subst name. unfold get_tokenizer. split.
  - intros ->. reflexivity.
  - intros -> Hnone.
    destruct (from_pretrained _ _) as [t|e]; [|reflexivity].
    unfold mem in *. simpl in *.
    repeat match type of Hnone with
           | (?a || ?b)%bool = false => apply orb_false_iff in Hnone; destruct Hnone as [? Hnone]
           end.
    repeat match goal with
           | H : String.eqb _ _ = false |- _ => rewrite H; clear H
           end.
    reflexivity.
Qed.

(** X22.  For the six models whose tokenizer gets the end-of-sequence lambda
    ([blenderbot-small], [cpm], [ctrl], [gpt2], [gpt_neo], [openai-gpt]) the
    two methods [get_tokenizer] installs agree: the built input is the
    sequence followed by the one id [eos_token_id], as
    [num_special_tokens_to_add()] says, and for [opt] it is the sequence
    between [bos_token_id] and [eos_token_id], two ids.  A second sequence
    given with the first is dropped, and asking the count with a [pair]
    argument raises [TypeError]. *)
Theorem installed_special_tokens_agree (config : tokenizer_config) (t : tokenizer)
        (t0 : list Z) (t1 : option (list Z)) (pair : bool) :
  get config = Return t ->
  let name := model_name config in
  let built := build_inputs_with_special_tokens t t0 t1 in
  (mem name ["blenderbot-small"; "cpm"; "ctrl"; "gpt2"; "gpt_neo"; "openai-gpt"] = true ->
   built = map Some t0 ++ [eos_token_id t] /\
   num_special_tokens_to_add t None = Return 1 /\
   Z.of_nat (length built) = Z.of_nat (length t0) + 1 /\
   exists msg, num_special_tokens_to_add t (Some pair) = Throw (Builtin (TypeError msg))) /\
  (name = "opt" ->
   built = [bos_token_id t] ++ map Some t0 ++ [eos_token_id t] /\
   num_special_tokens_to_add t None = Return 2 /\
   Z.of_nat (length built) = Z.of_nat (length t0) + 2 /\
   exists msg, num_special_tokens_to_add t (Some pair) = Throw (Builtin (TypeError msg))).
Proof.
  intros Hget name built. subst name built. unfold get_tokenizer in Hget.
  destruct (mem (model_name config) PLM_MODELS); [|discriminate].
  destruct (from_pretrained _ _) as [t'|e]; [|discriminate].
  split.
  - intros Hsix.
    assert (Hname : In (model_name config)
                       ["blenderbot-small"; "cpm"; "ctrl"; "gpt2"; "gpt_neo"; "openai-gpt"]).
    { unfold mem in Hsix. apply existsb_exists in Hsix. destruct Hsix as (k & Hk & Heq).
      apply String.eqb_eq in Heq. subst k. exact Hk. }
    simpl in Hname.
    destruct Hname as [E|[E|[E|[E|[E|[E|[]]]]]]]; rewrite <- E in Hget; cbn in Hget;
      inversion Hget; subst t; clear Hget;
      unfold build_inputs_with_special_tokens, num_special_tokens_to_add; cbn;
      (split; [reflexivity|]); (split; [reflexivity|]);
      (split; [rewrite length_app, length_map; simpl; lia|]);
      eexists; reflexivity.
  - intros Hopt. rewrite Hopt in Hget. cbn in Hget.
    inversion Hget; subst t. clear Hget.
    unfold build_inputs_with_special_tokens, num_special_tokens_to_add. cbn.
    split; [reflexivity|]. split; [reflexivity|].
    split; [rewrite length_app, length_map; simpl; lia|].
    eexists. reflexivity.
Qed.

(** X23.  The special tokens [get_tokenizer] leaves: for [ctrl] and
    [openai-gpt] the end-of-sequence token is ["</s>"], it is in the
    vocabulary, and the padding token is that same token; for [gpt2] and
    [gpt_neo] the padding token is the pretrained end-of-sequence token;
    for [cpm] the end-of-sequence token is the pretrained separator, so
    the id the installed lambda appends is the separator's. *)
Theorem installed_special_tokens (config : tokenizer_config) (t t' : tokenizer) :
  from_pretrained (or_else (tokenizer_path config) (model_path config))
                  (kwargs_or_empty (tokenizer_kwargs config)) = Return t' ->
  get config = Return t ->
  let name := model_name config in
  (name = "ctrl" \/ name = "openai-gpt" ->
   eos_token t = Some "</s>" /\ pad_token t = Some "</s>" /\
   is_Some (vocab t !! "</s>") /\ eos_token_id t = vocab t !! "</s>") /\
  (name = "gpt2" \/ name = "gpt_neo" ->
   pad_token t = eos_token t' /\ eos_token t = eos_token t') /\
  (name = "cpm" ->
   eos_token t = sep_token t' /\
   build_inputs_with_special_tokens t [] None =
     [match sep_token t' with
      | Some token => convert_token_to_id t' token
      | None => None
      end]).
Proof.
  intros Hpre Hget name. subst name. unfold get_tokenizer in Hget.
  destruct (mem (model_name config) PLM_MODELS); [|discriminate].
  rewrite Hpre in Hget.
  split; [|split].
  - intros [E|E]; rewrite E in Hget; cbn in Hget; inversion Hget; subst t; cbn;
      unfold eos_token_id, convert_token_to_id; cbn;
      (destruct (vocab t' !! "</s>") as [i|] eqn:Ev; cbn;
       [rewrite Ev; repeat split; eexists; reflexivity
       |rewrite lookup_insert_eq; repeat split; eexists; reflexivity]).
  - intros [E|E]; rewrite E in Hget; cbn in Hget; inversion Hget; subst t; cbn;
      split; reflexivity.
  - intros E. rewrite E in Hget. cbn in Hget. inversion Hget; subst t. cbn.
    split; reflexivity.
Qed.

(** X24.  For [m2m_100] and [mbart], [get_tokenizer] demands both languages:
    if [src_lang] or [tgt_lang] is unset or empty the assertion fails,
    after the pretrained tokenizer was loaded; otherwise the tokenizer
    returned is the pretrained one with [src_lang] and [tgt_lang] set from
    the configuration and nothing else changed. *)
Theorem translation_models_need_languages (config : tokenizer_config) (t' : tokenizer) :
  mem (model_name config) PLM_MODELS = true ->
  model_name config = "m2m_100" \/ model_name config = "mbart" ->
  from_pretrained (or_else (tokenizer_path config) (model_path config))
                  (kwargs_or_empty (tokenizer_kwargs config)) = Return t' ->
  get config =
  if (truthy (config_src_lang config) && truthy (config_tgt_lang config))%bool
  then Return (set_langs (config_src_lang config) (config_tgt_lang config) t')
  else Throw (AssertionError (language_message (model_name config))).
Proof.
  intros Hplm Hname Hpre. unfold get_tokenizer. rewrite Hplm, Hpre.
  destruct Hname as [E|E]; rewrite E; reflexivity.
Qed.

End Tokenizers.

Section PaddingFacts.
Import Padding.

Lemma combine_with_repeat {A B} (f : A -> B -> B) (xs : list A) (y : B) :
  map (fun '(a, b) => f a b) (combine xs (repeat y (length xs))) = map (fun a => f a y) xs.
Proof. induction xs as [|x xs IH]; simpl; [reflexivity | rewrite IH; reflexivity]. Qed.

Lemma skipn_repeat {A} (x : A) (k n : nat) : skipn k (repeat x n) = repeat x (n - k).
Proof.
  revert n. induction k as [|k IH]; intros [|n]; simpl; try reflexivity.
  apply IH.
Qed.

Lemma add_pad_ok (s : trainer) (data : tensor) :
  (shape1 data <= Z.to_nat (max_length s))%nat ->
  0 <= max_length s ->
  _add_pad s data =
  Ok (Tensor2 (Z.to_nat (max_length s))
              (map (fun row => row ++ repeat (pad_idx (self_model s))
                                             (Z.to_nat (max_length s) - shape1 data))
                   (rows data))).
Proof.
  intros Hk HL. unfold _add_pad, full.
  destruct (Z.ltb_spec (max_length s) 0) as [Hneg|_]; [lia|].
  unfold assign_columns. cbn [shape1 rows].
  rewrite (Nat.min_l _ _ Hk), Nat.eqb_refl.
  unfold shape0.
  rewrite (combine_with_repeat (fun src tgt => src ++ skipn (shape1 data) tgt)).
  rewrite skipn_repeat. reflexivity.
Qed.

(** X25.  [_add_pad] pads and never truncates.  A batch whose sequences are
    no longer than [max_length] comes back with as many rows, each of them
    the original row followed by [pad_idx] up to [max_length], so the
    first columns give the batch back; a batch of longer sequences (two
    columns or more) is refused with an error. *)
Theorem add_pad_pads_and_never_truncates (s : trainer) (data : tensor) :
  well_shaped data ->
  0 <= max_length s ->
  let L := Z.to_nat (max_length s) in
  ((shape1 data <= L)%nat ->
   exists padded,
     _add_pad s data = Ok padded /\
     shape0 padded = shape0 data /\ shape1 padded = L /\ well_shaped padded /\
     rows padded = map (padded_to L (pad_idx (self_model s))) (rows data) /\
     map (firstn (shape1 data)) (rows padded) = rows data) /\
  ((L < shape1 data)%nat -> (1 < shape1 data)%nat ->
   exists msg, _add_pad s data = Raise (RuntimeError msg)).
Proof.
  intros Hwf HL L. split.
  - intros Hk. rewrite (add_pad_ok s data Hk HL). fold L.
    eexists. split; [reflexivity|]. cbn [shape1 rows]. unfold shape0. cbn [rows].
    split; [apply length_map|]. split; [reflexivity|].
    unfold well_shaped in *. cbn [rows shape1].
    split; [|split].
    + apply List.Forall_map. eapply List.Forall_impl; [|exact Hwf].
      intros row Hrow. cbn beta. rewrite length_app, repeat_length, Hrow. lia.
    + apply map_ext_Forall. eapply List.Forall_impl; [|exact Hwf].
      intros row Hrow. unfold padded_to. rewrite Hrow. reflexivity.
    + rewrite map_map. rewrite <- (map_id (rows data)) at 2.
      apply map_ext_Forall. eapply List.Forall_impl; [|exact Hwf].
      intros row Hrow. cbn beta. rewrite <- Hrow, firstn_app, Nat.sub_diag, firstn_all.
      simpl. apply app_nil_r.
  - intros Hlong Hwide. unfold _add_pad, full.
    destruct (Z.ltb_spec (max_length s) 0) as [Hneg|_]; [lia|].
    unfold assign_columns. cbn [shape1 rows]. fold L.
    rewrite (Nat.min_r (shape1 data) L) by lia.
    destruct (Nat.eqb_spec (shape1 data) L) as [E|_]; [lia|].
    destruct (Nat.eqb_spec (shape1 data) 1) as [E|_]; [lia|].
    eexists. reflexivity.
Qed.

Lemma pad_all_ok (s : trainer) (train_data : list corpus) (datas : list tensor) :
  0 <= max_length s ->
  Forall2 (fun (c : corpus) data =>
             c !! "target_idx" = Some data /\
             (shape1 data <= Z.to_nat (max_length s))%nat) train_data datas ->
  pad_all s train_data =
  Ok (map (fun data =>
             Tensor2 (Z.to_nat (max_length s))
                     (map (fun row => row ++ repeat (pad_idx (self_model s))
                                                    (Z.to_nat (max_length s) - shape1 data))
                          (rows data)))
          datas).
Proof.
  intros HL H. induction H as [|c data cs ds [Hkey Hk] _ IH]; [reflexivity|].
  simpl. rewrite Hkey, (add_pad_ok s data Hk HL), IH. reflexivity.
Qed.

(** X26.  [_get_real_data] stacks the padded targets of the batches in the
    order of the loader: with every batch holding a [target_idx] of
    sequences no longer than [max_length], the result has [max_length]
    columns and one row per sequence of the data, each padded with
    [pad_idx].  A loader of no batch is refused by [torch.cat], and a
    batch without [target_idx] raises [KeyError]. *)
Theorem get_real_data_stacks_the_batches (s : trainer) (train_data : list corpus)
        (datas : list tensor) :
  0 <= max_length s ->
  Forall2 (fun (c : corpus) data =>
             c !! "target_idx" = Some data /\ well_shaped data /\
             (shape1 data <= Z.to_nat (max_length s))%nat) train_data datas ->
  let L := Z.to_nat (max_length s) in
  (train_data <> [] ->
   exists real_datas,
     _get_real_data s train_data = Ok real_datas /\
     shape1 real_datas = L /\ well_shaped real_datas /\
     rows real_datas =
       map (padded_to L (pad_idx (self_model s))) (concat (map rows datas)) /\
     shape0 real_datas = length (concat (map rows datas))) /\
  (exists msg, _get_real_data s [] = Raise (RuntimeError msg)) /\
  (forall (c : corpus) rest,
     c !! "target_idx" = None ->
     _get_real_data s (train_data ++ c :: rest) = Raise (KeyError "target_idx")).
Proof.
  intros HL H L.
  assert (H' : Forall2 (fun (c : corpus) data =>
                          c !! "target_idx" = Some data /\
                          (shape1 data <= Z.to_nat (max_length s))%nat) train_data datas).
  { eapply Forall2_impl; [exact H|]. intros c d (Hk & _ & Hs). split; assumption. }
  assert (Hboth : Forall (fun d => well_shaped d /\ (shape1 d <= Z.to_nat (max_length s))%nat)
                         datas).
  { clear H'. induction H as [|c d cs ds (_ & Hw & Hs) _ IH]; constructor;
      [split; assumption | assumption]. }
  assert (Hwf : Forall well_shaped datas).
  { eapply List.Forall_impl; [|exact Hboth]. intros d [Hw _]. exact Hw. }
  assert (Hrows : forall ds, Forall well_shaped ds ->
            concat (map rows
              (map (fun data =>
                      Tensor2 L (map (fun row => row ++ repeat (pad_idx (self_model s))
                                                               (L - shape1 data))
                                     (rows data))) ds))
            = map (padded_to L (pad_idx (self_model s))) (concat (map rows ds))).
  { intros ds Hds. induction Hds as [|d ds Hd _ IH]; [reflexivity|].
    simpl. rewrite map_app, IH. f_equal.
    apply map_ext_Forall. eapply List.Forall_impl; [|exact Hd].
    intros row Hrow. unfold padded_to. rewrite Hrow. reflexivity. }
  split; [|split].
  - intros Hne. unfold _get_real_data. rewrite (pad_all_ok s train_data datas HL H').
    fold L.
    destruct H as [|c d cs ds Hcd Hrest]; [congruence|].
    cbn [map cat shape1].
    eexists. split; [reflexivity|]. cbn [shape1 rows]. unfold shape0. cbn [rows].
    fold (map rows (d :: ds)).
    change (map (λ row : list Z, row ++ repeat (pad_idx (self_model s)) (L - shape1 d)) (rows d)
            :: map rows (map (fun data =>
                      Tensor2 L (map (fun row => row ++ repeat (pad_idx (self_model s))
                                                               (L - shape1 data))
                                     (rows data))) ds))
      with (map rows (map (fun data =>
                      Tensor2 L (map (fun row => row ++ repeat (pad_idx (self_model s))
                                                               (L - shape1 data))
                                     (rows data))) (d :: ds))).
    rewrite (Hrows (d :: ds) Hwf).
    split; [reflexivity|]. split; [|split; [reflexivity | apply length_map]].
    unfold well_shaped. cbn [rows shape1].
    apply List.Forall_map. apply List.Forall_concat. apply List.Forall_map.
    eapply List.Forall_impl; [|exact Hboth].
    intros t [Ht Hle]. unfold well_shaped in Ht. eapply List.Forall_impl; [|exact Ht].
    intros row Hrow. cbn beta. unfold padded_to. rewrite length_app, repeat_length.
    unfold L in *. lia.
  - eexists. reflexivity.
  - intros c rest Hnone. unfold _get_real_data.
    assert (Hraise : pad_all s (train_data ++ c :: rest) = Raise (KeyError "target_idx")).
    { clear Hrows Hwf Hboth H. induction H' as [|c0 d cs ds [Hkey Hk] _ IH]; simpl.
      - rewrite Hnone. reflexivity.
      - rewrite Hkey, (add_pad_ok s d Hk HL), IH. reflexivity. }
    rewrite Hraise. reflexivity.
Qed.

End PaddingFacts.

(** X9 at an adversarial trainer that saved once and whose parameters
    moved on afterwards: [evaluate] scores the saved ones. *)
Lemma evaluate_loads_the_checkpoint_witness :
  let w1 := snd (GANTrainer._save_checkpoint 0 (Toy.fresh_gan (Toy.cfg "adam" 1 1 1))) in
  let w2 := World (self w1) (7, 7) (disk w1) (trace w1) in
  fst (Evaluate.evaluate (Tensor 1%float) true None w2) = Ok 0.
Proof.
  intros w1 w2.
  destruct (evaluate_loads_the_checkpoint (B := Toy.backend) (V := Samples.evaluation)
              (Tensor 1%float) None w2) as (_ & _ & _ & H).
  destruct (H (gan_checkpoint (Toy.fresh_gan (Toy.cfg "adam" 1 1 1)) 0) (0, 7)
              (lookup_insert_eq _ _ _) eq_refl) as [_ Hrun].
  rewrite Hrun. reflexivity.
Defined.

(** X22 at [gpt2]: the built input has one id more than the sequence, and
    the second sequence is gone. *)
Lemma installed_special_tokens_agree_witness :
  match tokenizers.get_tokenizer Samples.PLM_MODELS Samples.from_pretrained
          (Samples.tokenizer_config "gpt2" None None) with
  | utils.Return t =>
      tokenizers.build_inputs_with_special_tokens t [10; 11] (Some [12]) =
        [Some 10; Some 11] ++ [tokenizers.eos_token_id t] /\
      tokenizers.num_special_tokens_to_add t None = utils.Return 1
  | utils.Throw _ => False
  end.
Proof.
  destruct (tokenizers.get_tokenizer Samples.PLM_MODELS Samples.from_pretrained
              (Samples.tokenizer_config "gpt2" None None)) as [t|e] eqn:E.
  - destruct (installed_special_tokens_agree Samples.PLM_MODELS Samples.from_pretrained
                (Samples.tokenizer_config "gpt2" None None) t [10; 11] (Some [12]) true E)
      as [H _].
    destruct (H eq_refl) as (Hb & Hn & _).
    split; [exact Hb | exact Hn].
  - discriminate E.
Defined.

(** X23 at [ctrl]: the padding token is ["</s>"]. *)
Lemma installed_special_tokens_witness :
  match tokenizers.get_tokenizer Samples.PLM_MODELS Samples.from_pretrained
          (Samples.tokenizer_config "ctrl" None None) with
  | utils.Return t =>
      tokenizers.eos_token t = Some "</s>" /\ tokenizers.pad_token t = Some "</s>"
  | utils.Throw _ => False
  end.
Proof.
  destruct (tokenizers.get_tokenizer Samples.PLM_MODELS Samples.from_pretrained
              (Samples.tokenizer_config "ctrl" None None)) as [t|e] eqn:E.
  - destruct (installed_special_tokens Samples.PLM_MODELS Samples.from_pretrained
                (Samples.tokenizer_config "ctrl" None None) t Samples.pretrained
                eq_refl E) as [H _].
    destruct (H (or_introl eq_refl)) as (Heos & Hpad & _).
    split; [exact Heos | exact Hpad].
  - discriminate E.
Defined.

(** X24 at [m2m_100] with a source language and no target language. *)
Lemma translation_models_need_languages_witness :
  tokenizers.get_tokenizer Samples.PLM_MODELS Samples.from_pretrained
    (Samples.tokenizer_config "m2m_100" (Some "en") None) =
  utils.Throw (utils.AssertionError (tokenizers.language_message "m2m_100")).
Proof.
  exact (translation_models_need_languages Samples.PLM_MODELS Samples.from_pretrained
           (Samples.tokenizer_config "m2m_100" (Some "en") None) Samples.pretrained
           eq_refl (or_introl eq_refl) eq_refl).
Defined.

(** X25 at a batch of two sequences of two tokens, padded to four. *)
Lemma add_pad_pads_and_never_truncates_witness :
  Padding._add_pad Samples.padding_trainer Samples.batch1 =
  Ok (Padding.Tensor2 4 [[5; 6; 0; 0]; [7; 8; 0; 0]]).
Proof.
  assert (Hwf : Padding.well_shaped Samples.batch1) by (repeat constructor).
  assert (HL : 0 <= max_length Samples.padding_trainer) by (vm_compute; discriminate).
  destruct (add_pad_pads_and_never_truncates Samples.padding_trainer Samples.batch1 Hwf HL)
    as [H _].
  destruct H as (padded & Hrun & _); [vm_compute; lia|].
  rewrite Hrun. vm_compute in Hrun. inversion Hrun. reflexivity.
Defined.

(** X26 at two batches, of two sequences and of one. *)
Lemma get_real_data_stacks_the_batches_witness :
  exists real_datas,
    Padding._get_real_data Samples.padding_trainer
      [Samples.corpus_of Samples.batch1; Samples.corpus_of Samples.batch2] = Ok real_datas /\
    Padding.shape0 real_datas = 3%nat /\ Padding.shape1 real_datas = 4%nat.
Proof.
  assert (HL : 0 <= max_length Samples.padding_trainer) by (vm_compute; discriminate).
  assert (H2 : Forall2 (fun (c : Padding.corpus) data =>
                          c !! "target_idx" = Some data /\ Padding.well_shaped data /\
                          (Padding.shape1 data
                           <= Z.to_nat (max_length Samples.padding_trainer))%nat)
                       [Samples.corpus_of Samples.batch1; Samples.corpus_of Samples.batch2]
                       [Samples.batch1; Samples.batch2]).
  { repeat constructor; vm_compute; lia. }
  destruct (get_real_data_stacks_the_batches Samples.padding_trainer _ _ HL H2) as [H _].
  destruct H as (r & Hrun & Hs1 & _ & _ & Hs0); [discriminate|].
  exists r. split; [exact Hrun|]. split; [exact Hs0 | exact Hs1].
Defined.

(** X14 on a MaskGAN trainer with one generator pretraining epoch and a
    model whose losses are pairs. *)
Lemma maskgan_pretraining_of_tuples_raises_witness :
  let w := Coin.fresh_maskgan (Config "MaskGAN" "adam" 0.5%float 1 1 1 "saved" 5%float
                                      1 0 1 1 1 1 1 10) in
  is_ok (fst (MaskGANTrainer._g_train_epoch (B := Samples.pairs) [true; false] 0 w))
    = false /\
  is_ok (fst (MaskGANTrainer._d_train_epoch (B := Samples.pairs) [true; false] 0 w))
    = false /\
  is_ok (fst (GANTrainer.fit (B := Samples.pairs) MaskGANTrainer.methods
                [true; false] None false true w)) = false.
Proof.
  intros w.
  destruct (maskgan_pretraining_of_tuples_raises (B := Samples.pairs)
              [true; false] None false true 0 w) as (Hg & Hd & Hfit).
  - intros t c. exists [1%float; 2%float]. reflexivity.
  - split; [exact Hg|]. split; [exact Hd|]. apply Hfit. vm_compute. discriminate.
Defined.
